(** * meetingagent: the Flask server and the LangChain wrapper

    A shallow embedding of [enhanced_chrome_extension_server.py] and
    [langchain_agent.py].

    - Python values that travel into [jsonify] are modelled by [json]
      (numbers are integers; a dict is the list of its items, keys unique).
    - A Python text is the string of its UTF-8 bytes: its length and its
      slices count characters, and a digit is any decimal digit of Unicode.
    - A call answers, raises an exception that is an [Exception], or is left
      by one that is not (KeyboardInterrupt, SystemExit), which no
      [except Exception] catches.
    - The external [CalendarPersonResearchAgent] / [CalendarAgent] objects are
      records of methods over an abstract world [W]: every method may change
      the world and may raise.  The records they serve are typed: a title is
      a text, a time is a [datetime] or [None], a search answers a list.
    - Handlers run in a state-and-exception monad [M] whose state holds the
      module-level bindings, the agent's world, the clock and a log of the
      agent calls.  What the handlers print is not part of the state.
    - Of Flask, the model keeps the rules of the application (the static
      rule of [Flask(__name__)] and the decorated ones, with the methods
      Flask adds) and the choice of a view by method and path; what the
      framework answers by itself is not detailed. *)

From Stdlib Require Import ZArith Ascii String List Bool Lia.
From stdpp Require Import base option list gmap strings.

Set Default Proof Using "Type".
Set Warnings "-register-all".

(* ===================================================================== *)
(** ** Python exceptions and results *)
(* ===================================================================== *)

(** An exception object: its class name and [str(e)]. *)
Record PyExc := mkExc { exc_type : string; exc_str : string }.

(** What a call does: it answers [a]; it raises [e], an instance of
    [Exception]; or it is left by [e], a [BaseException] that is not an
    [Exception] (KeyboardInterrupt, SystemExit, GeneratorExit). *)
Inductive result (A : Type) : Type :=
| Ok (a : A)
| Raise (e : PyExc)
| Exit (e : PyExc).
Arguments Ok {A} a.
Arguments Raise {A} e.
Arguments Exit {A} e.

(* ===================================================================== *)
(** ** JSON values, as passed to [jsonify] *)
(* ===================================================================== *)

Inductive json : Type :=
| JNull
| JBool (b : bool)
| JNum (n : Z)
| JStr (s : string)
| JArr (xs : list json)
| JObj (fields : list (string * json)).

(** Python truthiness of such a value ([if not keyword]). *)
Definition truthy (v : json) : bool :=
  match v with
  | JNull => false
  | JBool b => b
  | JNum n => negb (n =? 0)%Z
  | JStr s => negb (String.eqb s "")
  | JArr xs => negb (Nat.eqb (length xs) 0)
  | JObj fs => negb (Nat.eqb (length fs) 0)
  end.

(** [d[k]] on a dict literal, first binding of the key. *)
Fixpoint assoc (k : string) (fs : list (string * json)) : option json :=
  match fs with
  | [] => None
  | (k', v) :: fs' => if String.eqb k k' then Some v else assoc k fs'
  end.

Definition field (k : string) (v : json) : option json :=
  match v with
  | JObj fs => assoc k fs
  | _ => None
  end.

Definition keys (v : json) : list string :=
  match v with
  | JObj fs => map fst fs
  | _ => []
  end.

(** [d[k] = v] on a dict: replaces the value of an existing key in place,
    appends a new key at the end. *)
Fixpoint setitem (k : string) (v : json) (fs : list (string * json))
  : list (string * json) :=
  match fs with
  | [] => [(k, v)]
  | (k', v') :: fs' =>
      if String.eqb k k' then (k', v) :: fs' else (k', v') :: setitem k v fs'
  end.

(* ===================================================================== *)
(** ** [datetime]: the part of Python's class that the server uses *)
(* ===================================================================== *)

Module DateTime.
Local Open Scope Z_scope.

Record date := mkDate { d_year : Z; d_month : Z; d_day : Z }.

(** [utcoffset] is [None] for a naive datetime, seconds east of UTC
    otherwise. *)
Record datetime := mkDateTime {
  year : Z; month : Z; day : Z;
  hour : Z; minute : Z; second : Z; microsecond : Z;
  utcoffset : option Z
}.

Definition to_date (dt : datetime) : date :=
  mkDate (year dt) (month dt) (day dt).

Definition date_eqb (a b : date) : bool :=
  (d_year a =? d_year b) && (d_month a =? d_month b) && (d_day a =? d_day b).

Definition is_leap (y : Z) : bool :=
  (y mod 4 =? 0) && (negb (y mod 100 =? 0) || (y mod 400 =? 0)).

Definition days_in_month (y m : Z) : Z :=
  if m =? 2 then (if is_leap y then 29 else 28)
  else if (m =? 4) || (m =? 6) || (m =? 9) || (m =? 11) then 30
  else 31.

(** *** Printing *)

Definition digit (n : Z) : ascii := ascii_of_nat (48 + Z.to_nat (n mod 10)).

Definition zfill2 (n : Z) : string :=
  String (digit (n / 10)) (String (digit n) "").

Definition zfill4 (n : Z) : string :=
  String (digit (n / 1000)) (String (digit (n / 100)) (zfill2 n)).

Definition zfill6 (n : Z) : string :=
  String (digit (n / 100000)) (String (digit (n / 10000)) (zfill4 n)).

(** [str(n)] for a day of the month. *)
Definition str_day (n : Z) : string :=
  if n <? 10 then String (digit n) "" else zfill2 n.

(** A year from 1 to 9999 in decimal, with no padding. *)
Definition str_year (y : Z) : string :=
  if y <? 10 then String (digit y) ""
  else if y <? 100 then zfill2 y
  else if y <? 1000 then String (digit (y / 100)) (zfill2 y)
  else zfill4 y.

Definition month_name (m : Z) : string :=
  match m with
  | 1 => "January" | 2 => "February" | 3 => "March" | 4 => "April"
  | 5 => "May" | 6 => "June" | 7 => "July" | 8 => "August"
  | 9 => "September" | 10 => "October" | 11 => "November" | 12 => "December"
  | _ => ""
  end.

Definition month_abbr (m : Z) : string := substring 0 3 (month_name m).

(** [dt.strftime(fmt)] in the C locale, for the directives the server uses
    ([%B %b %d %m %Y]).  CPython hands the format to the C library, and that
    of Linux prints [%Y] with no padding ("999" for the year 999), while
    [isoformat] pads the year itself.  Any other character is copied. *)
Fixpoint strftime (dt : datetime) (fmt : string) : string :=
  match fmt with
  | EmptyString => EmptyString
  | String "%" (String c rest) =>
      let piece :=
        match c with
        | "B"%char => month_name (month dt)
        | "b"%char => month_abbr (month dt)
        | "d"%char => zfill2 (day dt)
        | "m"%char => zfill2 (month dt)
        | "Y"%char => str_year (year dt)
        | _ => String "%" (String c "")
        end in
      piece +:+ strftime dt rest
  | String c rest => String c (strftime dt rest)
  end.

Definition isoformat_offset (off : Z) : string :=
  let a := Z.abs off in
  let hh := a / 3600 in
  let mm := (a / 60) mod 60 in
  let ss := a mod 60 in
  (if off <? 0 then "-" else "+") +:+ zfill2 hh +:+ ":" +:+ zfill2 mm
    +:+ (if ss =? 0 then "" else ":" +:+ zfill2 ss).

(** [dt.isoformat()]. *)
Definition isoformat (dt : datetime) : string :=
  zfill4 (year dt) +:+ "-" +:+ zfill2 (month dt) +:+ "-" +:+ zfill2 (day dt)
    +:+ "T" +:+ zfill2 (hour dt) +:+ ":" +:+ zfill2 (minute dt)
    +:+ ":" +:+ zfill2 (second dt)
    +:+ (if microsecond dt =? 0 then "" else "." +:+ zfill6 (microsecond dt))
    +:+ (match utcoffset dt with
         | None => ""
         | Some off => isoformat_offset off
         end).

(** *** Parsing: [datetime.strptime(s, '%Y-%m-%d')]

    [_strptime] turns the format into the regular expression
    [(?P<Y>\d\d\d\d)-(?P<m>1[0-2]|0[1-9]|[1-9])-(?P<d>3[0-1]|[1-2]\d|0[1-9]|[1-9]| [1-9])],
    matches it at the start of the string, and then refuses left-over
    text.  Alternatives are tried in order with backtracking.  [\d] is any
    decimal digit of Unicode, and [int] reads such digits. *)

Definition byte (c : ascii) : Z := Z.of_nat (nat_of_ascii c).

(** A byte that continues a character in UTF-8. *)
Definition is_continuation (c : ascii) : bool :=
  (128 <=? byte c) && (byte c <? 192).

Definition continuation (c : ascii) : option Z :=
  if is_continuation c then Some (byte c - 128) else None.

(** A code point that takes the number of bytes it was written with: it
    is not below [lo], not above the last code point, and no surrogate. *)
Definition scalar (lo cp : Z) (rest : string) : option (Z * string) :=
  if (lo <=? cp) && (cp <=? 1114111)
     && negb ((55296 <=? cp) && (cp <=? 57343))
  then Some (cp, rest) else None.

(** The first character of a text, as its code point, and the text after
    it. *)
Definition next_char (s : string) : option (Z * string) :=
  match s with
  | EmptyString => None
  | String a r =>
      let x := byte a in
      if x <? 128 then Some (x, r)
      else if (192 <=? x) && (x <? 224) then
        match r with
        | String b r1 =>
            match continuation b with
            | Some y => scalar 128 ((x - 192) * 64 + y) r1
            | None => None
            end
        | _ => None
        end
      else if (224 <=? x) && (x <? 240) then
        match r with
        | String b (String c r2) =>
            match continuation b, continuation c with
            | Some y, Some z => scalar 2048 (((x - 224) * 64 + y) * 64 + z) r2
            | _, _ => None
            end
        | _ => None
        end
      else if (240 <=? x) && (x <? 248) then
        match r with
        | String b (String c (String d r3)) =>
            match continuation b, continuation c, continuation d with
            | Some y, Some z, Some t =>
                scalar 65536 ((((x - 240) * 64 + y) * 64 + z) * 64 + t) r3
            | _, _, _ => None
            end
        | _ => None
        end
      else None
  end.

(** The decimal digits of Unicode 14.0 (the database of CPython 3.11) come
    in runs of ten, from zero to nine; these are the code points of the
    zeros. *)
Definition decimal_zeros : list Z :=
  [48; 1632; 1776; 1984; 2406; 2534; 2662; 2790; 2918; 3046; 3174; 3302;
   3430; 3558; 3664; 3792; 3872; 4160; 4240; 6112; 6160; 6470; 6608; 6784;
   6800; 6992; 7088; 7232; 7248; 42528; 43216; 43264; 43472; 43504; 43600;
   44016; 65296; 66720; 68912; 69734; 69872; 69942; 70096; 70384; 70736;
   70864; 71248; 71360; 71472; 71904; 72016; 72784; 73040; 73120; 92768;
   92864; 93008; 120782; 120792; 120802; 120812; 120822; 123200; 123632;
   125264; 130032].

(** [unicodedata.decimal]: the value of a character that is a decimal
    digit. *)
Definition decimal (cp : Z) : option Z :=
  match List.find (fun z => (z <=? cp) && (cp <? z + 10)) decimal_zeros with
  | Some z => Some (cp - z)
  | None => None
  end.

(** One alternative of a group: the value and the rest of the input. *)
Definition alt := string -> option (Z * string).

(** [\d]. *)
Definition any_digit : alt := fun s =>
  match next_char s with
  | Some (cp, r) =>
      match decimal cp with
      | Some v => Some (v, r)
      | None => None
      end
  | None => None
  end.

(** [[lo-hi]], a range of the digits of ASCII. *)
Definition digit_range (lo hi : Z) : alt := fun s =>
  match s with
  | String a r =>
      let v := byte a - 48 in
      if (lo <=? v) && (v <=? hi) then Some (v, r) else None
  | _ => None
  end.

(** One digit after another. *)
Definition followed_by (p q : alt) : alt := fun s =>
  match p s with
  | Some (a, r) =>
      match q r with
      | Some (b, r') => Some (10 * a + b, r')
      | None => None
      end
  | None => None
  end.

Definition space_digit : alt := fun s =>
  match s with
  | String " " r => digit_range 1 9 r
  | _ => None
  end.

Definition re_Y : alt :=
  followed_by (followed_by (followed_by any_digit any_digit) any_digit)
              any_digit.

Definition re_m : list alt :=
  [ followed_by (digit_range 1 1) (digit_range 0 2);
    followed_by (digit_range 0 0) (digit_range 1 9);
    digit_range 1 9 ].

Definition re_d : list alt :=
  [ followed_by (digit_range 3 3) (digit_range 0 1);
    followed_by (digit_range 1 2) any_digit;
    followed_by (digit_range 0 0) (digit_range 1 9);
    digit_range 1 9;
    space_digit ].

(** Ordered choice: the first alternative after which the rest of the
    pattern [k] matches. *)
Fixpoint first_alt {A} (alts : list alt) (k : Z -> string -> option A)
    (s : string) : option A :=
  match alts with
  | [] => None
  | a :: alts' =>
      match a s with
      | Some (v, r) =>
          match k v r with
          | Some x => Some x
          | None => first_alt alts' k s
          end
      | None => first_alt alts' k s
      end
  end.

Definition dash {A} (k : string -> option A) (s : string) : option A :=
  match s with
  | String "-" r => k r
  | _ => None
  end.

(** The regular expression for ['%Y-%m-%d']: the three groups and the text
    left after the match. *)
Definition re_match (s : string) : option (Z * Z * Z * string) :=
  match re_Y s with
  | Some (y, r) =>
      dash (first_alt re_m (fun m =>
        dash (first_alt re_d (fun d rest => Some (y, m, d, rest))))) r
  | None => None
  end.

(** *** [repr(s)] of a [str] *)

Definition hex_digit (n : Z) : ascii :=
  if n mod 16 <? 10 then ascii_of_nat (48 + Z.to_nat (n mod 16))
  else ascii_of_nat (87 + Z.to_nat (n mod 16)).

Definition hex2 (n : Z) : string :=
  String (hex_digit (n / 16)) (String (hex_digit n) "").

Definition hex4 (n : Z) : string := hex2 (n / 256) +:+ hex2 n.

Definition hex8 (n : Z) : string := hex4 (n / 65536) +:+ hex4 n.

(** The escape of a character that is not printed as it is. *)
Definition escape (cp : Z) : string :=
  if cp <? 256 then String "\" (String "x" (hex2 cp))
  else if cp <? 65536 then String "\" (String "u" (hex4 cp))
  else String "\" (String "U" (hex8 cp)).

(** The code points beyond ASCII that [str.isprintable] refuses, in
    Unicode 14.0, as ranges with both ends. *)
Definition unprintable : list (Z * Z) :=
  [(128, 160); (173, 173); (888, 889); (896, 899); (907, 907); (909, 909);
   (930, 930); (1328, 1328); (1367, 1368); (1419, 1420); (1424, 1424);
   (1480, 1487); (1515, 1518); (1525, 1541); (1564, 1564); (1757, 1757);
   (1806, 1807); (1867, 1868); (1970, 1983); (2043, 2044); (2094, 2095);
   (2111, 2111); (2140, 2141); (2143, 2143); (2155, 2159); (2191, 2199);
   (2274, 2274); (2436, 2436); (2445, 2446); (2449, 2450); (2473, 2473);
   (2481, 2481); (2483, 2485); (2490, 2491); (2501, 2502); (2505, 2506);
   (2511, 2518); (2520, 2523); (2526, 2526); (2532, 2533); (2559, 2560);
   (2564, 2564); (2571, 2574); (2577, 2578); (2601, 2601); (2609, 2609);
   (2612, 2612); (2615, 2615); (2618, 2619); (2621, 2621); (2627, 2630);
   (2633, 2634); (2638, 2640); (2642, 2648); (2653, 2653); (2655, 2661);
   (2679, 2688); (2692, 2692); (2702, 2702); (2706, 2706); (2729, 2729);
   (2737, 2737); (2740, 2740); (2746, 2747); (2758, 2758); (2762, 2762);
   (2766, 2767); (2769, 2783); (2788, 2789); (2802, 2808); (2816, 2816);
   (2820, 2820); (2829, 2830); (2833, 2834); (2857, 2857); (2865, 2865);
   (2868, 2868); (2874, 2875); (2885, 2886); (2889, 2890); (2894, 2900);
   (2904, 2907); (2910, 2910); (2916, 2917); (2936, 2945); (2948, 2948);
   (2955, 2957); (2961, 2961); (2966, 2968); (2971, 2971); (2973, 2973);
   (2976, 2978); (2981, 2983); (2987, 2989); (3002, 3005); (3011, 3013);
   (3017, 3017); (3022, 3023); (3025, 3030); (3032, 3045); (3067, 3071);
   (3085, 3085); (3089, 3089); (3113, 3113); (3130, 3131); (3141, 3141);
   (3145, 3145); (3150, 3156); (3159, 3159); (3163, 3164); (3166, 3167);
   (3172, 3173); (3184, 3190); (3213, 3213); (3217, 3217); (3241, 3241);
   (3252, 3252); (3258, 3259); (3269, 3269); (3273, 3273); (3278, 3284);
   (3287, 3292); (3295, 3295); (3300, 3301); (3312, 3312); (3315, 3327);
   (3341, 3341); (3345, 3345); (3397, 3397); (3401, 3401); (3408, 3411);
   (3428, 3429); (3456, 3456); (3460, 3460); (3479, 3481); (3506, 3506);
   (3516, 3516); (3518, 3519); (3527, 3529); (3531, 3534); (3541, 3541);
   (3543, 3543); (3552, 3557); (3568, 3569); (3573, 3584); (3643, 3646);
   (3676, 3712); (3715, 3715); (3717, 3717); (3723, 3723); (3748, 3748);
   (3750, 3750); (3774, 3775); (3781, 3781); (3783, 3783); (3790, 3791);
   (3802, 3803); (3808, 3839); (3912, 3912); (3949, 3952); (3992, 3992);
   (4029, 4029); (4045, 4045); (4059, 4095); (4294, 4294); (4296, 4300);
   (4302, 4303); (4681, 4681); (4686, 4687); (4695, 4695); (4697, 4697);
   (4702, 4703); (4745, 4745); (4750, 4751); (4785, 4785); (4790, 4791);
   (4799, 4799); (4801, 4801); (4806, 4807); (4823, 4823); (4881, 4881);
   (4886, 4887); (4955, 4956); (4989, 4991); (5018, 5023); (5110, 5111);
   (5118, 5119); (5760, 5760); (5789, 5791); (5881, 5887); (5910, 5918);
   (5943, 5951); (5972, 5983); (5997, 5997); (6001, 6001); (6004, 6015);
   (6110, 6111); (6122, 6127); (6138, 6143); (6158, 6158); (6170, 6175);
   (6265, 6271); (6315, 6319); (6390, 6399); (6431, 6431); (6444, 6447);
   (6460, 6463); (6465, 6467); (6510, 6511); (6517, 6527); (6572, 6575);
   (6602, 6607); (6619, 6621); (6684, 6685); (6751, 6751); (6781, 6782);
   (6794, 6799); (6810, 6815); (6830, 6831); (6863, 6911); (6989, 6991);
   (7039, 7039); (7156, 7163); (7224, 7226); (7242, 7244); (7305, 7311);
   (7355, 7356); (7368, 7375); (7419, 7423); (7958, 7959); (7966, 7967);
   (8006, 8007); (8014, 8015); (8024, 8024); (8026, 8026); (8028, 8028);
   (8030, 8030); (8062, 8063); (8117, 8117); (8133, 8133); (8148, 8149);
   (8156, 8156); (8176, 8177); (8181, 8181); (8191, 8207); (8232, 8239);
   (8287, 8303); (8306, 8307); (8335, 8335); (8349, 8351); (8385, 8399);
   (8433, 8447); (8588, 8591); (9255, 9279); (9291, 9311); (11124, 11125);
   (11158, 11158); (11508, 11512); (11558, 11558); (11560, 11564);
   (11566, 11567); (11624, 11630); (11633, 11646); (11671, 11679);
   (11687, 11687); (11695, 11695); (11703, 11703); (11711, 11711);
   (11719, 11719); (11727, 11727); (11735, 11735); (11743, 11743);
   (11870, 11903); (11930, 11930); (12020, 12031); (12246, 12271);
   (12284, 12288); (12352, 12352); (12439, 12440); (12544, 12548);
   (12592, 12592); (12687, 12687); (12772, 12783); (12831, 12831);
   (42125, 42127); (42183, 42191); (42540, 42559); (42744, 42751);
   (42955, 42959); (42962, 42962); (42964, 42964); (42970, 42993);
   (43053, 43055); (43066, 43071); (43128, 43135); (43206, 43213);
   (43226, 43231); (43348, 43358); (43389, 43391); (43470, 43470);
   (43482, 43485); (43519, 43519); (43575, 43583); (43598, 43599);
   (43610, 43611); (43715, 43738); (43767, 43776); (43783, 43784);
   (43791, 43792); (43799, 43807); (43815, 43815); (43823, 43823);
   (43884, 43887); (44014, 44015); (44026, 44031); (55204, 55215);
   (55239, 55242); (55292, 63743); (64110, 64111); (64218, 64255);
   (64263, 64274); (64280, 64284); (64311, 64311); (64317, 64317);
   (64319, 64319); (64322, 64322); (64325, 64325); (64451, 64466);
   (64912, 64913); (64968, 64974); (64976, 65007); (65050, 65055);
   (65107, 65107); (65127, 65127); (65132, 65135); (65141, 65141);
   (65277, 65280); (65471, 65473); (65480, 65481); (65488, 65489);
   (65496, 65497); (65501, 65503); (65511, 65511); (65519, 65531);
   (65534, 65535); (65548, 65548); (65575, 65575); (65595, 65595);
   (65598, 65598); (65614, 65615); (65630, 65663); (65787, 65791);
   (65795, 65798); (65844, 65846); (65935, 65935); (65949, 65951);
   (65953, 65999); (66046, 66175); (66205, 66207); (66257, 66271);
   (66300, 66303); (66340, 66348); (66379, 66383); (66427, 66431);
   (66462, 66462); (66500, 66503); (66518, 66559); (66718, 66719);
   (66730, 66735); (66772, 66775); (66812, 66815); (66856, 66863);
   (66916, 66926); (66939, 66939); (66955, 66955); (66963, 66963);
   (66966, 66966); (66978, 66978); (66994, 66994); (67002, 67002);
   (67005, 67071); (67383, 67391); (67414, 67423); (67432, 67455);
   (67462, 67462); (67505, 67505); (67515, 67583); (67590, 67591);
   (67593, 67593); (67638, 67638); (67641, 67643); (67645, 67646);
   (67670, 67670); (67743, 67750); (67760, 67807); (67827, 67827);
   (67830, 67834); (67868, 67870); (67898, 67902); (67904, 67967);
   (68024, 68027); (68048, 68049); (68100, 68100); (68103, 68107);
   (68116, 68116); (68120, 68120); (68150, 68151); (68155, 68158);
   (68169, 68175); (68185, 68191); (68256, 68287); (68327, 68330);
   (68343, 68351); (68406, 68408); (68438, 68439); (68467, 68471);
   (68498, 68504); (68509, 68520); (68528, 68607); (68681, 68735);
   (68787, 68799); (68851, 68857); (68904, 68911); (68922, 69215);
   (69247, 69247); (69290, 69290); (69294, 69295); (69298, 69375);
   (69416, 69423); (69466, 69487); (69514, 69551); (69580, 69599);
   (69623, 69631); (69710, 69713); (69750, 69758); (69821, 69821);
   (69827, 69839); (69865, 69871); (69882, 69887); (69941, 69941);
   (69960, 69967); (70007, 70015); (70112, 70112); (70133, 70143);
   (70162, 70162); (70207, 70271); (70279, 70279); (70281, 70281);
   (70286, 70286); (70302, 70302); (70314, 70319); (70379, 70383);
   (70394, 70399); (70404, 70404); (70413, 70414); (70417, 70418);
   (70441, 70441); (70449, 70449); (70452, 70452); (70458, 70458);
   (70469, 70470); (70473, 70474); (70478, 70479); (70481, 70486);
   (70488, 70492); (70500, 70501); (70509, 70511); (70517, 70655);
   (70748, 70748); (70754, 70783); (70856, 70863); (70874, 71039);
   (71094, 71095); (71134, 71167); (71237, 71247); (71258, 71263);
   (71277, 71295); (71354, 71359); (71370, 71423); (71451, 71452);
   (71468, 71471); (71495, 71679); (71740, 71839); (71923, 71934);
   (71943, 71944); (71946, 71947); (71956, 71956); (71959, 71959);
   (71990, 71990); (71993, 71994); (72007, 72015); (72026, 72095);
   (72104, 72105); (72152, 72153); (72165, 72191); (72264, 72271);
   (72355, 72367); (72441, 72703); (72713, 72713); (72759, 72759);
   (72774, 72783); (72813, 72815); (72848, 72849); (72872, 72872);
   (72887, 72959); (72967, 72967); (72970, 72970); (73015, 73017);
   (73019, 73019); (73022, 73022); (73032, 73039); (73050, 73055);
   (73062, 73062); (73065, 73065); (73103, 73103); (73106, 73106);
   (73113, 73119); (73130, 73439); (73465, 73647); (73649, 73663);
   (73714, 73726); (74650, 74751); (74863, 74863); (74869, 74879);
   (75076, 77711); (77811, 77823); (78895, 82943); (83527, 92159);
   (92729, 92735); (92767, 92767); (92778, 92781); (92863, 92863);
   (92874, 92879); (92910, 92911); (92918, 92927); (92998, 93007);
   (93018, 93018); (93026, 93026); (93048, 93052); (93072, 93759);
   (93851, 93951); (94027, 94030); (94088, 94094); (94112, 94175);
   (94181, 94191); (94194, 94207); (100344, 100351); (101590, 101631);
   (101641, 110575); (110580, 110580); (110588, 110588); (110591, 110591);
   (110883, 110927); (110931, 110947); (110952, 110959); (111356, 113663);
   (113771, 113775); (113789, 113791); (113801, 113807); (113818, 113819);
   (113824, 118527); (118574, 118575); (118599, 118607); (118724, 118783);
   (119030, 119039); (119079, 119080); (119155, 119162); (119275, 119295);
   (119366, 119519); (119540, 119551); (119639, 119647); (119673, 119807);
   (119893, 119893); (119965, 119965); (119968, 119969); (119971, 119972);
   (119975, 119976); (119981, 119981); (119994, 119994); (119996, 119996);
   (120004, 120004); (120070, 120070); (120075, 120076); (120085, 120085);
   (120093, 120093); (120122, 120122); (120127, 120127); (120133, 120133);
   (120135, 120137); (120145, 120145); (120486, 120487); (120780, 120781);
   (121484, 121498); (121504, 121504); (121520, 122623); (122655, 122879);
   (122887, 122887); (122905, 122906); (122914, 122914); (122917, 122917);
   (122923, 123135); (123181, 123183); (123198, 123199); (123210, 123213);
   (123216, 123535); (123567, 123583); (123642, 123646); (123648, 124895);
   (124903, 124903); (124908, 124908); (124911, 124911); (124927, 124927);
   (125125, 125126); (125143, 125183); (125260, 125263); (125274, 125277);
   (125280, 126064); (126133, 126208); (126270, 126463); (126468, 126468);
   (126496, 126496); (126499, 126499); (126501, 126502); (126504, 126504);
   (126515, 126515); (126520, 126520); (126522, 126522); (126524, 126529);
   (126531, 126534); (126536, 126536); (126538, 126538); (126540, 126540);
   (126544, 126544); (126547, 126547); (126549, 126550); (126552, 126552);
   (126554, 126554); (126556, 126556); (126558, 126558); (126560, 126560);
   (126563, 126563); (126565, 126566); (126571, 126571); (126579, 126579);
   (126584, 126584); (126589, 126589); (126591, 126591); (126602, 126602);
   (126620, 126624); (126628, 126628); (126634, 126634); (126652, 126703);
   (126706, 126975); (127020, 127023); (127124, 127135); (127151, 127152);
   (127168, 127168); (127184, 127184); (127222, 127231); (127406, 127461);
   (127491, 127503); (127548, 127551); (127561, 127567); (127570, 127583);
   (127590, 127743); (128728, 128732); (128749, 128751); (128765, 128767);
   (128884, 128895); (128985, 128991); (129004, 129007); (129009, 129023);
   (129036, 129039); (129096, 129103); (129114, 129119); (129160, 129167);
   (129198, 129199); (129202, 129279); (129620, 129631); (129646, 129647);
   (129653, 129655); (129661, 129663); (129671, 129679); (129709, 129711);
   (129723, 129727); (129734, 129743); (129754, 129759); (129768, 129775);
   (129783, 129791); (129939, 129939); (129995, 130031); (130042, 131071);
   (173792, 173823); (177977, 177983); (178206, 178207); (183970, 183983);
   (191457, 194559); (195102, 196607); (201547, 917759); (918000, 1114111)].

Definition isprintable (cp : Z) : bool :=
  negb (existsb (fun range => (fst range <=? cp) && (cp <=? snd range))
                unprintable).

Fixpoint contains (c : ascii) (s : string) : bool :=
  match s with
  | EmptyString => false
  | String a r => Ascii.eqb a c || contains c r
  end.

(** The text between the quotes [q]; [skip] tells that the bytes at hand
    continue a character that was escaped. *)
Fixpoint repr_body (q : ascii) (skip : bool) (s : string) : string :=
  match s with
  | EmptyString => EmptyString
  | String c r =>
      let n := byte c in
      if is_continuation c then
        (if skip then EmptyString else String c "") +:+ repr_body q skip r
      else if n <? 128 then
        (if Ascii.eqb c q || Ascii.eqb c "\" then String "\" (String c "")
         else if n =? 10 then "\n"
         else if n =? 13 then "\r"
         else if n =? 9 then "\t"
         else if (n <? 32) || (n =? 127) then escape n
         else String c "") +:+ repr_body q false r
      else
        match next_char s with
        | Some (cp, _) =>
            if isprintable cp then String c (repr_body q false r)
            else escape cp +:+ repr_body q true r
        | None => String c (repr_body q false r)
        end
  end.

Definition repr (s : string) : string :=
  let dq : ascii := ascii_of_nat 34 in
  let q : ascii :=
    if contains "'" s && negb (contains dq s) then dq else "'"%char in
  String q (repr_body q false s) +:+ String q "".

Definition ValueError (msg : string) : PyExc := mkExc "ValueError" msg.

Definition strptime_Ymd (s : string) : result datetime :=
  match re_match s with
  | None =>
      Raise (ValueError ("time data " +:+ repr s +:+ " does not match format "
                           +:+ repr "%Y-%m-%d"))
  | Some (y, m, d, rest) =>
      if negb (String.eqb rest "") then
        Raise (ValueError ("unconverted data remains: " +:+ rest))
      else if y <? 1 then
        Raise (ValueError ("year " +:+ str_day y +:+ " is out of range"))
      else if days_in_month y m <? d then
        Raise (ValueError "day is out of range for month")
      else Ok (mkDateTime y m d 0 0 0 0 None)
  end.

End DateTime.

Import DateTime.

(** [len(s)] and [s[:n]] of a [str].  Python counts characters; a text is
    kept here as its bytes in UTF-8, where a character is a byte that is
    not a continuation byte, followed by its continuation bytes. *)
Fixpoint len (s : string) : nat :=
  match s with
  | EmptyString => 0
  | String c r => if is_continuation c then len r else S (len r)
  end.

Fixpoint take_chars (n : nat) (s : string) : string :=
  match s with
  | EmptyString => EmptyString
  | String c r =>
      if is_continuation c then String c (take_chars n r)
      else match n with
           | O => EmptyString
           | S n' => String c (take_chars n' r)
           end
  end.

(* ===================================================================== *)
(** ** The monad of the Python code: state and exceptions *)
(* ===================================================================== *)

Section Monad.
Context {S : Type}.

Definition M (A : Type) : Type := S -> result A * S.

Definition ret {A} (a : A) : M A := fun s => (Ok a, s).

Definition bind {A B} (c : M A) (k : A -> M B) : M B := fun s =>
  match c s with
  | (Ok a, s') => k a s'
  | (Raise e, s') => (Raise e, s')
  | (Exit e, s') => (Exit e, s')
  end.

Definition raise {A} (e : PyExc) : M A := fun s => (Raise e, s).

(** [try: body except Exception as e: handler]: what is not an
    [Exception] goes through. *)
Definition try_except {A} (body : M A) (handler : PyExc -> M A) : M A := fun s =>
  match body s with
  | (Ok a, s') => (Ok a, s')
  | (Raise e, s') => handler e s'
  | (Exit e, s') => (Exit e, s')
  end.

(** A pure computation that may raise. *)
Definition lift {A} (r : result A) : M A := fun s => (r, s).

End Monad.

Arguments M : clear implicits.

Declare Scope monad_scope.
Delimit Scope monad_scope with monad.
Notation "'do' x <- c ; k" := (bind c (fun x => k))
  (at level 10, x name, c at level 100, k at level 200) : monad_scope.
Local Open Scope monad_scope.

(* ===================================================================== *)
(** ** The records served by the external research agent *)
(* ===================================================================== *)

Record Attendee := mkAttendee {
  display_name : string;
  email : string;
  company : option string;
  title : option string
}.

Record AttendeeResearchResult := mkResearch {
  attendee : Attendee;
  research_summary : string;
  found_info : bool
}.

Record Meeting := mkMeeting {
  meeting_id : string;
  meeting_title : string;
  start_time : option datetime;
  end_time : option datetime;
  location : option string;
  description : option string
}.

(** One call of an agent method, with what it answered. *)
Inductive Call : Type :=
| CSearch (keyword : json) (max_results : nat) (r : result (list Meeting))
| CResearch (m : Meeting) (r : result (list AttendeeResearchResult))
| CSummary (m : Meeting) (rs : list AttendeeResearchResult) (r : result string)
| CQuestions (m : Meeting) (rs : list AttendeeResearchResult) (r : result string)
| CGetById (id : string) (r : result (option Meeting))
| CNext (r : result (option Meeting)).

(** The search calls of a log, in order. *)
Record SearchEv := mkEv {
  ev_keyword : json;
  ev_max : nat;
  ev_result : result (list Meeting)
}.

Fixpoint searches (log : list Call) : list SearchEv :=
  match log with
  | [] => []
  | CSearch k n r :: log' => mkEv k n r :: searches log'
  | _ :: log' => searches log'
  end.

(** Python values of the optional fields. *)
Definition opt_str (o : option string) : json :=
  match o with Some s => JStr s | None => JNull end.

(** [x.isoformat() if x else None]. *)
Definition iso_or_none (o : option datetime) : json :=
  match o with Some dt => JStr (isoformat dt) | None => JNull end.

(** A view's return value: [jsonify(...)] with its status code. *)
Record Response := mkResponse { status : Z; body : json }.

Definition jsonify (v : json) : Response := mkResponse 200 v.
Definition jsonify_status (v : json) (code : Z) : Response := mkResponse code v.

(** The request methods of HTTP. *)
Inductive Method :=
  GET | HEAD | POST | PUT | DELETE | CONNECT | OPTIONS | TRACE | PATCH.

Definition method_eqb (a b : Method) : bool :=
  match a, b with
  | GET, GET | HEAD, HEAD | POST, POST | PUT, PUT | DELETE, DELETE
  | CONNECT, CONNECT | OPTIONS, OPTIONS | TRACE, TRACE | PATCH, PATCH => true
  | _, _ => false
  end.

(** The endpoints of the application: the static folder that Flask serves
    for every application, and the five view functions of the file. *)
Inductive Endpoint :=
| ep_static
| ep_health_check
| ep_get_meetings_for_date
| ep_get_meeting_details
| ep_get_next_meeting
| ep_search_meetings.

(** A rule of [app.url_map]; its methods are a set, kept here as a list. *)
Record Rule := mkRule {
  rule : string;
  methods : list Method;
  endpoint : Endpoint;
  provide_automatic_options : bool
}.

(** [app.add_url_rule(rule, endpoint, methods=...)]: the methods are [GET]
    when none is given; Flask adds [OPTIONS], which it will answer itself,
    unless the methods have it; werkzeug adds [HEAD] to a rule that takes
    [GET]. *)
Definition add_url_rule (rule : string) (endpoint : Endpoint)
    (methods : option (list Method)) (url_map : list Rule) : list Rule :=
  let methods := match methods with Some l => l | None => [GET] end in
  let automatic := negb (existsb (method_eqb OPTIONS) methods) in
  let methods := if automatic then methods ++ [OPTIONS] else methods in
  let methods :=
    if existsb (method_eqb GET) methods && negb (existsb (method_eqb HEAD) methods)
    then methods ++ [HEAD] else methods in
  url_map ++ [mkRule rule methods endpoint automatic].

(** [Flask(__name__)]: a new application has the rule of its static
    folder. *)
Definition Flask : list Rule :=
  add_url_rule "/static/<path:filename>" ep_static None [].

(** [@app.route(rule, methods=[...])] on a view function. *)
Definition route (rule : string) (methods : list Method) (endpoint : Endpoint)
    (url_map : list Rule) : list Rule :=
  add_url_rule rule endpoint (Some methods) url_map.

Section Server.
Context {W : Type}.

(** The interface of [CalendarPersonResearchAgent] that the server calls. *)
Record CalendarPersonResearchAgent := mkAgent {
  search_meetings_by_keyword : json -> nat -> W -> result (list Meeting) * W;
  research_meeting_attendees :
    Meeting -> W -> result (list AttendeeResearchResult) * W;
  generate_meeting_summary :
    Meeting -> list AttendeeResearchResult -> W -> result string * W;
  generate_meeting_type_questions :
    Meeting -> list AttendeeResearchResult -> W -> result string * W;
  get_meeting_by_id : string -> W -> result (option Meeting) * W;
  get_next_meeting_info : W -> result (option Meeting) * W
}.

(** The module-level bindings of the server. *)
Record Globals := mkGlobals {
  app : list Rule;
  calendar_agent : option CalendarPersonResearchAgent
}.

Record State := mkState {
  globals : Globals;
  world : W;
  clock : datetime;
  calls : list Call
}.

(** *** The primitive effects of a handler *)

Local Abbreviation HM := (M State).

(** Reading the global [calendar_agent]. *)
Definition read_calendar_agent : HM (option CalendarPersonResearchAgent) :=
  fun s => (Ok (calendar_agent (globals s)), s).

(** [datetime.now()]. *)
Definition datetime_now : HM datetime := fun s => (Ok (clock s), s).

(** A method call on the agent: it runs on the world and is logged. *)
Definition call {A} (method : W -> result A * W) (entry : result A -> Call)
  : HM A := fun s =>
  let (r, w') := method (world s) in
  (r, mkState (globals s) w' (clock s) (calls s ++ [entry r])).

End Server.

Arguments CalendarPersonResearchAgent : clear implicits.
Arguments Globals : clear implicits.
Arguments State : clear implicits.

(* ===================================================================== *)
(** ** enhanced_chrome_extension_server.py *)
(* ===================================================================== *)

Section Handlers.
Context {W : Type}.
Local Abbreviation Agent := (CalendarPersonResearchAgent W).

(** *** Calls on [calendar_agent] *)

Definition search_by_keyword (agent : Agent) (keyword : json) (max_results : nat)
  : M (State W) (list Meeting) :=
  call (search_meetings_by_keyword agent keyword max_results)
       (CSearch keyword max_results).

Definition research_attendees (agent : Agent) (meeting : Meeting)
  : M (State W) (list AttendeeResearchResult) :=
  call (research_meeting_attendees agent meeting) (CResearch meeting).

Definition summary_of (agent : Agent) (meeting : Meeting)
    (research_results : list AttendeeResearchResult) : M (State W) string :=
  call (generate_meeting_summary agent meeting research_results)
       (CSummary meeting research_results).

Definition questions_of (agent : Agent) (meeting : Meeting)
    (research_results : list AttendeeResearchResult) : M (State W) string :=
  call (generate_meeting_type_questions agent meeting research_results)
       (CQuestions meeting research_results).

Definition meeting_by_id (agent : Agent) (id : string) : M (State W) (option Meeting) :=
  call (get_meeting_by_id agent id) (CGetById id).

Definition next_meeting_info (agent : Agent) : M (State W) (option Meeting) :=
  call (get_next_meeting_info agent) CNext.

(** *** GET /health *)

Definition health_check : M (State W) Response :=
  do agent <- read_calendar_agent;
  do now <- datetime_now;
  ret (jsonify (JObj [
    ("status", JStr "healthy");
    ("agent_available", JBool (match agent with Some _ => true | None => false end));
    ("timestamp", JStr (isoformat now))
  ])).

(** *** The meeting dictionaries *)

(** The dict literal that every handler builds for a meeting; the two list
    handlers start from empty texts, the two single-meeting handlers from
    the generated ones. *)
Definition meeting_dict (meeting : Meeting) (summary questions : json)
  : list (string * json) :=
  [ ("id", JStr (meeting_id meeting));
    ("title", JStr (meeting_title meeting));
    ("start_time", iso_or_none (start_time meeting));
    ("end_time", iso_or_none (end_time meeting));
    ("location", opt_str (location meeting));
    ("description", opt_str (description meeting));
    ("attendees", JArr []);
    ("research_summary", summary);
    ("preparation_questions", questions) ].

Definition attendee_info (result : AttendeeResearchResult) : json :=
  JObj [ ("name", JStr (display_name (attendee result)));
         ("email", JStr (email (attendee result)));
         ("company", opt_str (company (attendee result)));
         ("title", opt_str (title (attendee result)));
         ("research_summary", JStr (research_summary result));
         ("found_info", JBool (found_info result)) ].

(** [d['attendees'].append(info)]. *)
Definition append_attendee (d : list (string * json)) (info : json)
  : list (string * json) :=
  match assoc "attendees" d with
  | Some (JArr xs) => setitem "attendees" (JArr (xs ++ [info])) d
  | _ => d
  end.

(** [for result in research_results: ... d['attendees'].append(attendee_info)]. *)
Definition add_attendees (d : list (string * json))
    (research_results : list AttendeeResearchResult) : list (string * json) :=
  fold_left (fun d result => append_attendee d (attendee_info result))
            research_results d.

Definition error_summary : json := JStr "Error generating research summary".
Definition error_questions : json := JStr "Error generating preparation questions".

(** The body of the loop over [meetings] in [get_meetings_for_date] and in
    [search_meetings] (the two loops are the same code). *)
Definition enhance_meeting (agent : Agent) (meeting : Meeting) : M (State W) json :=
  do research_results <- research_attendees agent meeting;
  let enhanced_meeting := meeting_dict meeting (JStr "") (JStr "") in
  let enhanced_meeting := add_attendees enhanced_meeting research_results in
  do enhanced_meeting <-
    try_except
      (do meeting_summary <- summary_of agent meeting research_results;
       do preparation_questions <- questions_of agent meeting research_results;
       ret (setitem "preparation_questions" (JStr preparation_questions)
              (setitem "research_summary" (JStr meeting_summary)
                 enhanced_meeting)))
      (fun e =>
         ret (setitem "preparation_questions" error_questions
                (setitem "research_summary" error_summary enhanced_meeting)));
  ret (JObj enhanced_meeting).

(** [for meeting in meetings: ... enhanced_meetings.append(...)]. *)
Fixpoint enhance_all (agent : Agent) (meetings : list Meeting)
    (enhanced_meetings : list json) : M (State W) (list json) :=
  match meetings with
  | [] => ret enhanced_meetings
  | meeting :: rest =>
      do enhanced_meeting <- enhance_meeting agent meeting;
      enhance_all agent rest (enhanced_meetings ++ [enhanced_meeting])
  end.

(** The single-meeting handlers: research, both texts, then the dict. *)
Definition meeting_details (agent : Agent) (meeting : Meeting) : M (State W) json :=
  do research_results <- research_attendees agent meeting;
  do meeting_summary <- summary_of agent meeting research_results;
  do preparation_questions <- questions_of agent meeting research_results;
  ret (JObj (add_attendees
               (meeting_dict meeting (JStr meeting_summary)
                  (JStr preparation_questions))
               research_results)).

(** *** GET /meetings/<date_str>: finding the meetings of a date *)

Definition date_formats (target_date : datetime) : list string :=
  [ strftime target_date "%B %d, %Y";
    strftime target_date "%b %d, %Y";
    strftime target_date "%m/%d/%Y";
    strftime target_date "%m/%d";
    str_day (day target_date);
    strftime target_date "%Y-%m-%d" ].

Definition keywords : list string :=
  ["meeting"; "interview"; "call"; "appointment"; "session"; "discussion";
   "event"].

Definition is_empty {A} (l : list A) : bool :=
  match l with [] => true | _ => false end.

(** Strategy 2: [for date_format in date_formats: meetings = ...;
    if meetings: break]. *)
Fixpoint try_date_formats (agent : Agent) (formats : list string)
    (meetings : list Meeting) : M (State W) (list Meeting) :=
  match formats with
  | [] => ret meetings
  | date_format :: rest =>
      do meetings <- search_by_keyword agent (JStr date_format) 10;
      if is_empty meetings then try_date_formats agent rest meetings
      else ret meetings
  end.

(** Strategy 3, the loop over the keywords: [all_meetings.extend(...)]. *)
Fixpoint scan_keywords (agent : Agent) (kws : list string)
    (all_meetings : list Meeting) : M (State W) (list Meeting) :=
  match kws with
  | [] => ret all_meetings
  | keyword :: rest =>
      do keyword_meetings <- search_by_keyword agent (JStr keyword) 20;
      scan_keywords agent rest (all_meetings ++ keyword_meetings)
  end.

(** Remove duplicates: one step of the loop, on the pair
    [(unique_meetings, seen_titles)]. *)
Definition remove_duplicates_step (acc : list Meeting * gset string)
    (meeting : Meeting) : list Meeting * gset string :=
  let (unique_meetings, seen_titles) := acc in
  if decide (meeting_title meeting ∈ seen_titles) then acc
  else (unique_meetings ++ [meeting], {[meeting_title meeting]} ∪ seen_titles).

Definition remove_duplicates (all_meetings : list Meeting) : list Meeting :=
  fst (fold_left remove_duplicates_step all_meetings ([], ∅)).

(** Filter by date: one step of the loop. *)
Definition filter_by_date_step (target_date : datetime)
    (filtered_meetings : list Meeting) (meeting : Meeting) : list Meeting :=
  match start_time meeting with
  | Some st =>
      if date_eqb (to_date st) (to_date target_date)
      then filtered_meetings ++ [meeting] else filtered_meetings
  | None => filtered_meetings
  end.

Definition filter_by_date (target_date : datetime)
    (unique_meetings : list Meeting) : list Meeting :=
  fold_left (filter_by_date_step target_date) unique_meetings [].

(** Strategy 3 with its own [try]: on an exception [meetings] keeps its
    value. *)
Definition keyword_scan (agent : Agent) (target_date : datetime)
    (meetings : list Meeting) : M (State W) (list Meeting) :=
  try_except
    (do all_meetings <- scan_keywords agent keywords [];
     let unique_meetings := remove_duplicates all_meetings in
     ret (filter_by_date target_date unique_meetings))
    (fun e => ret meetings).

(** The three strategies, from the first search to the end of the third. *)
Definition find_meetings (agent : Agent) (date_str : string)
    (target_date : datetime) : M (State W) (list Meeting) :=
  do meetings <- search_by_keyword agent (JStr date_str) 10;
  do meetings <-
    (if is_empty meetings
     then try_date_formats agent (date_formats target_date) meetings
     else ret meetings);
  if is_empty meetings then keyword_scan agent target_date meetings
  else ret meetings.

(** Process the meetings found and answer. *)
Definition answer_for_date (agent : Agent) (date_str : string)
    (meetings : list Meeting) : M (State W) Response :=
  do enhanced_meetings <- enhance_all agent meetings [];
  ret (jsonify (JObj [
    ("date", JStr date_str);
    ("meetings", JArr enhanced_meetings);
    ("count", JNum (Z.of_nat (length enhanced_meetings)))
  ])).

(** The [try] block of [get_meetings_for_date]. *)
Definition get_meetings_for_date_try (agent : Agent) (date_str : string)
  : M (State W) Response :=
  do target_date <- lift (strptime_Ymd date_str);
  do meetings <- find_meetings agent date_str target_date;
  answer_for_date agent date_str meetings.

Definition date_error (e : PyExc) : Response :=
  jsonify_status (JObj [
    ("error", JStr (exc_str e));
    ("meetings", JArr [])
  ]) 500.

Definition get_meetings_for_date (date_str : string) : M (State W) Response :=
  do agent <- read_calendar_agent;
  match agent with
  | None =>
      ret (jsonify_status (JObj [
        ("error", JStr "Calendar agent not available");
        ("meetings", JArr [])
      ]) 500)
  | Some agent =>
      try_except (get_meetings_for_date_try agent date_str)
        (fun e => ret (date_error e))
  end.

(** *** GET /meeting/<meeting_id> *)

Definition get_meeting_details_try (agent : Agent) (id : string)
  : M (State W) Response :=
  do meeting <- meeting_by_id agent id;
  match meeting with
  | None => ret (jsonify_status (JObj [("error", JStr "Meeting not found")]) 404)
  | Some meeting =>
      do details <- meeting_details agent meeting;
      ret (jsonify details)
  end.

Definition get_meeting_details (id : string) : M (State W) Response :=
  do agent <- read_calendar_agent;
  match agent with
  | None =>
      ret (jsonify_status
             (JObj [("error", JStr "Calendar agent not available")]) 500)
  | Some agent =>
      try_except (get_meeting_details_try agent id)
        (fun e => ret (jsonify_status (JObj [("error", JStr (exc_str e))]) 500))
  end.

(** *** GET /next-meeting *)

Definition get_next_meeting_try (agent : Agent) : M (State W) Response :=
  do meeting <- next_meeting_info agent;
  match meeting with
  | None =>
      ret (jsonify (JObj [
        ("message", JStr "No upcoming meetings found");
        ("meeting", JNull)
      ]))
  | Some meeting =>
      do meeting_data <- meeting_details agent meeting;
      ret (jsonify (JObj [("meeting", meeting_data)]))
  end.

Definition get_next_meeting : M (State W) Response :=
  do agent <- read_calendar_agent;
  match agent with
  | None =>
      ret (jsonify_status
             (JObj [("error", JStr "Calendar agent not available")]) 500)
  | Some agent =>
      try_except (get_next_meeting_try agent)
        (fun e => ret (jsonify_status (JObj [("error", JStr (exc_str e))]) 500))
  end.

(** *** POST /search-meetings *)

Definition AttributeError (msg : string) : PyExc := mkExc "AttributeError" msg.

Definition type_name (v : json) : string :=
  match v with
  | JNull => "NoneType" | JBool _ => "bool" | JNum _ => "int"
  | JStr _ => "str" | JArr _ => "list" | JObj _ => "dict"
  end.

(** [data.get(k, default)]: only a dict has the method. *)
Definition dict_get (data : json) (k : string) (default : json) : result json :=
  match data with
  | JObj fs => Ok (match assoc k fs with Some v => v | None => default end)
  | _ => Raise (AttributeError
                  ("'" +:+ type_name data +:+ "' object has no attribute 'get'"))
  end.

(** The [try] block; [get_json] is what [request.get_json()] does on the
    request at hand. *)
Definition search_meetings_try (agent : Agent) (get_json : result json)
  : M (State W) Response :=
  do data <- lift get_json;
  do keyword <- lift (dict_get data "keyword" (JStr ""));
  if negb (truthy keyword) then
    ret (jsonify_status (JObj [("error", JStr "Keyword is required")]) 400)
  else
    do meetings <- search_by_keyword agent keyword 5;
    do enhanced_meetings <- enhance_all agent meetings [];
    ret (jsonify (JObj [
      ("keyword", keyword);
      ("meetings", JArr enhanced_meetings);
      ("count", JNum (Z.of_nat (length enhanced_meetings)))
    ])).

Definition search_meetings (get_json : result json) : M (State W) Response :=
  do agent <- read_calendar_agent;
  match agent with
  | None =>
      ret (jsonify_status
             (JObj [("error", JStr "Calendar agent not available")]) 500)
  | Some agent =>
      try_except (search_meetings_try agent get_json)
        (fun e => ret (jsonify_status (JObj [("error", JStr (exc_str e))]) 500))
  end.

(** *** The application: routes, dispatch, start-up *)

(** [app = Flask(__name__)] and then the five [@app.route] decorators, in
    the order of the file. *)
Definition url_map : list Rule :=
  route "/search-meetings" [POST] ep_search_meetings
    (route "/next-meeting" [GET] ep_get_next_meeting
       (route "/meeting/<meeting_id>" [GET] ep_get_meeting_details
          (route "/meetings/<date_str>" [GET] ep_get_meetings_for_date
             (route "/health" [GET] ep_health_check Flask)))).

(** A request that reached a view function, with the arguments of the rule. *)
Inductive Request : Type :=
| GET_health
| GET_meetings (date_str : string)
| GET_meeting (id : string)
| GET_next_meeting
| POST_search_meetings (get_json : result json).

Definition handle (req : Request) : M (State W) Response :=
  match req with
  | GET_health => health_check
  | GET_meetings date_str => get_meetings_for_date date_str
  | GET_meeting id => get_meeting_details id
  | GET_next_meeting => get_next_meeting
  | POST_search_meetings get_json => search_meetings get_json
  end.

(** Matching a path against a rule: both are cut at the slashes.  A
    [<name>] part of the rule takes any non-empty part of the path; a
    [<path:name>] part takes what is left of the path, slashes included,
    when that does not start with a slash. *)
Fixpoint split_slash (s : string) (cur : string) : list string :=
  match s with
  | EmptyString => [cur]
  | String c r =>
      if Ascii.eqb c "/" then cur :: split_slash r EmptyString
      else split_slash r (cur +:+ String c EmptyString)
  end.

Fixpoint join_slash (parts : list string) : string :=
  match parts with
  | [] => EmptyString
  | [p] => p
  | p :: rest => p +:+ String "/" (join_slash rest)
  end.

Definition is_variable (part : string) : bool :=
  match part with String "<" _ => true | _ => false end.

Definition is_path_variable (part : string) : bool :=
  String.prefix "<path:" part.

Fixpoint match_parts (rule_parts path_parts : list string)
  : option (list string) :=
  match rule_parts, path_parts with
  | [], [] => Some []
  | r :: rs, p :: ps =>
      if is_path_variable r then
        if String.eqb p EmptyString then None
        else match rs with
             | [] => Some [join_slash (p :: ps)]
             | _ => None
             end
      else if is_variable r then
        if String.eqb p EmptyString then None
        else option_map (cons p) (match_parts rs ps)
      else if String.eqb r p then match_parts rs ps
      else None
  | _, _ => None
  end.

Definition match_rule (r : Rule) (path : string) : option (list string) :=
  match_parts (split_slash (rule r) EmptyString) (split_slash path EmptyString).

(** The path that is matched: the slashes at the start of [PATH_INFO] count
    as one. *)
Fixpoint lstrip_slash (s : string) : string :=
  match s with
  | String "/" r => lstrip_slash r
  | _ => s
  end.

Definition path_part (path_info : string) : string :=
  match path_info with
  | EmptyString => EmptyString
  | _ => String "/" (lstrip_slash path_info)
  end.

(** The view function of an endpoint on the arguments of its rule; the
    static folder is served by Flask. *)
Definition request_of (ep : Endpoint) (args : list string)
    (get_json : result json) : option Request :=
  match ep with
  | ep_static => None
  | ep_health_check => Some GET_health
  | ep_get_meetings_for_date => Some (GET_meetings (hd EmptyString args))
  | ep_get_meeting_details => Some (GET_meeting (hd EmptyString args))
  | ep_get_next_meeting => Some GET_next_meeting
  | ep_search_meetings => Some (POST_search_meetings get_json)
  end.

(** What the application answers: what a view function returned, or an
    answer of the framework: its own answer to [OPTIONS], a file of the
    static folder (or its error page), or the answer of the router when no
    rule takes the request (an error page or a redirect). *)
Inductive Answer : Type :=
| FromView (r : Response)
| DefaultOptions
| StaticFile (filename : string)
| NotRouted.

(** The first rule that takes the path and the method. *)
Fixpoint find_rule (rules : list Rule) (m : Method) (path : string)
  : option (Rule * list string) :=
  match rules with
  | [] => None
  | r :: rest =>
      match match_rule r path with
      | Some args =>
          if existsb (method_eqb m) (methods r)
          then Some (r, args)
          else find_rule rest m path
      | None => find_rule rest m path
      end
  end.

(** [app.dispatch_request()]. *)
Definition dispatch_request (m : Method) (path : string)
    (get_json : result json) : M (State W) Answer :=
  fun s =>
    match find_rule (app (globals s)) m (path_part path) with
    | None => (Ok NotRouted, s)
    | Some (r, args) =>
        if provide_automatic_options r && method_eqb m OPTIONS
        then (Ok DefaultOptions, s)
        else
          match request_of (endpoint r) args get_json with
          | None => (Ok (StaticFile (hd EmptyString args)), s)
          | Some req =>
              match handle req s with
              | (Ok resp, s') => (Ok (FromView resp), s')
              | (Raise e, s') => (Raise e, s')
              | (Exit e, s') => (Exit e, s')
              end
          end
    end.

(** Start-up: [app] with its rules, and [calendar_agent] bound to the new
    agent, or to [None] when the constructor raises an [Exception]; what is
    not an [Exception] ends the import of the module. *)
Definition module_init (constructor : W -> result Agent * W) (w : W)
    (now : datetime) : result (State W) :=
  let (r, w') := constructor w in
  match r with
  | Ok agent => Ok (mkState (mkGlobals url_map (Some agent)) w' now [])
  | Raise _ => Ok (mkState (mkGlobals url_map None) w' now [])
  | Exit e => Exit e
  end.

End Handlers.

(* ===================================================================== *)
(** ** langchain_agent.py *)
(* ===================================================================== *)

Module LangChainCalendarAgent.

(** The [MeetingInfo] of [calendar_agent], as far as the tools read it. *)
Record MeetingInfo := mkInfo {
  meeting_title : string;
  person_names : list string;
  start_time : option datetime;
  end_time : option datetime;
  original_description : string;
  location : option string;
  organizer_name : option string;
  organizer_email : option string;
  get_attendee_display_names : list string
}.

Record DayEvents := mkDay { total_events : Z; meetings : list MeetingInfo }.

(** The calendar operation behind a tool. *)
Inductive Operation : Type :=
| OpNextMeeting
| OpSearch (query : string) (max_results : nat)
| OpEventsForDay (date_str : string)
| OpMeetingById (event_id : string).

(** [ChatOpenAI(temperature=0, model=..., openai_api_key=os.getenv(...))]. *)
Record ChatOpenAI := mkLLM {
  temperature : Z;
  model : string;
  openai_api_key : option string
}.

(** The arguments of [PromptTemplate(...)]. *)
Record PromptTemplate := mkPrompt {
  template : string;
  input_variables : list string;
  partial_variables : list (string * string)
}.

Section Wrapper.
Context {W : Type}.

Record CalendarAgent := mkCalendarAgent {
  get_next_meeting_info : W -> result (option MeetingInfo) * W;
  search_meetings_by_keyword : string -> nat -> W -> result (list MeetingInfo) * W;
  get_events_for_day : string -> W -> result DayEvents * W;
  get_meeting_info_by_id : string -> W -> result (option MeetingInfo) * W
}.

(** The state of a tool call: the calendar's world and the operations
    called so far. *)
Definition T : Type -> Type := M (W * list Operation).

Definition operate {A} (method : W -> result A * W) (op : Operation) : T A :=
  fun s =>
    let (r, w') := method (fst s) in (r, (w', snd s ++ [op])).

Record Tool := mkTool {
  name : string;
  func : string -> T string;
  tool_description : string
}.

(** What [create_react_agent(llm, tools, prompt)] is given. *)
Record ReactAgent := mkReactAgent {
  agent_llm : ChatOpenAI;
  agent_tools : list Tool;
  agent_prompt : PromptTemplate
}.

Record AgentExecutor := mkExecutor {
  executor_agent : ReactAgent;
  executor_tools : list Tool;
  verbose : bool;
  max_iterations : nat
}.

(** [json.dumps(value, indent=2)] and [AgentExecutor.invoke] belong to the
    libraries. *)
Variable json_dumps : json -> string.
Variable invoke : AgentExecutor -> list (string * json) -> T (list (string * json)).

Definition strs (l : list string) : json := JArr (map JStr l).

(** [a or b] on two optional strings. *)
Definition str_or (a b : option string) : option string :=
  match a with
  | Some s => if String.eqb s EmptyString then b else a
  | None => b
  end.

Definition summary_dict (meeting_info : MeetingInfo) : json :=
  JObj [ ("meeting_title", JStr (meeting_title meeting_info));
         ("person_names", strs (person_names meeting_info));
         ("start_time", iso_or_none (start_time meeting_info));
         ("description", JStr (original_description meeting_info)) ].

Definition get_next_meeting_tool (self : CalendarAgent) (query : string)
  : T string :=
  do meeting_info <- operate (get_next_meeting_info self) OpNextMeeting;
  match meeting_info with
  | Some meeting_info => ret (json_dumps (summary_dict meeting_info))
  | None => ret "No upcoming meetings found"
  end.

Definition search_meetings_tool (self : CalendarAgent) (query : string)
  : T string :=
  do meetings <- operate (search_meetings_by_keyword self query 5)
                         (OpSearch query 5);
  if is_empty meetings then ret ("No meetings found for keyword: " +:+ query)
  else
    ret (json_dumps (JArr (map (fun meeting =>
      JObj [ ("meeting_title", JStr (meeting_title meeting));
             ("person_names", strs (person_names meeting));
             ("start_time", iso_or_none (start_time meeting));
             ("description",
               JStr (if (200 <? len (original_description meeting))%nat
                     then take_chars 200 (original_description meeting) +:+ "..."
                     else original_description meeting)) ]) meetings))).

Definition get_meetings_for_date_tool (self : CalendarAgent) (date_str : string)
  : T string :=
  try_except
    (do day_events <- operate (get_events_for_day self date_str)
                              (OpEventsForDay date_str);
     if (0 <? total_events day_events)%Z then
       ret (json_dumps (JArr (map (fun meeting =>
         JObj [ ("meeting_title", JStr (meeting_title meeting));
                ("attendee_names", strs (get_attendee_display_names meeting));
                ("start_time", iso_or_none (start_time meeting));
                ("end_time", iso_or_none (end_time meeting));
                ("description", JStr (original_description meeting));
                ("location", opt_str (location meeting));
                ("organizer",
                  opt_str (str_or (organizer_name meeting)
                                  (organizer_email meeting))) ])
         (meetings day_events))))
     else ret ("No meetings found for date: " +:+ date_str))
    (fun e =>
       ret ("Error getting meetings for " +:+ date_str +:+ ": " +:+ exc_str e)).

Definition get_meeting_by_id_tool (self : CalendarAgent) (event_id : string)
  : T string :=
  do meeting_info <- operate (get_meeting_info_by_id self event_id)
                             (OpMeetingById event_id);
  match meeting_info with
  | Some meeting_info => ret (json_dumps (summary_dict meeting_info))
  | None => ret ("Meeting not found for ID: " +:+ event_id)
  end.

Definition _create_tools (self : CalendarAgent) : list Tool :=
  [ mkTool "get_next_meeting" (get_next_meeting_tool self)
      "Get information about the next upcoming meeting including title, attendees, and description";
    mkTool "get_meetings_for_date" (get_meetings_for_date_tool self)
      "Get all meetings for a specific date. Input should be in YYYY-MM-DD format. This is the PRIMARY tool to use when asked for meetings on a specific date.";
    mkTool "search_meetings" (search_meetings_tool self)
      "Search for meetings by keyword in title or description. Useful for finding specific types of meetings like 'interview', 'standup', 'review', etc.";
    mkTool "get_meeting_by_id" (get_meeting_by_id_tool self)
      "Get detailed information about a specific meeting using its event ID" ].

Definition prompt_template : string :=
"You are a helpful calendar assistant that can access Google Calendar data and extract meeting information.

You have access to the following tools:
{tools}

Use the following format:

Question: the input question you must answer
Thought: you should always think about what to do
Action: the action to take, should be one of [{tool_names}]
Action Input: the input to the action
Observation: the result of the action
... (this Thought/Action/Action Input/Observation can repeat N times)
Thought: I now know the final answer
Final Answer: the final answer to the original input question

When extracting person names and meeting titles, be thorough and accurate. 
If multiple people are mentioned, list them all.
If the meeting title in the description is more descriptive than the calendar title, prefer the description version.

Question: {input}
Thought: {agent_scratchpad}".

(** [sep.join(parts)]. *)
Fixpoint join (sep : string) (parts : list string) : string :=
  match parts with
  | [] => EmptyString
  | [p] => p
  | p :: rest => p +:+ sep +:+ join sep rest
  end.

Definition newline : string := String (ascii_of_nat 10) EmptyString.

Definition _create_agent (llm : ChatOpenAI) (tools : list Tool) : ReactAgent :=
  let prompt :=
    mkPrompt prompt_template ["input"; "agent_scratchpad"]
      [ ("tools",
          join newline
               (map (fun tool => name tool +:+ ": " +:+ tool_description tool)
                    tools));
        ("tool_names", join ", " (map name tools)) ] in
  mkReactAgent llm tools prompt.

(** The object after [__init__]. *)
Record Self := mkSelf {
  calendar_agent : CalendarAgent;
  llm : ChatOpenAI;
  tools : list Tool;
  agent : ReactAgent
}.

Definition __init__ (calendar : CalendarAgent) (api_key : option string) : Self :=
  let llm := mkLLM 0 "gpt-3.5-turbo" api_key in
  let tools := _create_tools calendar in
  mkSelf calendar llm tools (_create_agent llm tools).

(** The executor that [run] builds for every query. *)
Definition agent_executor (self : Self) : AgentExecutor :=
  mkExecutor (agent self) (tools self) true 5.

Definition KeyError (k : string) : PyExc := mkExc "KeyError" (repr k).

(** [run] answers [result["output"]], whatever value that is. *)
Definition run (self : Self) (query : string) : T json :=
  try_except
    (do result <- invoke (agent_executor self) [("input", JStr query)];
     match assoc "output" result with
     | Some output => ret output
     | None => raise (KeyError "output")
     end)
    (fun e => ret (JStr ("Error executing agent: " +:+ exc_str e))).

(** The operations a tool calls on the calendar, for an input. *)
Definition operations_of (tool : Tool) (input : string) (w : W)
  : list Operation :=
  snd (snd (func tool input (w, []))).

End Wrapper.

Arguments CalendarAgent : clear implicits.
Arguments Tool : clear implicits.
Arguments ReactAgent : clear implicits.
Arguments AgentExecutor : clear implicits.
Arguments Self : clear implicits.
Arguments operations_of {W} tool input w.

End LangChainCalendarAgent.

(* ===================================================================== *)
(** ** A small calendar to run the handlers on *)
(* ===================================================================== *)

Module Demo.

Definition at_time (y m d h mi : Z) : option datetime :=
  Some (mkDateTime y m d h mi 0 0 None).

Definition standup : Meeting :=
  mkMeeting "evt1" "Standup" (at_time 2025 9 24 9 0) (at_time 2025 9 24 9 15)
    (Some "Room 1") (Some "Daily standup meeting").

Definition standup_next_day : Meeting :=
  mkMeeting "evt2" "Standup" (at_time 2025 9 25 9 0) (at_time 2025 9 25 9 15)
    (Some "Room 1") (Some "Daily standup meeting").

Definition interview : Meeting :=
  mkMeeting "evt3" "Interview" (at_time 2025 9 24 14 0) None None
    (Some "Interview with Ada").

Definition untimed : Meeting :=
  mkMeeting "evt4" "Call" None None None None.

Definition review : Meeting :=
  mkMeeting "evt5" "Review" (at_time 2025 9 25 11 0) None None None.

Definition ada : AttendeeResearchResult :=
  mkResearch (mkAttendee "Ada" "ada@example.org" (Some "Engines") None)
    "Wrote the first program" true.

Definition boom : PyExc := mkExc "RuntimeError" "LLM unavailable".

(** The world counts the calls.  [dated] tells whether a search for the
    date itself finds something; [texts] whether the two generated texts can
    be produced; [scans] whether the keyword "call" can be searched. *)
Definition calendar (dated texts scans : bool) : CalendarPersonResearchAgent nat :=
  mkAgent
    (fun keyword max_results w =>
       (match keyword with
        | JStr "Sep 24, 2025" => Ok (if dated then [standup; interview] else [])
        | JStr "meeting" => Ok [review; standup_next_day; untimed; standup]
        | JStr "interview" => Ok [interview; review]
        | JStr "call" => if scans then Ok [untimed] else Raise boom
        | JStr "standup" => Ok [standup; standup_next_day]
        | _ => Ok []
        end, S w))
    (fun meeting w => (Ok [ada], S w))
    (fun meeting rs w =>
       (if texts then Ok ("About " +:+ meeting_title meeting) else Raise boom,
        S w))
    (fun meeting rs w => (Ok "What is the agenda?", S w))
    (fun id w =>
       (Ok (if String.eqb id "evt1" then Some standup else None), S w))
    (fun w => (Ok (if dated then Some standup else None), S w)).


Definition noon : datetime := mkDateTime 2025 9 24 12 0 0 0 None.

(** The states after a start-up where the agent was built, and after one
    where its constructor raised. *)
Definition started (agent : CalendarPersonResearchAgent nat) : State nat :=
  mkState (mkGlobals url_map (Some agent)) 0%nat noon [].

Definition not_started : State nat :=
  mkState (mkGlobals url_map None) 0%nat noon [].

End Demo.

(* ===================================================================== *)
(** ** What the handlers are expected to do *)
(* ===================================================================== *)

Definition ev_call (ev : SearchEv) : Call :=
  CSearch (ev_keyword ev) (ev_max ev) (ev_result ev).

(** The searches of a strategy: the texts, each with [max_results]. *)
Definition queries (max_results : nat) (texts : list string)
  : list (json * nat) :=
  map (fun t => (JStr t, max_results)) texts.

(** Strategies 1 and 2: the date string as given, then its six other
    spellings. *)
Definition date_plan (date_str : string) (target_date : datetime)
  : list (json * nat) :=
  queries 10 (date_str :: date_formats target_date).

(** Strategy 3: the generic keywords. *)
Definition keyword_plan : list (json * nat) := queries 20 keywords.

(** [first_hit plan evs r]: the searches [evs] are those of [plan], in its
    order, each one made only after every earlier one answered the empty
    list; they stop at the first answer that is not the empty list (or at
    the first search that does not return), and [r] is that answer,
    [Ok []] when every search of the plan answered the empty list. *)
Inductive first_hit
  : list (json * nat) -> list SearchEv -> result (list Meeting) -> Prop :=
| fh_exhausted : first_hit [] [] (Ok [])
| fh_found k n plan m ms :
    first_hit ((k, n) :: plan) [mkEv k n (Ok (m :: ms))] (Ok (m :: ms))
| fh_raised k n plan e :
    first_hit ((k, n) :: plan) [mkEv k n (Raise e)] (Raise e)
| fh_exited k n plan e :
    first_hit ((k, n) :: plan) [mkEv k n (Exit e)] (Exit e)
| fh_empty k n plan evs r :
    first_hit plan evs r ->
    first_hit ((k, n) :: plan) (mkEv k n (Ok []) :: evs) r.

Definition prepend (ms : list Meeting) (r : result (list Meeting))
  : result (list Meeting) :=
  match r with
  | Ok rest => Ok (ms ++ rest)
  | Raise e => Raise e
  | Exit e => Exit e
  end.

(** [scan_all plan evs r]: the searches [evs] are those of [plan], in its
    order, whatever the earlier ones answered, up to the first that does
    not return; [r] is the concatenation of the answers. *)
Inductive scan_all
  : list (json * nat) -> list SearchEv -> result (list Meeting) -> Prop :=
| sa_done : scan_all [] [] (Ok [])
| sa_raised k n plan e :
    scan_all ((k, n) :: plan) [mkEv k n (Raise e)] (Raise e)
| sa_exited k n plan e :
    scan_all ((k, n) :: plan) [mkEv k n (Exit e)] (Exit e)
| sa_next k n plan ms evs r :
    scan_all plan evs r ->
    scan_all ((k, n) :: plan) (mkEv k n (Ok ms) :: evs) (prepend ms r).

(** [m] stands in [all] with no meeting of the same title before it. *)
Definition first_with_title (all : list Meeting) (m : Meeting) : Prop :=
  exists before after,
    all = before ++ m :: after /\
    Forall (fun m' => meeting_title m' <> meeting_title m) before.

(** [m] has a start time, and it falls on the day of [target_date]. *)
Definition starts_on (target_date : datetime) (m : Meeting) : Prop :=
  exists st, start_time m = Some st /\ to_date st = to_date target_date.

Definition starts_onb (target_date : datetime) (m : Meeting) : bool :=
  match start_time m with
  | Some st => date_eqb (to_date st) (to_date target_date)
  | None => false
  end.

(** The meeting object of a response. *)
Definition meeting_object (m : Meeting) (rs : list AttendeeResearchResult)
    (summary questions : json) : json :=
  JObj [ ("id", JStr (meeting_id m));
         ("title", JStr (meeting_title m));
         ("start_time", iso_or_none (start_time m));
         ("end_time", iso_or_none (end_time m));
         ("location", opt_str (location m));
         ("description", opt_str (description m));
         ("attendees", JArr (map attendee_info rs));
         ("research_summary", summary);
         ("preparation_questions", questions) ].

(** The meeting objects of a response body, by request. *)
Definition meeting_objects (req : Request) (b : json) : list json :=
  match req with
  | GET_health => []
  | GET_meetings _ | POST_search_meetings _ =>
      match field "meetings" b with Some (JArr l) => l | _ => [] end
  | GET_meeting _ => [b]
  | GET_next_meeting =>
      match field "meeting" b with
      | Some JNull | None => []
      | Some v => [v]
      end
  end.

(** The [try] block of the handler of a request. *)
Definition try_block {W} (agent : CalendarPersonResearchAgent W) (req : Request)
  : M (State W) Response :=
  match req with
  | GET_health => health_check
  | GET_meetings date_str => get_meetings_for_date_try agent date_str
  | GET_meeting id => get_meeting_details_try agent id
  | GET_next_meeting => get_next_meeting_try agent
  | POST_search_meetings get_json => search_meetings_try agent get_json
  end.

(** The answer of a handler when [calendar_agent] is [None]. *)
Definition unavailable (req : Request) : Response :=
  match req with
  | GET_meetings _ =>
      jsonify_status (JObj [
        ("error", JStr "Calendar agent not available");
        ("meetings", JArr [])
      ]) 500
  | _ =>
      jsonify_status (JObj [("error", JStr "Calendar agent not available")]) 500
  end.

(** The answer of a handler whose [try] block raised [e]. *)
Definition failure (req : Request) (e : PyExc) : Response :=
  match req with
  | GET_meetings _ => date_error e
  | _ => jsonify_status (JObj [("error", JStr (exc_str e))]) 500
  end.

(** A search or a research of the attendees that raised [e]. *)
Definition aborts (e : PyExc) (c : Call) : Prop :=
  (exists k n, c = CSearch k n (Raise e)) \/ (exists m, c = CResearch m (Raise e)).

(** A call that generated a text for [m] and raised [e]. *)
Definition generation_raised (m : Meeting) (rs : list AttendeeResearchResult)
    (e : PyExc) (c : Call) : Prop :=
  c = CSummary m rs (Raise e) \/ c = CQuestions m rs (Raise e).

(** The statuses of the error answers as the specification words them:
    500, or 404 for a meeting that is not found, and nothing else. *)
Definition statuses_as_specified {W} (req : Request) (s : State W) : Prop :=
  forall resp s',
    handle req s = (Ok resp, s') ->
    (status resp <> 200%Z ->
     status resp = 500%Z \/ status resp = 404%Z) /\
    (field "meeting" (body resp) = Some JNull -> status resp = 404%Z).


(** [step in text]. *)
Definition occurs (step text : string) : bool :=
  match String.index 0 step text with Some _ => true | None => false end.

(** A part of a path: a text that is not empty and has no slash. *)
Definition segment (d : string) : Prop :=
  d <> EmptyString /\ contains "/" d = false.

(** A part of a rule that is no variable. *)
Definition plain (part : string) : Prop :=
  is_path_variable part = false /\ is_variable part = false.

(** The requests that reach a view function, by method and path, with the
    arguments of the view. *)
Inductive reaches (get_json : result json)
  : Method -> string -> Request -> Prop :=
| reach_health m :
    m = GET \/ m = HEAD -> reaches get_json m "/health" GET_health
| reach_meetings m d :
    m = GET \/ m = HEAD -> segment d ->
    reaches get_json m ("/meetings/" +:+ d) (GET_meetings d)
| reach_meeting m d :
    m = GET \/ m = HEAD -> segment d ->
    reaches get_json m ("/meeting/" +:+ d) (GET_meeting d)
| reach_next_meeting m :
    m = GET \/ m = HEAD ->
    reaches get_json m "/next-meeting" GET_next_meeting
| reach_search_meetings :
    reaches get_json POST "/search-meetings" (POST_search_meetings get_json).

(** The view function that serves a request, by method and path, as the
    decorators of the file say. *)
Inductive serves {W} (get_json : result json)
  : Method -> string -> M (State W) Response -> Prop :=
| serves_health m :
    m = GET \/ m = HEAD -> serves get_json m "/health" health_check
| serves_meetings m d :
    m = GET \/ m = HEAD -> segment d ->
    serves get_json m ("/meetings/" +:+ d) (get_meetings_for_date d)
| serves_meeting m d :
    m = GET \/ m = HEAD -> segment d ->
    serves get_json m ("/meeting/" +:+ d) (get_meeting_details d)
| serves_next_meeting m :
    m = GET \/ m = HEAD ->
    serves get_json m "/next-meeting" get_next_meeting
| serves_search_meetings :
    serves get_json POST "/search-meetings" (search_meetings get_json).

(** The routes as the specification words them: five rules and no other,
    and whatever is answered to a request that a rule takes is the JSON of
    a view. *)
Definition routes_as_specified {W} (s : State W) : Prop :=
  map (fun r => (methods r, rule r)) (app (globals s)) =
    [ ([GET], "/health"); ([GET], "/meetings/<date_str>");
      ([GET], "/meeting/<meeting_id>"); ([GET], "/next-meeting");
      ([POST], "/search-meetings") ] /\
  forall m path get_json a s',
    dispatch_request m path get_json s = (Ok a, s') ->
    a = NotRouted \/ exists resp, a = FromView resp.

(** Every run of [c] takes a state to an [R]-related one. *)
Definition respects {S} (R : S -> S -> Prop) {A} (c : M S A) : Prop :=
  forall s, R s (snd (c s)).

(** The module-level bindings are the same in both states. *)
Definition same_globals {W} (s s' : State W) : Prop := globals s' = globals s.

(** The same searches are logged in both states. *)
Definition same_searches {W} (s s' : State W) : Prop :=
  searches (calls s') = searches (calls s).

(** What the third strategy leaves in [meetings], when its scan ended
    with [r3]. *)
Definition scanned (target_date : datetime) (meetings : list Meeting)
    (r3 : result (list Meeting)) : result (list Meeting) :=
  match r3 with
  | Ok all_meetings =>
      Ok (filter_by_date target_date (remove_duplicates all_meetings))
  | Raise _ => Ok meetings
  | Exit e => Exit e
  end.

Definition titles (l : list Meeting) : list string := map meeting_title l.

(** The dict of a meeting with its attendees filled in. *)
Definition meeting_fields (m : Meeting) (attendees : list json)
    (summary questions : json) : list (string * json) :=
  [ ("id", JStr (meeting_id m));
    ("title", JStr (meeting_title m));
    ("start_time", iso_or_none (start_time m));
    ("end_time", iso_or_none (end_time m));
    ("location", opt_str (location m));
    ("description", opt_str (description m));
    ("attendees", JArr attendees);
    ("research_summary", summary);
    ("preparation_questions", questions) ].

(** The 200 answers of the two list handlers. *)
Definition date_answer (date_str : string) (objs : list json) : Response :=
  jsonify (JObj [
    ("date", JStr date_str);
    ("meetings", JArr objs);
    ("count", JNum (Z.of_nat (length objs)))
  ]).

Definition search_answer (keyword : json) (objs : list json) : Response :=
  jsonify (JObj [
    ("keyword", keyword);
    ("meetings", JArr objs);
    ("count", JNum (Z.of_nat (length objs)))
  ]).

(** What a list handler says of the objects it answers. *)
Definition listed (new : list Call) (objs : list json) : Prop :=
  Forall (fun v => exists m rs a b, v = meeting_object m rs a b) objs /\
  (forall m rs e c,
     c ∈ new -> generation_raised m rs e c ->
     meeting_object m rs error_summary error_questions ∈ objs).

(** The answers for a meeting that is not there. *)
Definition not_found : Response :=
  jsonify_status (JObj [("error", JStr "Meeting not found")]) 404.

Definition no_upcoming : Response :=
  jsonify (JObj [
    ("message", JStr "No upcoming meetings found");
    ("meeting", JNull)
  ]).

(** The answer to a search with no keyword. *)
Definition keyword_required : Response :=
  jsonify_status (JObj [("error", JStr "Keyword is required")]) 400.

(** The answer of the health check. *)
Definition healthy (available : bool) (now : datetime) : Response :=
  mkResponse 200 (JObj [
    ("status", JStr "healthy");
    ("agent_available", JBool available);
    ("timestamp", JStr (isoformat now))
  ]).

(** The answer of a run that did not raise. *)
Definition answer_of {W} (r : result Response * State W) : Response :=
  match fst r with
  | Ok resp => resp
  | Raise _ | Exit _ => mkResponse 0 JNull
  end.

(** The meetings whose attendees a log researched, in order. *)
Fixpoint researched (log : list Call) : list Meeting :=
  match log with
  | [] => []
  | CResearch m _ :: log' => m :: researched log'
  | _ :: log' => researched log'
  end.

(** [v] is the object answered for the meeting [m]. *)
Definition describes (v : json) (m : Meeting) : Prop :=
  exists rs a b, v = meeting_object m rs a b.

(** [v] is the object answered for the meeting [m], with the attendees
    that a research of the log [new] answered for [m]. *)
Definition answered_for (new : list Call) (v : json) (m : Meeting) : Prop :=
  exists rs a b, CResearch m (Ok rs) ∈ new /\ v = meeting_object m rs a b.

(** The 500 answer of the three handlers with a bare error body. *)
Definition error_500 (e : PyExc) : Response :=
  jsonify_status (JObj [("error", JStr (exc_str e))]) 500.

(** The calls made for the details of the meeting [m], and what they
    give: the research, the summary, the questions, each only after the one
    before it answered; the object when all three answered, the exception
    of the first that raised otherwise (or what the first that did not
    return left with). *)
Definition detailed (m : Meeting) (new : list Call) (r : result json) : Prop :=
  (exists e, new = [CResearch m (Raise e)] /\ r = Raise e) \/
  (exists rs e,
     new = [CResearch m (Ok rs); CSummary m rs (Raise e)] /\ r = Raise e) \/
  (exists rs a e,
     new = [CResearch m (Ok rs); CSummary m rs (Ok a);
            CQuestions m rs (Raise e)] /\ r = Raise e) \/
  (exists rs a b,
     new = [CResearch m (Ok rs); CSummary m rs (Ok a); CQuestions m rs (Ok b)] /\
     r = Ok (meeting_object m rs (JStr a) (JStr b))) \/
  (exists e, new = [CResearch m (Exit e)] /\ r = Exit e) \/
  (exists rs e,
     new = [CResearch m (Ok rs); CSummary m rs (Exit e)] /\ r = Exit e) \/
  (exists rs a e,
     new = [CResearch m (Ok rs); CSummary m rs (Ok a);
            CQuestions m rs (Exit e)] /\ r = Exit e).

(** What a search asked for. *)
Definition ev_query (ev : SearchEv) : json * nat := (ev_keyword ev, ev_max ev).

(* ===================================================================== *)
(** ** Properties *)
(* ===================================================================== *)

(** *** Running the monad *)

Section Respects.
Context {S : Type} (R : S -> S -> Prop).
Hypothesis R_refl : forall s, R s s.
Hypothesis R_trans : forall a b c, R a b -> R b c -> R a c.

Lemma respects_ret {A} (a : A) : respects R (ret a).
Proof using R_refl. intros s. apply R_refl. Qed.

Lemma respects_lift {A} (r : result A) : respects R (lift r).
Proof using R_refl. intros s. apply R_refl. Qed.

Lemma respects_raise {A} (e : PyExc) : respects R (@raise S A e).
Proof using R_refl. intros s. apply R_refl. Qed.

Lemma respects_bind {A B} (c : M S A) (k : A -> M S B) :
  respects R c -> (forall a, respects R (k a)) -> respects R (bind c k).
Proof using R_trans.
  intros Hc Hk s. unfold bind. specialize (Hc s).
  destruct (c s) as [[a|e|e] s1]; simpl in *; [|exact Hc|exact Hc].
  eapply R_trans; [exact Hc | apply Hk].
Qed.

Lemma respects_try {A} (c : M S A) (h : PyExc -> M S A) :
  respects R c -> (forall e, respects R (h e)) -> respects R (try_except c h).
Proof using R_trans.
  intros Hc Hh s. unfold try_except. specialize (Hc s).
  destruct (c s) as [[a|e|e] s1]; simpl in *; [exact Hc| |exact Hc].
  eapply R_trans; [exact Hc | apply Hh].
Qed.

End Respects.

Section Proofs.
Context {W : Type}.
Local Abbreviation Agent := (CalendarPersonResearchAgent W).
Implicit Types (agent : Agent) (s : State W).

(** **** The module-level bindings are never assigned *)

Local Abbreviation frames := (respects (@same_globals W)).

Lemma same_globals_refl s : same_globals s s.
Proof. reflexivity. Qed.

Lemma same_globals_trans (a b c : State W) :
  same_globals a b -> same_globals b c -> same_globals a c.
Proof. unfold same_globals. congruence. Qed.

Lemma frames_call {A} (method : W -> result A * W) entry :
  frames (call method entry).
Proof. intros s. unfold call. destruct (method (world s)). reflexivity. Qed.

Lemma frames_read : frames (@read_calendar_agent W).
Proof. intros s. reflexivity. Qed.

Lemma frames_now : frames (@datetime_now W).
Proof. intros s. reflexivity. Qed.

Ltac frame_step :=
  first
    [ apply frames_call
    | apply frames_read
    | apply frames_now
    | apply (respects_ret _ same_globals_refl)
    | apply (respects_lift _ same_globals_refl)
    | apply (respects_raise _ same_globals_refl)
    | apply (respects_bind _ same_globals_trans); [|intros]
    | apply (respects_try _ same_globals_trans); [|intros]
    | match goal with
      | |- respects _ (match ?x with _ => _ end) => destruct x
      | |- respects _ (if ?x then _ else _) => destruct x
      end ].

Ltac frame := repeat frame_step.

Lemma frames_enhance_meeting agent m : frames (enhance_meeting agent m).
Proof.
  unfold enhance_meeting, research_attendees, summary_of, questions_of. frame.
Qed.

Lemma frames_enhance_all agent ms acc : frames (enhance_all agent ms acc).
Proof.
  revert acc. induction ms as [|m ms IH]; intros acc; simpl.
  - frame.
  - apply (respects_bind _ same_globals_trans);
      [apply frames_enhance_meeting | intros; apply IH].
Qed.

Lemma frames_meeting_details agent m : frames (meeting_details agent m).
Proof.
  unfold meeting_details, research_attendees, summary_of, questions_of. frame.
Qed.

Lemma frames_try_date_formats agent fmts ms :
  frames (try_date_formats agent fmts ms).
Proof.
  revert ms. induction fmts as [|f fmts IH]; intros ms; simpl.
  - frame.
  - unfold search_by_keyword.
    apply (respects_bind _ same_globals_trans); [frame|].
    intros a. destruct (is_empty a); [apply IH | frame].
Qed.

Lemma frames_scan_keywords agent kws acc : frames (scan_keywords agent kws acc).
Proof.
  revert acc. induction kws as [|k kws IH]; intros acc; simpl.
  - frame.
  - unfold search_by_keyword.
    apply (respects_bind _ same_globals_trans); [frame | intros; apply IH].
Qed.

Lemma frames_find_meetings agent date_str target :
  frames (find_meetings agent date_str target).
Proof.
  unfold find_meetings, keyword_scan, search_by_keyword.
  apply (respects_bind _ same_globals_trans); [frame|]. intros a.
  apply (respects_bind _ same_globals_trans).
  - destruct (is_empty a); [apply frames_try_date_formats | frame].
  - intros b. destruct (is_empty b); [|frame].
    apply (respects_try _ same_globals_trans); [|intros; frame].
    apply (respects_bind _ same_globals_trans);
      [apply frames_scan_keywords | intros; frame].
Qed.

Lemma frames_handle (req : Request) : frames (handle req).
Proof.
  destruct req; simpl;
    unfold health_check, get_meetings_for_date, get_meetings_for_date_try,
      answer_for_date, get_meeting_details, get_meeting_details_try,
      meeting_by_id, get_next_meeting, get_next_meeting_try,
      next_meeting_info, search_meetings, search_meetings_try,
      search_by_keyword;
    frame;
    first [ apply frames_find_meetings | apply frames_enhance_all
          | apply frames_meeting_details ].
Qed.

(** C7. Handling a request assigns no module-level name: after any request,
    routed through [app] or handed to its view function, [calendar_agent]
    and [app] are bound as before, on every input and in every state. *)
Theorem handlers_leave_globals_unchanged :
  (forall (req : Request) s,
     globals (snd (handle req s)) = globals s /\
     calendar_agent (globals (snd (handle req s))) = calendar_agent (globals s) /\
     app (globals (snd (handle req s))) = app (globals s)) /\
  (forall (m : Method) (path : string) (get_json : result json) s,
     globals (snd (dispatch_request m path get_json s)) = globals s).
Proof.
  split.
  - intros req s. pose proof (frames_handle req s) as H.
    unfold same_globals in H. rewrite H. auto.
  - intros m path gj s. unfold dispatch_request.
    destruct (find_rule (app (globals s)) m (path_part path)) as [[r args]|];
      [|reflexivity].
    destruct (provide_automatic_options r && method_eqb m OPTIONS);
      [reflexivity|].
    destruct (request_of (endpoint r) args gj) as [req|]; [|reflexivity].
    pose proof (frames_handle req s) as H.
    unfold same_globals in H.
    destruct (handle req s) as [[resp|e|e] s1]; exact H.
Qed.

(** **** The log of the searches *)

Lemma searches_app (l1 l2 : list Call) :
  searches (l1 ++ l2) = searches l1 ++ searches l2.
Proof.
  induction l1 as [|c l1 IH]; simpl; [reflexivity|].
  destruct c; simpl; rewrite IH; reflexivity.
Qed.

Lemma searches_ev_calls (evs : list SearchEv) : searches (map ev_call evs) = evs.
Proof.
  induction evs as [|[k n r] evs IH]; simpl; [reflexivity|].
  rewrite IH. reflexivity.
Qed.

(** One search: its answer, and the state with the call logged. *)
Lemma search_by_keyword_run agent k n s r s' :
  search_by_keyword agent k n s = (r, s') ->
  calls s' = calls s ++ [ev_call (mkEv k n r)].
Proof.
  unfold search_by_keyword, call.
  destruct (search_meetings_by_keyword agent k n (world s)) as [r0 w'].
  intros H. inversion H; subst. reflexivity.
Qed.

Lemma try_date_formats_first_hit agent formats s r s' :
  try_date_formats agent formats [] s = (r, s') ->
  exists evs,
    calls s' = calls s ++ map ev_call evs /\
    first_hit (queries 10 formats) evs r.
Proof.
  revert s. induction formats as [|f formats IH]; intros s; simpl.
  - intros H. inversion H; subst. exists []. split.
    + rewrite app_nil_r. reflexivity.
    + constructor.
  - unfold bind.
    destruct (search_by_keyword agent (JStr f) 10 s) as [[ms|e|e] s0] eqn:E;
      apply search_by_keyword_run in E.
    + destruct ms as [|m ms]; simpl.
      * intros H. destruct (IH _ H) as (evs & Hc & Hf).
        exists (mkEv (JStr f) 10 (Ok []) :: evs). split.
        -- rewrite Hc, E. rewrite <- app_assoc. reflexivity.
        -- apply fh_empty. exact Hf.
      * intros H. inversion H; subst.
        exists [mkEv (JStr f) 10 (Ok (m :: ms))]. split; [exact E|].
        apply fh_found.
    + intros H. inversion H; subst.
      exists [mkEv (JStr f) 10 (Raise e)]. split; [exact E|]. apply fh_raised.
    + intros H. inversion H; subst.
      exists [mkEv (JStr f) 10 (Exit e)]. split; [exact E|]. apply fh_exited.
Qed.

Lemma scan_keywords_scan_all agent kws acc s r s' :
  scan_keywords agent kws acc s = (r, s') ->
  exists evs r0,
    calls s' = calls s ++ map ev_call evs /\
    scan_all (queries 20 kws) evs r0 /\
    r = prepend acc r0.
Proof.
  revert acc s. induction kws as [|k kws IH]; intros acc s; simpl.
  - intros H. inversion H; subst. exists [], (Ok []). split; [|split].
    + rewrite app_nil_r. reflexivity.
    + constructor.
    + simpl. rewrite app_nil_r. reflexivity.
  - unfold bind.
    destruct (search_by_keyword agent (JStr k) 20 s) as [[ms|e|e] s0] eqn:E;
      apply search_by_keyword_run in E.
    + intros H. destruct (IH _ _ H) as (evs & r0 & Hc & Hs & Hr).
      exists (mkEv (JStr k) 20 (Ok ms) :: evs), (prepend ms r0).
      split; [|split].
      * rewrite Hc, E. rewrite <- app_assoc. reflexivity.
      * apply sa_next. exact Hs.
      * rewrite Hr. destruct r0; simpl; [rewrite app_assoc| |]; reflexivity.
    + intros H. inversion H; subst.
      exists [mkEv (JStr k) 20 (Raise e)], (Raise e).
      split; [exact E|]. split; [apply sa_raised | reflexivity].
    + intros H. inversion H; subst.
      exists [mkEv (JStr k) 20 (Exit e)], (Exit e).
      split; [exact E|]. split; [apply sa_exited | reflexivity].
Qed.

Lemma keyword_scan_run agent target_date meetings s r s' :
  keyword_scan agent target_date meetings s = (r, s') ->
  exists evs r3,
    calls s' = calls s ++ map ev_call evs /\
    scan_all keyword_plan evs r3 /\
    r = scanned target_date meetings r3.
Proof.
  unfold keyword_scan, try_except, bind.
  destruct (scan_keywords agent keywords [] s) as [r0 s0] eqn:E.
  apply scan_keywords_scan_all in E. destruct E as (evs & r3 & Hc & Hs & Hr).
  simpl in Hr. subst r0.
  destruct r3 as [all|e|e]; simpl; intros H; inversion H; subst;
    exists evs; [exists (Ok all) | exists (Raise e) | exists (Exit e)]; auto.
Qed.

Lemma find_meetings_cascade agent date_str target_date s r s1 :
  find_meetings agent date_str target_date s = (r, s1) ->
  exists evs12 evs3 r12,
    calls s1 = calls s ++ map ev_call (evs12 ++ evs3) /\
    first_hit (date_plan date_str target_date) evs12 r12 /\
    match r12 with
    | Raise e => evs3 = [] /\ r = Raise e
    | Exit e => evs3 = [] /\ r = Exit e
    | Ok (m :: ms) => evs3 = [] /\ r = Ok (m :: ms)
    | Ok [] =>
        exists r3, scan_all keyword_plan evs3 r3 /\
                   r = scanned target_date [] r3
    end.
Proof.
  unfold find_meetings.
  change (date_plan date_str target_date)
    with ((JStr date_str, 10%nat) :: queries 10 (date_formats target_date)).
  generalize (date_formats target_date) as formats. intros formats.
  unfold bind at 1.
  destruct (search_by_keyword agent (JStr date_str) 10 s) as [[ms|e|e] s0] eqn:E;
    apply search_by_keyword_run in E.
  - destruct ms as [|m ms]; cbn [is_empty].
    + unfold bind.
      destruct (try_date_formats agent formats [] s0) as [[ms|e|e] s2] eqn:E2;
        apply try_date_formats_first_hit in E2; destruct E2 as (evs & Hc & Hf).
      * destruct ms as [|m ms]; cbn [is_empty].
        -- intros H. apply keyword_scan_run in H.
           destruct H as (evs3 & r3 & Hc3 & Hs & Hr).
           exists (mkEv (JStr date_str) 10 (Ok []) :: evs), evs3, (Ok []).
           split; [|split].
           ++ rewrite Hc3, Hc, E. rewrite map_app. cbn [map app].
              rewrite <- !app_assoc. reflexivity.
           ++ apply fh_empty. exact Hf.
           ++ exists r3. auto.
        -- intros H. inversion H; subst.
           exists (mkEv (JStr date_str) 10 (Ok []) :: evs), [], (Ok (m :: ms)).
           split; [|split]; [| apply fh_empty; exact Hf | auto].
           rewrite Hc, E, app_nil_r. cbn [map app].
           rewrite <- app_assoc. reflexivity.
      * intros H. inversion H; subst.
        exists (mkEv (JStr date_str) 10 (Ok []) :: evs), [], (Raise e).
        split; [|split]; [| apply fh_empty; exact Hf | auto].
        rewrite Hc, E, app_nil_r. cbn [map app].
        rewrite <- app_assoc. reflexivity.
      * intros H. inversion H; subst.
        exists (mkEv (JStr date_str) 10 (Ok []) :: evs), [], (Exit e).
        split; [|split]; [| apply fh_empty; exact Hf | auto].
        rewrite Hc, E, app_nil_r. cbn [map app].
        rewrite <- app_assoc. reflexivity.
    + intros H. inversion H; subst.
      exists [mkEv (JStr date_str) 10 (Ok (m :: ms))], [], (Ok (m :: ms)).
      split; [|split]; [exact E | apply fh_found | auto].
  - intros H. inversion H; subst.
    exists [mkEv (JStr date_str) 10 (Raise e)], [], (Raise e).
    split; [|split]; [exact E | apply fh_raised | auto].
  - intros H. inversion H; subst.
    exists [mkEv (JStr date_str) 10 (Exit e)], [], (Exit e).
    split; [|split]; [exact E | apply fh_exited | auto].
Qed.

Local Abbreviation quiet := (respects (@same_searches W)).

Lemma same_searches_refl s : same_searches s s.
Proof. reflexivity. Qed.

Lemma same_searches_trans (a b c : State W) :
  same_searches a b -> same_searches b c -> same_searches a c.
Proof. unfold same_searches. congruence. Qed.

Lemma quiet_call {A} (method : W -> result A * W) entry :
  (forall r, searches [entry r] = []) -> quiet (call method entry).
Proof.
  intros He s. unfold call, same_searches.
  destruct (method (world s)) as [r w']. simpl.
  rewrite searches_app, He, app_nil_r. reflexivity.
Qed.

Ltac quiet_step :=
  first
    [ apply quiet_call; reflexivity
    | apply (respects_ret _ same_searches_refl)
    | apply (respects_bind _ same_searches_trans); [|intros]
    | apply (respects_try _ same_searches_trans); [|intros] ].

Lemma quiet_enhance_meeting agent m : quiet (enhance_meeting agent m).
Proof.
  unfold enhance_meeting, research_attendees, summary_of, questions_of.
  repeat quiet_step.
Qed.

Lemma quiet_enhance_all agent ms acc : quiet (enhance_all agent ms acc).
Proof.
  revert acc. induction ms as [|m ms IH]; intros acc; simpl.
  - quiet_step.
  - quiet_step; [apply quiet_enhance_meeting | apply IH].
Qed.

Lemma quiet_answer agent date_str ms :
  quiet (try_except (answer_for_date agent date_str ms)
                    (fun e => ret (date_error e))).
Proof.
  unfold answer_for_date. repeat quiet_step. apply quiet_enhance_all.
Qed.

(** The handler, once the agent is there and the date is read: the three
    strategies, then the answer for the meetings they found. *)
Lemma get_meetings_for_date_run agent date_str target_date s r s1 :
  calendar_agent (globals s) = Some agent ->
  strptime_Ymd date_str = Ok target_date ->
  find_meetings agent date_str target_date s = (r, s1) ->
  get_meetings_for_date date_str s =
    match r with
    | Ok ms =>
        try_except (answer_for_date agent date_str ms)
                   (fun e => ret (date_error e)) s1
    | Raise e => (Ok (date_error e), s1)
    | Exit e => (Exit e, s1)
    end.
Proof.
  intros Ha Hd Hf.
  unfold get_meetings_for_date, bind at 1, read_calendar_agent. rewrite Ha.
  unfold try_except, get_meetings_for_date_try, bind, lift. rewrite Hd, Hf.
  destruct r; reflexivity.
Qed.

(** The answer for the meetings found makes no search. *)
Lemma quiet_answer_run agent date_str ms s1 :
  searches
    (calls (snd (try_except (answer_for_date agent date_str ms)
                            (fun e => ret (date_error e)) s1))) =
  searches (calls s1).
Proof. apply quiet_answer. Qed.

(** **** Strategy 3: duplicates and dates *)

Lemma titles_app l1 l2 : titles (l1 ++ l2) = titles l1 ++ titles l2.
Proof. apply map_app. Qed.

Lemma elem_of_titles (l : list Meeting) (m : Meeting) :
  m ∈ l -> meeting_title m ∈ titles l.
Proof.
  induction l as [|x l IH]; intros H; [inversion H|].
  simpl. apply elem_of_cons in H. destruct H as [->|H].
  - apply elem_of_cons. left. reflexivity.
  - apply elem_of_cons. right. auto.
Qed.

Lemma titles_elem_of (l : list Meeting) (t : string) :
  t ∈ titles l -> exists m, m ∈ l /\ meeting_title m = t.
Proof.
  induction l as [|x l IH]; simpl; intros H; [inversion H|].
  apply elem_of_cons in H. destruct H as [->|H].
  - exists x. split; [apply elem_of_cons; left|]; reflexivity.
  - destruct (IH H) as (m & Hm & Ht). exists m. split; [|exact Ht].
    apply elem_of_cons. right. exact Hm.
Qed.

Lemma fresh_title_Forall (l : list Meeting) (m : Meeting) :
  meeting_title m ∉ titles l <->
  Forall (fun m' => meeting_title m' <> meeting_title m) l.
Proof.
  rewrite Forall_forall. split.
  - intros Hn x Hx Heq. apply Hn. rewrite <- Heq. apply elem_of_titles. exact Hx.
  - intros Hall Hin. apply titles_elem_of in Hin.
    destruct Hin as (x & Hx & Heq). exact (Hall x Hx Heq).
Qed.

Lemma first_with_title_nil (m : Meeting) : ~ first_with_title [] m.
Proof.
  intros (b & a & Heq & _). destruct b; discriminate Heq.
Qed.

Lemma first_with_title_snoc (pre : list Meeting) (m x : Meeting) :
  first_with_title (pre ++ [m]) x <->
  first_with_title pre x \/ (x = m /\ meeting_title m ∉ titles pre).
Proof.
  split.
  - intros (b & a & Heq & Hall).
    destruct a as [|l a _] using rev_ind.
    + apply app_inj_tail in Heq. destruct Heq as [-> ->].
      right. split; [reflexivity|]. apply fresh_title_Forall. exact Hall.
    + rewrite app_comm_cons, app_assoc in Heq.
      apply app_inj_tail in Heq. destruct Heq as [-> _].
      left. exists b, a. auto.
  - intros [(b & a & -> & Hall) | [-> Hfresh]].
    + exists b, (a ++ [m]). split; [|exact Hall].
      rewrite <- app_assoc. reflexivity.
    + exists pre, []. split; [reflexivity|].
      apply fresh_title_Forall. exact Hfresh.
Qed.

Lemma first_with_title_elem_of (all : list Meeting) (m : Meeting) :
  first_with_title all m -> m ∈ all.
Proof.
  intros (b & a & -> & _). apply elem_of_app. right. apply elem_of_cons. auto.
Qed.

(** The loop that removes the duplicates, after the meetings [pre]. *)
Lemma remove_duplicates_loop (all pre u : list Meeting) (seen : gset string) :
  (forall t, t ∈ seen <-> t ∈ titles pre) ->
  NoDup (titles u) ->
  u `sublist_of` pre ->
  (forall m, m ∈ u <-> first_with_title pre m) ->
  let u' := fst (fold_left remove_duplicates_step all (u, seen)) in
  NoDup (titles u') /\
  u' `sublist_of` (pre ++ all) /\
  (forall m, m ∈ u' <-> first_with_title (pre ++ all) m).
Proof.
  revert pre u seen.
  induction all as [|x all IH]; intros pre u seen Hseen Hnd Hsub Hmem; simpl.
  - rewrite app_nil_r. auto.
  - replace (pre ++ x :: all) with ((pre ++ [x]) ++ all)
      by (rewrite <- app_assoc; reflexivity).
    destruct (decide (meeting_title x ∈ seen)) as [Hin|Hnin].
    + apply IH.
      * intros t. rewrite titles_app, elem_of_app. simpl.
        rewrite list_elem_of_singleton. rewrite Hseen. split; [auto|].
        intros [H| ->]; [exact H|]. apply Hseen. exact Hin.
      * exact Hnd.
      * apply sublist_inserts_r. exact Hsub.
      * intros m. rewrite first_with_title_snoc, Hmem. split; [auto|].
        intros [H|[_ Hf]]; [exact H|]. exfalso. apply Hf, Hseen, Hin.
    + apply IH.
      * intros t. rewrite titles_app, elem_of_app. simpl.
        rewrite list_elem_of_singleton, elem_of_union, elem_of_singleton.
        rewrite Hseen. tauto.
      * rewrite titles_app. simpl. apply NoDup_app. split; [exact Hnd|].
        split; [|apply NoDup_singleton].
        intros t Ht Hx. apply list_elem_of_singleton in Hx. subst t.
        apply Hnin, Hseen. apply titles_elem_of in Ht.
        destruct Ht as (m & Hm & <-). apply elem_of_titles.
        eapply elem_of_sublist; eauto.
      * apply sublist_app; [exact Hsub | reflexivity].
      * intros m. rewrite first_with_title_snoc, elem_of_app.
        rewrite list_elem_of_singleton, Hmem. split; [|tauto].
        intros [H| ->]; [auto|]. right. split; [reflexivity|].
        intros Hx. apply Hnin, Hseen, Hx.
Qed.

Lemma remove_duplicates_spec (all : list Meeting) :
  NoDup (titles (remove_duplicates all)) /\
  remove_duplicates all `sublist_of` all /\
  (forall m, m ∈ remove_duplicates all <-> first_with_title all m).
Proof.
  unfold remove_duplicates.
  apply (remove_duplicates_loop all [] [] ∅).
  - intros t. simpl. split; intros H; [set_solver | inversion H].
  - constructor.
  - reflexivity.
  - intros m. split; intros H; [inversion H|].
    exfalso. exact (first_with_title_nil _ H).
Qed.

Lemma starts_onb_spec (target_date : datetime) (m : Meeting) :
  starts_onb target_date m = true <-> starts_on target_date m.
Proof.
  unfold starts_onb, starts_on, date_eqb, to_date.
  destruct (start_time m) as [st|].
  - split.
    + intros H. exists st. split; [reflexivity|]. simpl in H.
      apply andb_true_iff in H. destruct H as [H H3].
      apply andb_true_iff in H. destruct H as [H1 H2].
      apply Z.eqb_eq in H1, H2, H3. simpl. congruence.
    + intros (st' & Heq & Hd). inversion Heq; subst st'. inversion Hd.
      simpl. rewrite !Z.eqb_refl. reflexivity.
  - split; [discriminate|]. intros (st & Heq & _). discriminate.
Qed.

(** The loop that filters by date is a filter. *)
Lemma filter_by_date_loop (target_date : datetime) (l acc : list Meeting) :
  fold_left (filter_by_date_step target_date) l acc =
  acc ++ filter (fun m => starts_onb target_date m = true) l.
Proof.
  revert acc. induction l as [|x l IH]; intros acc; simpl.
  - rewrite filter_nil, app_nil_r. reflexivity.
  - rewrite IH. unfold filter_by_date_step.
    destruct (decide (starts_onb target_date x = true)) as [Ht|Hf].
    + rewrite filter_cons_True by exact Ht.
      unfold starts_onb in Ht. destruct (start_time x); [|discriminate].
      rewrite Ht, <- app_assoc. reflexivity.
    + rewrite filter_cons_False by exact Hf.
      unfold starts_onb in Hf. destruct (start_time x); [|reflexivity].
      destruct (date_eqb _ _); [congruence | reflexivity].
Qed.

Lemma filter_by_date_spec (target_date : datetime) (l : list Meeting) :
  filter_by_date target_date l =
  filter (fun m => starts_onb target_date m = true) l.
Proof. unfold filter_by_date. apply filter_by_date_loop. Qed.

(** What the scan keeps of the concatenated answers. *)
Lemma kept_spec (target_date : datetime) (all_meetings : list Meeting) :
  NoDup (map meeting_title
           (filter_by_date target_date (remove_duplicates all_meetings))) /\
  filter_by_date target_date (remove_duplicates all_meetings)
    `sublist_of` all_meetings /\
  (forall m,
     m ∈ filter_by_date target_date (remove_duplicates all_meetings) <->
     first_with_title all_meetings m /\ starts_on target_date m).
Proof.
  rewrite filter_by_date_spec.
  destruct (remove_duplicates_spec all_meetings) as (Hnd & Hsub & Hmem).
  split; [|split].
  - eapply sublist_NoDup; [exact Hnd|].
    apply (fmap_sublist meeting_title). apply sublist_filter.
  - etransitivity; [apply sublist_filter | exact Hsub].
  - intros m. rewrite list_elem_of_filter, Hmem, starts_onb_spec. tauto.
Qed.

(** C2. The keyword scan of GET /meetings/<date_str>: when the seven
    searches answer, the meetings kept are taken in the order of the
    concatenated answers, hold at most one meeting per title, and are
    exactly the meetings that come first with their title in that
    concatenation and that have a start time on the day asked for (a
    meeting with no start time, or on another day, is left out).  When a
    search raises an [Exception], [meetings] keeps the value it had; what
    is not an [Exception] leaves the scan as it came. *)
Theorem keyword_scan_keeps_first_titles_of_the_day
    agent target_date meetings s r s' :
  keyword_scan agent target_date meetings s = (r, s') ->
  exists evs r3,
    calls s' = calls s ++ map ev_call evs /\
    scan_all keyword_plan evs r3 /\
    match r3 with
    | Ok all_meetings =>
        exists kept,
          r = Ok kept /\
          NoDup (map meeting_title kept) /\
          kept `sublist_of` all_meetings /\
          (forall m, m ∈ kept <->
                     first_with_title all_meetings m /\ starts_on target_date m)
    | Raise e => r = Ok meetings
    | Exit e => r = Exit e
    end.
Proof.
  intros H. apply keyword_scan_run in H.
  destruct H as (evs & r3 & Hc & Hs & Hr).
  exists evs, r3. split; [exact Hc|]. split; [exact Hs|].
  destruct r3 as [all|e|e]; [|exact Hr|exact Hr].
  simpl in Hr.
  destruct (kept_spec target_date all) as (Hnd & Hsub & Hmem).
  eexists. split; [exact Hr|]. split; [exact Hnd|]. split; [exact Hsub|].
  exact Hmem.
Qed.

(** C1. GET /meetings/<date_str>, the agent being there and the date being
    read as YYYY-MM-DD: the searches of the request are, in this order, the
    date string as given, then its six other spellings ([%B %d, %Y],
    [%b %d, %Y], [%m/%d/%Y], [%m/%d], the number of the day, [%Y-%m-%d]),
    each with at most ten results and each tried only while every earlier
    answer was the empty list, stopping at the first answer that is not
    empty; only when all seven answered the empty list are the seven
    generic keywords searched, with at most twenty results each, and the
    meetings answered are then those of the concatenated answers that come
    first with their title and start on the day asked for.  No other search
    is made.  A search that raises an [Exception] ends the first two
    strategies with the error answer and the third with no meeting; what is
    not an [Exception] leaves the handler as it came. *)
Theorem date_lookup_is_a_cascade agent date_str target_date s :
  calendar_agent (globals s) = Some agent ->
  strptime_Ymd date_str = Ok target_date ->
  exists evs12 evs3 r12 s1,
    calls s1 = calls s ++ map ev_call (evs12 ++ evs3) /\
    first_hit
      [ (JStr date_str, 10%nat);
        (JStr (strftime target_date "%B %d, %Y"), 10%nat);
        (JStr (strftime target_date "%b %d, %Y"), 10%nat);
        (JStr (strftime target_date "%m/%d/%Y"), 10%nat);
        (JStr (strftime target_date "%m/%d"), 10%nat);
        (JStr (str_day (day target_date)), 10%nat);
        (JStr (strftime target_date "%Y-%m-%d"), 10%nat) ]
      evs12 r12 /\
    match r12 with
    | Exit e =>
        evs3 = [] /\
        get_meetings_for_date date_str s = (Exit e, s1)
    | Raise e =>
        evs3 = [] /\
        get_meetings_for_date date_str s = (Ok (date_error e), s1)
    | Ok (m :: ms) =>
        evs3 = [] /\
        get_meetings_for_date date_str s =
          try_except (answer_for_date agent date_str (m :: ms))
                     (fun e => ret (date_error e)) s1
    | Ok [] =>
        exists r3,
          scan_all
            [ (JStr "meeting", 20%nat); (JStr "interview", 20%nat);
              (JStr "call", 20%nat); (JStr "appointment", 20%nat);
              (JStr "session", 20%nat); (JStr "discussion", 20%nat);
              (JStr "event", 20%nat) ]
            evs3 r3 /\
          match r3 with
          | Ok all_meetings =>
              exists kept,
                NoDup (map meeting_title kept) /\
                kept `sublist_of` all_meetings /\
                (forall m, m ∈ kept <->
                           first_with_title all_meetings m /\
                           starts_on target_date m) /\
                get_meetings_for_date date_str s =
                  try_except (answer_for_date agent date_str kept)
                             (fun e => ret (date_error e)) s1
          | Raise _ =>
              get_meetings_for_date date_str s =
                try_except (answer_for_date agent date_str [])
                           (fun e => ret (date_error e)) s1
          | Exit e => get_meetings_for_date date_str s = (Exit e, s1)
          end
    end /\
    searches (calls (snd (get_meetings_for_date date_str s))) =
      searches (calls s) ++ evs12 ++ evs3.
Proof.
  intros Ha Hd.
  destruct (find_meetings agent date_str target_date s) as [r s1] eqn:Hf.
  pose proof (get_meetings_for_date_run _ _ _ _ _ _ Ha Hd Hf) as Hrun.
  apply find_meetings_cascade in Hf.
  destruct Hf as (evs12 & evs3 & r12 & Hc & Hfh & Hr).
  exists evs12, evs3, r12, s1. split; [exact Hc|]. split; [exact Hfh|].
  assert (Hs1 : searches (calls s1) = searches (calls s) ++ evs12 ++ evs3).
  { rewrite Hc, searches_app, searches_ev_calls. reflexivity. }
  destruct r12 as [[|m ms]|e|e].
  - destruct Hr as (r3 & Hs & Hr). subst r. split.
    + exists r3. split; [exact Hs|].
      destruct r3 as [all|e|e]; simpl in Hrun; [|exact Hrun|exact Hrun].
      destruct (kept_spec target_date all) as (Hnd & Hsub & Hmem).
      eexists. split; [exact Hnd|]. split; [exact Hsub|].
      split; [exact Hmem | exact Hrun].
    + rewrite Hrun, <- Hs1.
      destruct r3 as [all|e|e]; unfold scanned;
        [apply quiet_answer_run | apply quiet_answer_run | reflexivity].
  - destruct Hr as [He Hr]. subst r. split.
    + split; [exact He | exact Hrun].
    + rewrite Hrun, <- Hs1. apply quiet_answer_run.
  - destruct Hr as [He Hr]. subst r. split.
    + split; [exact He | exact Hrun].
    + rewrite Hrun. simpl. exact Hs1.
  - destruct Hr as [He Hr]. subst r. split.
    + split; [exact He | exact Hrun].
    + rewrite Hrun. simpl. exact Hs1.
Qed.

(** **** The meeting objects *)

(** The loop over the research results fills [attendees] in their order. *)
Lemma add_attendees_fields m xs a b rs :
  add_attendees (meeting_fields m xs a b) rs =
  meeting_fields m (xs ++ map attendee_info rs) a b.
Proof.
  revert xs. induction rs as [|r rs IH]; intros xs; simpl.
  - rewrite app_nil_r. reflexivity.
  - unfold add_attendees in *. simpl.
    change (append_attendee (meeting_fields m xs a b) (attendee_info r))
      with (meeting_fields m (xs ++ [attendee_info r]) a b).
    rewrite IH, <- app_assoc. reflexivity.
Qed.

(** A log entry among a few: one case per entry. *)
Ltac log_cases H :=
  repeat (apply elem_of_cons in H; destruct H as [->|H]);
  [.. | apply elem_of_nil in H; destruct H].

Ltac not_generation Hg :=
  destruct Hg as [Hg|Hg]; try discriminate Hg;
  try (inversion Hg; subst; reflexivity).

(** The body of the loop of the list handlers, call by call: the research,
    then the summary, then the questions; the questions are not asked for
    after a summary that raised, and only a research that raises ends the
    loop. *)
Lemma enhance_meeting_protocol agent m s r s' :
  enhance_meeting agent m s = (r, s') ->
  (exists e,
     calls s' = calls s ++ [CResearch m (Raise e)] /\ r = Raise e) \/
  (exists rs e,
     calls s' = calls s ++ [CResearch m (Ok rs); CSummary m rs (Raise e)] /\
     r = Ok (meeting_object m rs error_summary error_questions)) \/
  (exists rs a e,
     calls s' = calls s ++ [CResearch m (Ok rs); CSummary m rs (Ok a);
                            CQuestions m rs (Raise e)] /\
     r = Ok (meeting_object m rs error_summary error_questions)) \/
  (exists rs a b,
     calls s' = calls s ++ [CResearch m (Ok rs); CSummary m rs (Ok a);
                            CQuestions m rs (Ok b)] /\
     r = Ok (meeting_object m rs (JStr a) (JStr b))) \/
  (exists e,
     calls s' = calls s ++ [CResearch m (Exit e)] /\ r = Exit e) \/
  (exists rs e,
     calls s' = calls s ++ [CResearch m (Ok rs); CSummary m rs (Exit e)] /\
     r = Exit e) \/
  (exists rs a e,
     calls s' = calls s ++ [CResearch m (Ok rs); CSummary m rs (Ok a);
                            CQuestions m rs (Exit e)] /\
     r = Exit e).
Proof.
  unfold enhance_meeting, bind, try_except, research_attendees, summary_of,
    questions_of, call, ret.
  destruct (research_meeting_attendees agent m (world s)) as [[rs|e|e] w1];
    simpl.
  - change (meeting_dict m (JStr "") (JStr ""))
      with (meeting_fields m [] (JStr "") (JStr "")).
    rewrite add_attendees_fields. simpl.
    destruct (generate_meeting_summary agent m rs w1) as [[a|e|e] w2]; simpl.
    + destruct (generate_meeting_type_questions agent m rs w2)
        as [[b|e|e] w3];
        simpl; intros H; inversion H; subst; clear H; simpl;
        rewrite <- !app_assoc; simpl.
      * do 3 right. left. exists rs, a, b. auto.
      * do 2 right. left. exists rs, a, e. auto.
      * do 6 right. exists rs, a, e. auto.
    + intros H. inversion H; subst; clear H. simpl.
      rewrite <- !app_assoc. simpl. right. left. exists rs, e. auto.
    + intros H. inversion H; subst; clear H. simpl.
      rewrite <- !app_assoc. simpl. do 5 right. left. exists rs, e. auto.
  - intros H. inversion H; subst; clear H. simpl. left. exists e. auto.
  - intros H. inversion H; subst; clear H. simpl. do 4 right. left.
    exists e. auto.
Qed.

Ltac protocol_cases H :=
  destruct H as [(e & Hc & ->) | [(rs & e & Hc & ->) |
                [(rs & a & e & Hc & ->) | [(rs & a & b & Hc & ->) |
                [(e & Hc & ->) | [(rs & e & Hc & ->) |
                 (rs & a & e & Hc & ->)]]]]]].

Lemma enhance_meeting_run agent m s r s' :
  enhance_meeting agent m s = (r, s') ->
  exists new,
    calls s' = calls s ++ new /\
    match r with
    | Ok v => exists rs a b, v = meeting_object m rs a b
    | Raise e => CResearch m (Raise e) ∈ new
    | Exit e => True
    end /\
    (forall m' rs e c,
       c ∈ new -> generation_raised m' rs e c ->
       r = Ok (meeting_object m' rs error_summary error_questions)).
Proof.
  intros H. apply enhance_meeting_protocol in H. protocol_cases H;
    eexists; (split; [exact Hc|]);
    (split; [first [ exact I | apply elem_of_cons; left; reflexivity
                   | do 3 eexists; reflexivity ]|]);
    intros m' rs' e' c Hin Hg; log_cases Hin; not_generation Hg.
Qed.

Lemma enhance_all_run agent ms acc s r s' :
  enhance_all agent ms acc s = (r, s') ->
  exists new,
    calls s' = calls s ++ new /\
    match r with
    | Ok objs =>
        exists added,
          objs = acc ++ added /\
          Forall (fun v => exists m rs a b, v = meeting_object m rs a b) added /\
          (forall m rs e c,
             c ∈ new -> generation_raised m rs e c ->
             meeting_object m rs error_summary error_questions ∈ added)
    | Raise e => exists m, CResearch m (Raise e) ∈ new
    | Exit e => True
    end.
Proof.
  revert acc s. induction ms as [|m ms IH]; intros acc s; simpl.
  - intros H. inversion H; subst. exists []. rewrite !app_nil_r.
    split; [reflexivity|]. exists []. rewrite app_nil_r.
    split; [reflexivity|]. split; [constructor|].
    intros ? ? ? ? Hc. inversion Hc.
  - unfold bind.
    destruct (enhance_meeting agent m s) as [[v|e|e] s1] eqn:E;
      apply enhance_meeting_run in E; destruct E as (new1 & Hc1 & Hv & Hg1).
    + intros H. apply IH in H. destruct H as (new2 & Hc2 & Hr).
      exists (new1 ++ new2). split; [rewrite Hc2, Hc1, app_assoc; reflexivity|].
      destruct r as [objs|e|e]; [|destruct Hr as (m' & Hm')|exact I].
      * destruct Hr as (added & -> & Hall & Hg2).
        exists (v :: added). split; [rewrite <- app_assoc; reflexivity|].
        split.
        -- constructor; [|exact Hall].
           destruct Hv as (rs & a & b & ->). eauto.
        -- intros m' rs e c Hc Hg. apply elem_of_app in Hc.
           destruct Hc as [Hc|Hc].
           ++ specialize (Hg1 _ _ _ _ Hc Hg). inversion Hg1; subst.
              apply elem_of_cons. left. reflexivity.
           ++ apply elem_of_cons. right. eauto.
      * exists m'. apply elem_of_app. right. exact Hm'.
    + intros H. inversion H; subst. exists new1. split; [exact Hc1|].
      exists m. exact Hv.
    + intros H. inversion H; subst. exists new1. split; [exact Hc1|].
      exact I.
Qed.

Lemma researched_app (l1 l2 : list Call) :
  researched (l1 ++ l2) = researched l1 ++ researched l2.
Proof.
  induction l1 as [|c l1 IH]; simpl; [reflexivity|].
  destruct c; simpl; rewrite ?IH; reflexivity.
Qed.

Lemma answered_for_describes new v m : answered_for new v m -> describes v m.
Proof. intros (rs & a & b & _ & ->). exists rs, a, b. reflexivity. Qed.

Lemma answered_for_app_l new1 new2 v m :
  answered_for new1 v m -> answered_for (new1 ++ new2) v m.
Proof.
  intros (rs & a & b & Hin & ->). exists rs, a, b.
  split; [apply elem_of_app; left; exact Hin | reflexivity].
Qed.

Lemma answered_for_app_r new1 new2 v m :
  answered_for new2 v m -> answered_for (new1 ++ new2) v m.
Proof.
  intros (rs & a & b & Hin & ->). exists rs, a, b.
  split; [apply elem_of_app; right; exact Hin | reflexivity].
Qed.

(** The log of one turn of the loop: one research, of the meeting, and no
    search. *)
Lemma enhance_meeting_log agent m s r s' :
  enhance_meeting agent m s = (r, s') ->
  exists new,
    calls s' = calls s ++ new /\
    researched new = [m] /\ searches new = [] /\
    match r with
    | Ok v => answered_for new v m
    | Raise e => exists before, new = before ++ [CResearch m (Raise e)]
    | Exit e => True
    end.
Proof.
  intros H. apply enhance_meeting_protocol in H. protocol_cases H;
    eexists; (split; [exact Hc|]); (split; [reflexivity|]);
    (split; [reflexivity|]);
    first [ exact I
          | exists []; reflexivity
          | do 3 eexists; split; [apply elem_of_cons; left|]; reflexivity ].
Qed.

(** The loop over the meetings: one object per meeting, in their order,
    after one research per meeting; a research that raises ends the loop
    there, and the meetings after it are not researched. *)
Lemma enhance_all_order agent ms acc s r s' :
  enhance_all agent ms acc s = (r, s') ->
  exists new,
    calls s' = calls s ++ new /\ searches new = [] /\
    match r with
    | Ok objs =>
        exists added,
          objs = acc ++ added /\ Forall2 (answered_for new) added ms /\
          researched new = ms
    | Raise e =>
        exists before m after log,
          ms = before ++ m :: after /\
          researched new = before ++ [m] /\
          new = log ++ [CResearch m (Raise e)]
    | Exit e => True
    end.
Proof.
  revert acc s. induction ms as [|m ms IH]; intros acc s; simpl.
  - intros H. inversion H; subst. exists []. rewrite app_nil_r.
    split; [reflexivity|]. split; [reflexivity|].
    exists []. rewrite app_nil_r. split; [reflexivity|].
    split; [constructor | reflexivity].
  - unfold bind.
    destruct (enhance_meeting agent m s) as [[v|e|e] s1] eqn:E;
      apply enhance_meeting_log in E;
      destruct E as (new1 & Hc1 & Hr1 & Hs1 & Hv).
    + intros H. apply IH in H. destruct H as (new2 & Hc2 & Hs2 & Hr).
      exists (new1 ++ new2).
      split; [rewrite Hc2, Hc1, app_assoc; reflexivity|].
      split; [rewrite searches_app, Hs1, Hs2; reflexivity|].
      rewrite researched_app, Hr1.
      destruct r as [objs|e|e]; [| |exact I].
      * destruct Hr as (added & -> & Hall & Hres).
        exists (v :: added). split; [rewrite <- app_assoc; reflexivity|].
        split; [|rewrite Hres; reflexivity].
        constructor; [apply answered_for_app_l; exact Hv|].
        eapply Forall2_impl; [exact Hall|].
        intros v' m'. apply answered_for_app_r.
      * destruct Hr as (before & m' & after & log & -> & Hres & ->).
        exists (m :: before), m', after, (new1 ++ log).
        split; [reflexivity|]. split; [rewrite Hres; reflexivity|].
        rewrite app_assoc. reflexivity.
    + intros H. inversion H; subst. exists new1.
      split; [exact Hc1|]. split; [exact Hs1|].
      destruct Hv as (before & ->).
      exists [], m, ms, before. split; [reflexivity|].
      split; [exact Hr1 | reflexivity].
    + intros H. inversion H; subst. exists new1.
      split; [exact Hc1|]. split; [exact Hs1|]. exact I.
Qed.

Ltac detailed_cases H :=
  destruct H as [(e & -> & ->) | [(rs & e & -> & ->) |
                [(rs & a & e & -> & ->) | [(rs & a & b & -> & ->) |
                [(e & -> & ->) | [(rs & e & -> & ->) |
                 (rs & a & e & -> & ->)]]]]]].

Lemma meeting_details_protocol agent m s r s' :
  meeting_details agent m s = (r, s') ->
  exists new, calls s' = calls s ++ new /\ detailed m new r.
Proof.
  unfold meeting_details, bind, research_attendees, summary_of, questions_of,
    call, ret, detailed.
  destruct (research_meeting_attendees agent m (world s)) as [[rs|e|e] w1];
    simpl.
  - destruct (generate_meeting_summary agent m rs w1) as [[a|e|e] w2]; simpl.
    + destruct (generate_meeting_type_questions agent m rs w2)
        as [[b|e|e] w3];
        simpl; intros H; inversion H; subst; clear H; simpl;
        eexists; (split; [rewrite <- !app_assoc; reflexivity|]).
      * do 3 right. left. exists rs, a, b. split; [reflexivity|].
        change (meeting_dict m (JStr a) (JStr b))
          with (meeting_fields m [] (JStr a) (JStr b)).
        rewrite add_attendees_fields. reflexivity.
      * do 2 right. left. exists rs, a, e. auto.
      * do 6 right. exists rs, a, e. auto.
    + intros H. inversion H; subst; clear H. simpl.
      eexists. split; [rewrite <- !app_assoc; reflexivity|].
      right. left. exists rs, e. auto.
    + intros H. inversion H; subst; clear H. simpl.
      eexists. split; [rewrite <- !app_assoc; reflexivity|].
      do 5 right. left. exists rs, e. auto.
  - intros H. inversion H; subst; clear H. simpl.
    eexists. split; [reflexivity|]. left. exists e. auto.
  - intros H. inversion H; subst; clear H. simpl.
    eexists. split; [reflexivity|]. do 4 right. left. exists e. auto.
Qed.

(** The single-meeting handlers: a generated text that raises ends the
    [try] block. *)
Lemma meeting_details_run agent m s r s' :
  meeting_details agent m s = (r, s') ->
  exists new,
    calls s' = calls s ++ new /\
    searches new = [] /\
    researched new = [m] /\
    match r with
    | Ok v => exists rs a b, CResearch m (Ok rs) ∈ new /\
                             v = meeting_object m rs (JStr a) (JStr b)
    | Raise e => True
    | Exit e => True
    end /\
    (forall m' rs e c,
       c ∈ new -> generation_raised m' rs e c -> r = Raise e).
Proof.
  intros H. apply meeting_details_protocol in H.
  destruct H as (new & Hc & Hd). exists new. split; [exact Hc|].
  detailed_cases Hd;
    (split; [reflexivity|]); (split; [reflexivity|]);
    (split; [first [ exact I
                   | do 3 eexists; split; [apply elem_of_cons; left|];
                     reflexivity ]|]);
    intros m' rs' e' c Hin Hg; log_cases Hin; not_generation Hg.
Qed.

(** The loop over the meetings, with what it logs and what it answers. *)
Lemma enhance_all_full agent ms acc s r s' :
  enhance_all agent ms acc s = (r, s') ->
  exists new,
    calls s' = calls s ++ new /\ searches new = [] /\
    match r with
    | Ok objs =>
        exists added,
          objs = acc ++ added /\
          Forall2 (answered_for new) added ms /\
          researched new = ms /\
          (forall m rs e c,
             c ∈ new -> generation_raised m rs e c ->
             meeting_object m rs error_summary error_questions ∈ added)
    | Raise e =>
        exists before m after log,
          ms = before ++ m :: after /\
          researched new = before ++ [m] /\
          new = log ++ [CResearch m (Raise e)]
    | Exit e => True
    end.
Proof.
  intros H.
  destruct (enhance_all_run _ _ _ _ _ _ H) as (new1 & Hc1 & Hr).
  destruct (enhance_all_order _ _ _ _ _ _ H) as (new & Hc & Hs & Ho).
  assert (new1 = new) by (apply (app_inv_head (calls s)); congruence).
  subst new1.
  exists new. split; [exact Hc|]. split; [exact Hs|].
  destruct r as [objs|e|e]; [|exact Ho|exact I].
  destruct Hr as (added1 & He1 & _ & Hg).
  destruct Ho as (added & He & Hall & Hres).
  assert (added1 = added) by (apply (app_inv_head acc); congruence).
  subst added1.
  exists added. auto.
Qed.

(** **** The outcomes of the handlers *)

(** Every handler but the health check has the same frame: no agent, 500;
    otherwise the [try] block, and 500 with [str(e)] when it raises an
    [Exception]. *)
Lemma handle_guard (req : Request) s :
  req <> GET_health ->
  handle req s =
    match calendar_agent (globals s) with
    | None => (Ok (unavailable req), s)
    | Some agent =>
        match try_block agent req s with
        | (Ok resp, s1) => (Ok resp, s1)
        | (Raise e, s1) => (Ok (failure req e), s1)
        | (Exit e, s1) => (Exit e, s1)
        end
    end.
Proof.
  intros Hreq. destruct req; [congruence| | | |]; simpl;
    unfold get_meetings_for_date, get_meeting_details, get_next_meeting,
      search_meetings, bind at 1, read_calendar_agent;
    destruct (calendar_agent (globals s)); reflexivity.
Qed.

Lemma first_hit_raised plan evs e :
  first_hit plan evs (Raise e) -> exists k n, mkEv k n (Raise e) ∈ evs.
Proof.
  intros H. remember (Raise e) as r eqn:Hr.
  induction H; try discriminate Hr.
  - inversion Hr; subst. exists k, n. apply elem_of_cons. auto.
  - destruct (IHfirst_hit Hr) as (k' & n' & Hin).
    exists k', n'. apply elem_of_cons. auto.
Qed.

Lemma ev_calls_not_generation evs m rs e c :
  c ∈ map ev_call evs -> ~ generation_raised m rs e c.
Proof.
  induction evs as [|ev evs IH]; simpl; intros Hc Hg; [inversion Hc|].
  apply elem_of_cons in Hc. destruct Hc as [->|Hc]; [|exact (IH Hc Hg)].
  destruct Hg as [Hg|Hg]; discriminate Hg.
Qed.

Lemma elem_of_ev_calls evs k n r :
  mkEv k n r ∈ evs -> CSearch k n r ∈ map ev_call evs.
Proof.
  induction evs as [|ev evs IH]; intros H; [inversion H|].
  apply elem_of_cons in H. simpl. apply elem_of_cons.
  destruct H as [<-|H]; [left; reflexivity | right; auto].
Qed.

Lemma researched_ev_calls evs : researched (map ev_call evs) = [].
Proof. induction evs as [|ev evs IH]; [reflexivity | exact IH]. Qed.

Lemma answered_for_all_app_r new1 new2 objs ms :
  Forall2 (answered_for new2) objs ms ->
  Forall2 (answered_for (new1 ++ new2)) objs ms.
Proof.
  intros H. eapply Forall2_impl; [exact H|].
  intros v m. apply answered_for_app_r.
Qed.

Lemma answered_for_shape new objs ms :
  Forall2 (answered_for new) objs ms ->
  Forall (fun v => exists m rs a b, v = meeting_object m rs a b) objs.
Proof.
  induction 1 as [|v m objs ms (rs & a & b & _ & ->) _ IH]; constructor; eauto.
Qed.

Lemma date_try_outcomes agent date_str s r s1 :
  get_meetings_for_date_try agent date_str s = (r, s1) ->
  exists new,
    calls s1 = calls s ++ new /\
    match r with
    | Ok resp =>
        exists objs,
          resp = date_answer date_str objs /\ listed new objs /\
          Forall2 (answered_for new) objs (researched new)
    | Raise e =>
        (strptime_Ymd date_str = Raise e /\ new = []) \/
        exists c, c ∈ new /\ aborts e c
    | Exit e => True
    end.
Proof.
  unfold get_meetings_for_date_try, bind at 1, lift.
  destruct (strptime_Ymd date_str) as [target|e0|e0].
  2:{ intros H. inversion H; subst. exists []. rewrite app_nil_r. auto. }
  2:{ intros H. inversion H; subst. exists []. rewrite app_nil_r. auto. }
  unfold bind at 1.
  destruct (find_meetings agent date_str target s) as [[ms|e0|e0] s2] eqn:F;
    apply find_meetings_cascade in F;
    destruct F as (evs12 & evs3 & r12 & Hc & Hfh & Hr).
  - unfold answer_for_date, bind, ret.
    destruct (enhance_all agent ms [] s2) as [[objs|e1|e1] s3] eqn:E;
      apply enhance_all_full in E; destruct E as (new & Hc2 & Hs2 & Ho);
      intros H; inversion H; subst; clear H;
      exists (map ev_call (evs12 ++ evs3) ++ new);
      (split; [rewrite Hc2, Hc, app_assoc; reflexivity|]).
    + destruct Ho as (added & -> & Hall & Hres & Hg). simpl.
      exists added. split; [reflexivity|]. split; [split|].
      * eapply answered_for_shape. exact Hall.
      * intros m rs e c Hin Hgen. apply elem_of_app in Hin.
        destruct Hin as [Hin|Hin]; [|eauto].
        exfalso. exact (ev_calls_not_generation _ _ _ _ _ Hin Hgen).
      * rewrite researched_app, researched_ev_calls, Hres. simpl.
        apply answered_for_all_app_r. exact Hall.
    + destruct Ho as (before & m & after & log & _ & _ & ->).
      right. exists (CResearch m (Raise e1)).
      split; [apply elem_of_app; right; apply elem_of_app; right;
              apply elem_of_cons; left; reflexivity|].
      right. eauto.
    + exact I.
  - intros H. inversion H; subst; clear H.
    exists (map ev_call (evs12 ++ evs3)). split; [exact Hc|]. right.
    destruct r12 as [[|m ms]|e|e].
    + destruct Hr as (r3 & _ & Hr). destruct r3; discriminate Hr.
    + destruct Hr as [_ Hr]. discriminate Hr.
    + destruct Hr as [-> Hr]. inversion Hr; subst.
      apply first_hit_raised in Hfh. destruct Hfh as (k & n & Hin).
      exists (CSearch k n (Raise e)). split.
      * apply elem_of_ev_calls. rewrite app_nil_r. exact Hin.
      * left. eauto.
    + destruct Hr as [_ Hr]. discriminate Hr.
  - intros H. inversion H; subst; clear H.
    exists (map ev_call (evs12 ++ evs3)). split; [exact Hc | exact I].
Qed.

Lemma search_try_outcomes agent get_json s r s1 :
  search_meetings_try agent get_json s = (r, s1) ->
  exists new,
    calls s1 = calls s ++ new /\
    match r with
    | Ok resp =>
        (exists data keyword,
           get_json = Ok data /\
           dict_get data "keyword" (JStr "") = Ok keyword /\
           truthy keyword = false /\ new = [] /\
           resp = jsonify_status (JObj [("error", JStr "Keyword is required")]) 400)
        \/
        (exists data keyword objs,
           get_json = Ok data /\
           dict_get data "keyword" (JStr "") = Ok keyword /\
           truthy keyword = true /\
           resp = search_answer keyword objs /\ listed new objs /\
           Forall2 (answered_for new) objs (researched new))
    | Raise e =>
        (get_json = Raise e /\ new = []) \/
        (exists data, get_json = Ok data /\
                      dict_get data "keyword" (JStr "") = Raise e /\ new = []) \/
        exists c, c ∈ new /\ aborts e c
    | Exit e => True
    end.
Proof.
  unfold search_meetings_try, bind at 1, lift.
  destruct get_json as [data|e0|e0].
  2:{ intros H. inversion H; subst. exists []. rewrite app_nil_r. auto. }
  2:{ intros H. inversion H; subst. exists []. rewrite app_nil_r. auto. }
  unfold bind at 1.
  destruct (dict_get data "keyword" (JStr "")) as [keyword|e0|e0] eqn:D.
  2:{ intros H. inversion H; subst. exists []. rewrite app_nil_r.
      split; [reflexivity|]. right. left. eauto. }
  2:{ intros H. inversion H; subst. exists []. rewrite app_nil_r. auto. }
  destruct (truthy keyword) eqn:T; simpl.
  2:{ intros H. inversion H; subst. exists []. rewrite app_nil_r.
      split; [reflexivity|]. left. exists data, keyword. auto. }
  unfold bind at 1.
  destruct (search_by_keyword agent keyword 5 s) as [[ms|e0|e0] s2] eqn:E0;
    apply search_by_keyword_run in E0.
  - unfold bind, ret.
    destruct (enhance_all agent ms [] s2) as [[objs|e1|e1] s3] eqn:E;
      apply enhance_all_full in E; destruct E as (new & Hc2 & Hs2 & Ho);
      intros H; inversion H; subst; clear H;
      exists ([ev_call (mkEv keyword 5 (Ok ms))] ++ new);
      (split; [rewrite Hc2, E0, app_assoc; reflexivity|]).
    + destruct Ho as (added & -> & Hall & Hres & Hg). simpl.
      right. exists data, keyword, added.
      split; [reflexivity|]. split; [exact D|]. split; [exact T|].
      split; [reflexivity|]. split; [split|].
      * eapply answered_for_shape. exact Hall.
      * intros m rs e c Hin Hgen. apply elem_of_cons in Hin.
        destruct Hin as [->|Hin]; [|eauto].
        destruct Hgen as [Hgen|Hgen]; discriminate Hgen.
      * rewrite Hres.
        apply (answered_for_all_app_r [ev_call (mkEv keyword 5 (Ok ms))]).
        exact Hall.
    + destruct Ho as (before & m & after & log & _ & _ & ->).
      right. right. exists (CResearch m (Raise e1)).
      split; [apply elem_of_app; right; apply elem_of_app; right;
              apply elem_of_cons; left; reflexivity|].
      right. eauto.
    + exact I.
  - intros H. inversion H; subst; clear H.
    exists [ev_call (mkEv keyword 5 (Raise e0))]. split; [exact E0|].
    right. right. exists (CSearch keyword 5 (Raise e0)).
    split; [apply elem_of_cons; left; reflexivity|]. left. eauto.
  - intros H. inversion H; subst; clear H.
    exists [ev_call (mkEv keyword 5 (Exit e0))]. split; [exact E0 | exact I].
Qed.

Lemma details_try_outcomes agent id s r s1 :
  get_meeting_details_try agent id s = (r, s1) ->
  exists new,
    calls s1 = calls s ++ new /\
    match r with
    | Ok resp =>
        (new = [CGetById id (Ok None)] /\ resp = not_found) \/
        (exists m rs a b,
           resp = jsonify (meeting_object m rs (JStr a) (JStr b)) /\
           researched new = [m] /\ CResearch m (Ok rs) ∈ new)
    | Raise e => True
    | Exit e => True
    end /\
    (forall m rs e c, c ∈ new -> generation_raised m rs e c -> r = Raise e).
Proof.
  unfold get_meeting_details_try, bind at 1, meeting_by_id, call.
  destruct (get_meeting_by_id agent id (world s)) as [[[m|]|e0|e0] w1]; simpl.
  - unfold bind, ret.
    match goal with
    | |- context [meeting_details agent m ?s0] =>
        destruct (meeting_details agent m s0) as [[v|e1|e1] s2] eqn:E
    end;
      apply meeting_details_run in E;
      destruct E as (new & Hc & _ & Hres & Hv & Hg); simpl in Hc;
      intros H; inversion H; subst; clear H;
      exists (CGetById id (Ok (Some m)) :: new);
      (split; [rewrite Hc, <- app_assoc; reflexivity|]); split.
    + right. destruct Hv as (rs & a & b & Hin & ->). exists m, rs, a, b.
      split; [reflexivity|]. split; [exact Hres|].
      apply elem_of_cons. right. exact Hin.
    + intros m' rs e c Hin Hgen. apply elem_of_cons in Hin.
      destruct Hin as [->|Hin].
      * destruct Hgen as [Hgen|Hgen]; discriminate Hgen.
      * discriminate (Hg _ _ _ _ Hin Hgen).
    + exact I.
    + intros m' rs e c Hin Hgen. apply elem_of_cons in Hin.
      destruct Hin as [->|Hin];
        [|pose proof (Hg _ _ _ _ Hin Hgen) as Hx; congruence].
      destruct Hgen as [Hgen|Hgen]; discriminate Hgen.
    + exact I.
    + intros m' rs e c Hin Hgen. apply elem_of_cons in Hin.
      destruct Hin as [->|Hin];
        [|pose proof (Hg _ _ _ _ Hin Hgen) as Hx; congruence].
      destruct Hgen as [Hgen|Hgen]; discriminate Hgen.
  - intros H. inversion H; subst; clear H. simpl.
    exists [CGetById id (Ok None)]. split; [reflexivity|]. split; [auto|].
    intros m' rs e c Hin Hgen. log_cases Hin. not_generation Hgen.
  - intros H. inversion H; subst; clear H. simpl.
    exists [CGetById id (Raise e0)]. split; [reflexivity|]. split; [auto|].
    intros m' rs e c Hin Hgen. log_cases Hin. not_generation Hgen.
  - intros H. inversion H; subst; clear H. simpl.
    exists [CGetById id (Exit e0)]. split; [reflexivity|]. split; [auto|].
    intros m' rs e c Hin Hgen. log_cases Hin. not_generation Hgen.
Qed.

Lemma next_try_outcomes agent s r s1 :
  get_next_meeting_try agent s = (r, s1) ->
  exists new,
    calls s1 = calls s ++ new /\
    match r with
    | Ok resp =>
        (new = [CNext (Ok None)] /\ resp = no_upcoming) \/
        (exists m rs a b,
           resp = jsonify (JObj [("meeting",
                                  meeting_object m rs (JStr a) (JStr b))]) /\
           researched new = [m] /\ CResearch m (Ok rs) ∈ new)
    | Raise e => True
    | Exit e => True
    end /\
    (forall m rs e c, c ∈ new -> generation_raised m rs e c -> r = Raise e).
Proof.
  unfold get_next_meeting_try, bind at 1, next_meeting_info, call.
  destruct (get_next_meeting_info agent (world s)) as [[[m|]|e0|e0] w1]; simpl.
  - unfold bind, ret.
    match goal with
    | |- context [meeting_details agent m ?s0] =>
        destruct (meeting_details agent m s0) as [[v|e1|e1] s2] eqn:E
    end;
      apply meeting_details_run in E;
      destruct E as (new & Hc & _ & Hres & Hv & Hg); simpl in Hc;
      intros H; inversion H; subst; clear H;
      exists (CNext (Ok (Some m)) :: new);
      (split; [rewrite Hc, <- app_assoc; reflexivity|]); split.
    + right. destruct Hv as (rs & a & b & Hin & ->). exists m, rs, a, b.
      split; [reflexivity|]. split; [exact Hres|].
      apply elem_of_cons. right. exact Hin.
    + intros m' rs e c Hin Hgen. apply elem_of_cons in Hin.
      destruct Hin as [->|Hin].
      * destruct Hgen as [Hgen|Hgen]; discriminate Hgen.
      * discriminate (Hg _ _ _ _ Hin Hgen).
    + exact I.
    + intros m' rs e c Hin Hgen. apply elem_of_cons in Hin.
      destruct Hin as [->|Hin];
        [|pose proof (Hg _ _ _ _ Hin Hgen) as Hx; congruence].
      destruct Hgen as [Hgen|Hgen]; discriminate Hgen.
    + exact I.
    + intros m' rs e c Hin Hgen. apply elem_of_cons in Hin.
      destruct Hin as [->|Hin];
        [|pose proof (Hg _ _ _ _ Hin Hgen) as Hx; congruence].
      destruct Hgen as [Hgen|Hgen]; discriminate Hgen.
  - intros H. inversion H; subst; clear H. simpl.
    exists [CNext (Ok None)]. split; [reflexivity|]. split; [auto|].
    intros m' rs e c Hin Hgen. log_cases Hin. not_generation Hgen.
  - intros H. inversion H; subst; clear H. simpl.
    exists [CNext (Raise e0)]. split; [reflexivity|]. split; [auto|].
    intros m' rs e c Hin Hgen. log_cases Hin. not_generation Hgen.
  - intros H. inversion H; subst; clear H. simpl.
    exists [CNext (Exit e0)]. split; [reflexivity|]. split; [auto|].
    intros m' rs e c Hin Hgen. log_cases Hin. not_generation Hgen.
Qed.

(** A run of [handle] that answers: through the guard, it is the answer
    for a missing agent, the answer of the [try] block, or the answer for
    the exception the block raised. *)
Lemma handle_cases (req : Request) s resp s' :
  req <> GET_health ->
  handle req s = (Ok resp, s') ->
  (calendar_agent (globals s) = None /\ resp = unavailable req /\ s' = s) \/
  (exists agent,
     calendar_agent (globals s) = Some agent /\
     (try_block agent req s = (Ok resp, s') \/
      exists e, try_block agent req s = (Raise e, s') /\ resp = failure req e)).
Proof.
  intros Hreq. rewrite (handle_guard req s Hreq).
  destruct (calendar_agent (globals s)) as [agent|].
  - destruct (try_block agent req s) as [[r|e|e] s1] eqn:E;
      intros H; inversion H; subst; right; exists agent; eauto.
  - intros H. inversion H; subst. left. auto.
Qed.

Lemma health_or_not (req : Request) : req = GET_health \/ req <> GET_health.
Proof. destruct req; [left; reflexivity | right; discriminate ..]. Qed.

Lemma status_unavailable req : status (unavailable req) = 500%Z.
Proof. destruct req; reflexivity. Qed.

Lemma status_failure req e : status (failure req e) = 500%Z.
Proof. destruct req; reflexivity. Qed.

(** C5. Every meeting object of a successful answer (status 200) of
    GET /meetings/<date_str>, GET /meeting/<meeting_id>, GET /next-meeting
    and POST /search-meetings is the object of a meeting whose attendees
    the request researched, one object per research and in the order of
    the researches.  It has exactly the nine fields id, title, start_time,
    end_time, location, description, attendees, research_summary,
    preparation_questions; start_time and end_time are the ISO text of the
    datetime of that meeting when it has one, and null when it has none;
    every attendee is one result of the research, with exactly the six
    fields name, email, company, title, research_summary, found_info. *)
Theorem meeting_objects_have_the_nine_fields (req : Request) s resp s' :
  handle req s = (Ok resp, s') ->
  status resp = 200%Z ->
  exists new,
    calls s' = calls s ++ new /\
    Forall2
      (fun v m =>
         exists rs summary questions,
           CResearch m (Ok rs) ∈ new /\
           v = JObj [
             ("id", JStr (meeting_id m));
             ("title", JStr (meeting_title m));
             ("start_time",
               match start_time m with
               | Some dt => JStr (isoformat dt)
               | None => JNull
               end);
             ("end_time",
               match end_time m with
               | Some dt => JStr (isoformat dt)
               | None => JNull
               end);
             ("location",
               match location m with Some t => JStr t | None => JNull end);
             ("description",
               match description m with Some t => JStr t | None => JNull end);
             ("attendees",
               JArr (map (fun r =>
                 JObj [
                   ("name", JStr (display_name (attendee r)));
                   ("email", JStr (email (attendee r)));
                   ("company",
                     match company (attendee r) with
                     | Some t => JStr t
                     | None => JNull
                     end);
                   ("title",
                     match title (attendee r) with
                     | Some t => JStr t
                     | None => JNull
                     end);
                   ("research_summary", JStr (research_summary r));
                   ("found_info", JBool (found_info r)) ]) rs));
             ("research_summary", summary);
             ("preparation_questions", questions) ])
      (meeting_objects req (body resp)) (researched new).
Proof.
  intros H Hst.
  assert (Hlit : forall new objs ms,
            Forall2 (answered_for new) objs ms ->
            Forall2
              (fun v m =>
                 exists rs summary questions,
                   CResearch m (Ok rs) ∈ new /\
                   v = meeting_object m rs summary questions) objs ms).
  { intros new objs ms Hall. eapply Forall2_impl; [exact Hall|].
    intros v m (rs & a & b & Hin & ->). exists rs, a, b. auto. }
  destruct (health_or_not req) as [->|Hreq].
  { simpl in H. unfold health_check, bind, read_calendar_agent, datetime_now,
      ret in H. inversion H; subst. exists []. rewrite app_nil_r.
    split; [reflexivity | constructor]. }
  apply handle_cases in H; [|exact Hreq].
  destruct H as [(_ & -> & _) | (agent & _ & [H | (e & _ & ->)])].
  - rewrite status_unavailable in Hst. discriminate Hst.
  - destruct req; [congruence| | | |]; simpl in H.
    + apply date_try_outcomes in H.
      destruct H as (new & Hc & objs & -> & _ & Hall).
      exists new. split; [exact Hc|]. apply Hlit. exact Hall.
    + apply details_try_outcomes in H.
      destruct H as (new & Hc &
                     [[_ ->] | (m & rs & a & b & -> & Hres & Hin)] & _).
      * discriminate Hst.
      * exists new. split; [exact Hc|]. rewrite Hres. simpl.
        constructor; [|constructor]. exists rs, (JStr a), (JStr b). auto.
    + apply next_try_outcomes in H.
      destruct H as (new & Hc &
                     [[-> ->] | (m & rs & a & b & -> & Hres & Hin)] & _).
      * eexists. split; [exact Hc|]. constructor.
      * exists new. split; [exact Hc|]. rewrite Hres. simpl.
        constructor; [|constructor]. exists rs, (JStr a), (JStr b). auto.
    + apply search_try_outcomes in H.
      destruct H as (new & Hc & [(d & k & _ & _ & _ & _ & ->)
                               | (d & k & objs & _ & _ & _ & -> & _ & Hall)]).
      * discriminate Hst.
      * exists new. split; [exact Hc|]. apply Hlit. exact Hall.
  - rewrite status_failure in Hst. discriminate Hst.
Qed.

(** C10. In every successful answer (status 200) of GET /meetings/<date_str>
    and of POST /search-meetings, [count] is the length of the [meetings]
    array. *)
Theorem count_is_the_number_of_meetings (req : Request) s resp s' :
  (exists date_str, req = GET_meetings date_str) \/
  (exists get_json, req = POST_search_meetings get_json) ->
  handle req s = (Ok resp, s') ->
  status resp = 200%Z ->
  exists objs,
    field "meetings" (body resp) = Some (JArr objs) /\
    field "count" (body resp) = Some (JNum (Z.of_nat (length objs))).
Proof.
  intros Hreq H Hst.
  assert (Hne : req <> GET_health)
    by (destruct Hreq as [[? ->]|[? ->]]; discriminate).
  apply handle_cases in H; [|exact Hne].
  destruct H as [(_ & -> & _) | (agent & _ & [H | (e & _ & ->)])].
  - rewrite status_unavailable in Hst. discriminate Hst.
  - destruct Hreq as [[d ->]|[gj ->]]; simpl in H.
    + apply date_try_outcomes in H. destruct H as (new & _ & objs & -> & _).
      exists objs. split; reflexivity.
    + apply search_try_outcomes in H.
      destruct H as (new & _ & [(d & k & _ & _ & _ & _ & ->)
                               | (d & k & objs & _ & _ & _ & -> & _)]).
      * discriminate Hst.
      * exists objs. split; reflexivity.
  - rewrite status_failure in Hst. discriminate Hst.
Qed.



(** **** The statuses of the answers *)

(** A handler answers, unless something that is not an [Exception] goes
    through it: no [Exception] leaves a handler. *)
Lemma handle_total (req : Request) s :
  (exists resp s', handle req s = (Ok resp, s')) \/
  (exists e s', handle req s = (Exit e, s')).
Proof.
  destruct (health_or_not req) as [->|Hreq].
  - simpl. unfold health_check, bind, read_calendar_agent, datetime_now, ret.
    eauto.
  - rewrite (handle_guard req s Hreq).
    destruct (calendar_agent (globals s)) as [agent|]; [|eauto].
    destruct (try_block agent req s) as [[r|e|e] s1]; eauto.
Qed.

(** The answers of a [try] block that did not raise. *)
Lemma try_block_answers agent (req : Request) s resp s1 :
  req <> GET_health ->
  try_block agent req s = (Ok resp, s1) ->
  (status resp = 200%Z /\
   (forall id, req = GET_meeting id ->
               fst (get_meeting_by_id agent id (world s)) <> Ok None) /\
   (forall data keyword,
      req = POST_search_meetings (Ok data) ->
      dict_get data "keyword" (JStr "") = Ok keyword ->
      truthy keyword = true)) \/
  (exists id, req = GET_meeting id /\ resp = not_found /\
              fst (get_meeting_by_id agent id (world s)) = Ok None) \/
  (exists data keyword,
     req = POST_search_meetings (Ok data) /\
     dict_get data "keyword" (JStr "") = Ok keyword /\
     truthy keyword = false /\ resp = keyword_required /\ s1 = s).
Proof.
  intros Hreq H. destruct req; [congruence| | | |]; simpl in H.
  - apply date_try_outcomes in H. destruct H as (new & _ & objs & -> & _).
    left. split; [reflexivity|]. split; intros; discriminate.
  - unfold get_meeting_details_try, bind at 1, meeting_by_id, call in H.
    destruct (get_meeting_by_id agent id (world s)) as [[[m|]|e0|e0] w1] eqn:F;
      simpl in H.
    + unfold bind, ret in H.
      match type of H with
      | context [meeting_details agent m ?s0] =>
          destruct (meeting_details agent m s0) as [[v|e1|e1] s2]
      end; inversion H; subst.
      left. split; [reflexivity|]. split; [|intros; discriminate].
      intros id' Hid. inversion Hid; subst. rewrite F. discriminate.
    + inversion H; subst. right. left. exists id. rewrite F. auto.
    + discriminate H.
    + discriminate H.
  - apply next_try_outcomes in H.
    destruct H as (new & Hc & [[-> ->] | (m & rs & a & b & -> & _)] & _);
      left; (split; [reflexivity|]); split; intros; discriminate.
  - pose proof H as H0. apply search_try_outcomes in H.
    destruct H as (new & Hc & [(d & k & -> & Hd & Ht & -> & ->)
                             | (d & k & objs & -> & Hd & Ht & -> & _)]).
    + right. right. exists d, k. split; [reflexivity|].
      split; [exact Hd|]. split; [exact Ht|]. split; [reflexivity|].
      unfold search_meetings_try, bind, lift in H0. rewrite Hd, Ht in H0.
      simpl in H0. inversion H0. reflexivity.
    + left. split; [reflexivity|]. split; [intros; discriminate|].
      intros d' k' Hq Hd'. inversion Hq; subst. congruence.
Qed.

(** C3, as the code has it.  Every request is answered with a JSON body
    and one of the statuses 200, 400, 404, 500, unless something that is
    not an [Exception] leaves the [try] block of its handler, which then
    leaves the handler too.  Every answer that is not a 200 carries an
    [error] text.  GET /health is always a 200.  For the four other
    handlers the status is 500 exactly when the agent is missing or the
    [try] block raised an [Exception], whose text is then the [error]; it
    is 404 exactly for GET /meeting/<meeting_id> when [get_meeting_by_id]
    found nothing, with the error "Meeting not found"; it is 400 exactly
    for POST /search-meetings with no keyword, or one that is empty, with
    the error "Keyword is required" and nothing called.  When
    GET /next-meeting finds no meeting the answer is a 200 with a message
    and a null [meeting]. *)
Theorem failures_answer_500_404_or_400 (req : Request) s :
  (exists e s',
     handle req s = (Exit e, s') /\ req <> GET_health /\
     exists agent,
       calendar_agent (globals s) = Some agent /\
       try_block agent req s = (Exit e, s')) \/
  (exists resp s',
     handle req s = (Ok resp, s') /\
     (status resp = 200 \/ status resp = 400 \/ status resp = 404 \/
      status resp = 500)%Z /\
     (status resp <> 200%Z ->
      exists msg, field "error" (body resp) = Some (JStr msg)) /\
     (req = GET_health -> status resp = 200%Z) /\
     (status resp = 500%Z <->
      req <> GET_health /\
      (calendar_agent (globals s) = None \/
       exists agent e,
         calendar_agent (globals s) = Some agent /\
         fst (try_block agent req s) = Raise e)) /\
     (status resp = 500%Z ->
      (calendar_agent (globals s) = None /\ s' = s /\
       field "error" (body resp) = Some (JStr "Calendar agent not available"))
      \/
      (exists agent e,
         calendar_agent (globals s) = Some agent /\
         fst (try_block agent req s) = Raise e /\
         field "error" (body resp) = Some (JStr (exc_str e)))) /\
     (status resp = 404%Z <->
      exists id agent,
        req = GET_meeting id /\
        calendar_agent (globals s) = Some agent /\
        fst (get_meeting_by_id agent id (world s)) = Ok None) /\
     (status resp = 404%Z ->
      resp = mkResponse 404 (JObj [("error", JStr "Meeting not found")])) /\
     (status resp = 400%Z <->
      exists data keyword agent,
        req = POST_search_meetings (Ok data) /\
        calendar_agent (globals s) = Some agent /\
        dict_get data "keyword" (JStr "") = Ok keyword /\
        truthy keyword = false) /\
     (status resp = 400%Z ->
      resp = mkResponse 400 (JObj [("error", JStr "Keyword is required")]) /\
      s' = s) /\
     (forall agent,
        req = GET_next_meeting ->
        calendar_agent (globals s) = Some agent ->
        fst (get_next_meeting_info agent (world s)) = Ok None ->
        resp = mkResponse 200 (JObj [
                 ("message", JStr "No upcoming meetings found");
                 ("meeting", JNull) ]))).
Proof.
  destruct (health_or_not req) as [->|Hreq].
  { right. simpl.
    unfold health_check, bind, read_calendar_agent, datetime_now, ret.
    do 2 eexists. split; [reflexivity|]. simpl.
    split; [auto|]. split; [congruence|]. split; [reflexivity|].
    split; [split; [discriminate | intros [H _]; congruence]|].
    split; [discriminate|].
    split; [split; [discriminate | intros (? & ? & ? & _); discriminate]|].
    split; [discriminate|].
    split; [split; [discriminate | intros (? & ? & ? & ? & _); discriminate]|].
    split; [discriminate|]. intros ? ?; discriminate. }
  rewrite (handle_guard req s Hreq).
  destruct (calendar_agent (globals s)) as [agent|] eqn:Ha.
  2:{ right. do 2 eexists. split; [reflexivity|]. rewrite status_unavailable.
      split; [auto|].
      split; [intros _; destruct req; simpl; eauto|].
      split; [intros ->; congruence|].
      split; [split; auto|].
      split; [intros _; left; destruct req; try congruence; auto|].
      split; [split; [discriminate
                     | intros (? & ? & _ & ? & _); discriminate]|].
      split; [discriminate|].
      split; [split; [discriminate
                     | intros (? & ? & ? & _ & ? & _); discriminate]|].
      split; [discriminate|]. intros ? _ ?; discriminate. }
  destruct (try_block agent req s) as [[resp|e|e] s1] eqn:E.
  - right. do 2 eexists. split; [reflexivity|].
    pose proof (try_block_answers _ _ _ _ _ Hreq E) as Hans.
    split; [|split; [|split; [|split; [|split; [|split;
            [|split; [|split; [|split]]]]]]]].
    + destruct Hans as [(H & _) | [(id & _ & -> & _)
                                  | (d & k & _ & _ & _ & -> & _)]]; auto.
    + intros Hne.
      destruct Hans as [(H & _) | [(id & _ & -> & _)
                                  | (d & k & _ & _ & _ & -> & _)]];
        [congruence | simpl; eauto | simpl; eauto].
    + intros ->. congruence.
    + split.
      * intros H500.
        destruct Hans as [(H & _) | [(id & _ & -> & _)
                                    | (d & k & _ & _ & _ & -> & _)]];
          [congruence | discriminate H500 | discriminate H500].
      * intros [_ [Hn | (agent' & e & Ha' & He)]]; [discriminate Hn|].
        inversion Ha'; subst agent'. rewrite E in He. discriminate He.
    + intros H500.
      destruct Hans as [(H & _) | [(id & _ & -> & _)
                                  | (d & k & _ & _ & _ & -> & _)]];
        [congruence | discriminate H500 | discriminate H500].
    + split.
      * intros H404.
        destruct Hans as [(H & _) | [(id & -> & _ & Hf)
                                    | (d & k & _ & _ & _ & -> & _)]];
          [congruence | exists id, agent; auto | discriminate H404].
      * intros (id & agent' & -> & Ha' & Hf). inversion Ha'; subst agent'.
        destruct Hans as [(_ & Hn & _) | [(id' & _ & -> & _)
                                         | (d & k & Hq & _)]];
          [exfalso; exact (Hn id eq_refl Hf) | reflexivity | discriminate Hq].
    + intros H404.
      destruct Hans as [(H & _) | [(id & _ & -> & _)
                                  | (d & k & _ & _ & _ & -> & _)]];
        [congruence | reflexivity | discriminate H404].
    + split.
      * intros H400.
        destruct Hans as [(H & _) | [(id & _ & -> & _)
                                    | (d & k & -> & Hd & Ht & _)]];
          [congruence | discriminate H400 | exists d, k, agent; auto].
      * intros (d & k & agent' & -> & Ha' & Hd & Ht).
        destruct Hans as [(_ & _ & Hn) | [(id' & Hq & _)
                                         | (d' & k' & _ & _ & _ & -> & _)]];
          [|discriminate Hq | reflexivity].
        rewrite (Hn d k eq_refl Hd) in Ht. discriminate Ht.
    + intros H400.
      destruct Hans as [(H & _) | [(id & _ & -> & _)
                                  | (d & k & _ & _ & _ & -> & ->)]];
        [congruence | discriminate H400 | auto].
    + intros agent' -> Ha' Hnone. inversion Ha'; subst agent'.
      simpl in E. unfold get_next_meeting_try, bind, next_meeting_info, call in E.
      destruct (get_next_meeting_info agent (world s)) as [r0 w1].
      simpl in Hnone. subst r0. inversion E; subst. reflexivity.
  - right. do 2 eexists. split; [reflexivity|]. rewrite status_failure.
    split; [auto|].
    split; [intros _; destruct req; simpl; eauto|].
    split; [intros ->; congruence|].
    split; [split; [|reflexivity]; intros _; split; [exact Hreq|]; right;
            exists agent, e; rewrite E; auto|].
    split; [intros _; right; exists agent, e; rewrite E;
            split; [reflexivity|]; split; [reflexivity|];
            destruct req; try congruence; reflexivity|].
    split; [split; [discriminate|]|].
    { intros (id & agent' & -> & Ha' & Hf). inversion Ha'; subst agent'.
      simpl in E. unfold get_meeting_details_try, bind, meeting_by_id, call in E.
      destruct (get_meeting_by_id agent id (world s)) as [r0 w1].
      simpl in Hf. subst r0. inversion E. }
    split; [discriminate|].
    split; [split; [discriminate|]|].
    { intros (d & k & agent' & -> & Ha' & Hd & Ht).
      simpl in E. unfold search_meetings_try, bind, lift in E.
      rewrite Hd, Ht in E. simpl in E. inversion E. }
    split; [discriminate|].
    intros agent' -> Ha' Hnone. inversion Ha'; subst agent'.
    simpl in E. unfold get_next_meeting_try, bind, next_meeting_info, call in E.
    destruct (get_next_meeting_info agent (world s)) as [r0 w1].
    simpl in Hnone. subst r0. inversion E.
  - left. exists e, s1. split; [reflexivity|]. split; [exact Hreq|].
    exists agent. auto.
Qed.

(** **** The health check *)

(** C9. GET /health answers status 200 with [status] "healthy" in every
    state, the one where the agent could not be built included; whether
    the agent is there shows in [agent_available] only, which is false
    exactly when [calendar_agent] is [None].  (A constructor that leaves
    with something that is not an [Exception] ends the start-up: there is
    no application then.) *)
Theorem health_check_is_always_healthy :
  (forall s,
     health_check s =
       (Ok (healthy (match calendar_agent (globals s) with
                     | Some _ => true
                     | None => false
                     end) (clock s)), s)) /\
  (forall (constructor : W -> result Agent * W) (w : W) (now : datetime),
     match fst (constructor w) with
     | Ok _ =>
         exists s, module_init constructor w now = Ok s /\
                   fst (health_check s) = Ok (healthy true now)
     | Raise _ =>
         exists s, module_init constructor w now = Ok s /\
                   fst (health_check s) = Ok (healthy false now)
     | Exit e => module_init constructor w now = Exit e
     end) /\
  (forall available now,
     status (healthy available now) = 200%Z /\
     field "status" (body (healthy available now)) = Some (JStr "healthy") /\
     field "agent_available" (body (healthy available now)) =
       Some (JBool available)).
Proof.
  split; [|split].
  - intros s. reflexivity.
  - intros constructor w now. unfold module_init.
    destruct (constructor w) as [[agent|e|e] w']; simpl;
      [eexists; split; reflexivity | eexists; split; reflexivity
      | reflexivity].
  - intros available now. repeat split.
Qed.

(** **** The routes *)

Lemma append_nil_r (a : string) : a +:+ "" = a.
Proof.
  induction a as [|c a IH]; [reflexivity|].
  change (String c (a +:+ "") = String c a). rewrite IH. reflexivity.
Qed.

Lemma append_snoc (a : string) (c : ascii) (d : string) :
  (a +:+ String c "") +:+ d = a +:+ String c d.
Proof.
  induction a as [|x a IH]; [reflexivity|].
  change (String x ((a +:+ String c "") +:+ d) = String x (a +:+ String c d)).
  rewrite IH. reflexivity.
Qed.

(** A text with no slash is one part of a path. *)
Lemma split_slash_plain (d cur : string) :
  contains "/" d = false -> split_slash d cur = [cur +:+ d].
Proof.
  revert cur. induction d as [|c d IH]; intros cur H; simpl in *.
  - rewrite append_nil_r. reflexivity.
  - apply orb_false_iff in H. destruct H as [Hc Hd]. rewrite Hc.
    rewrite IH by exact Hd. rewrite append_snoc. reflexivity.
Qed.

(** The parts of a path, put together again, are the path. *)
Lemma split_slash_join (p cur : string) :
  join_slash (split_slash p cur) = cur +:+ p.
Proof.
  revert cur. induction p as [|c p IH]; intros cur; simpl.
  - rewrite append_nil_r. reflexivity.
  - destruct (Ascii.eqb_spec c "/") as [->|Hc].
    + specialize (IH EmptyString).
      change (EmptyString +:+ p) with p in IH.
      destruct (split_slash p EmptyString) as [|x l] eqn:E.
      * simpl in IH. subst p. discriminate E.
      * change (join_slash (cur :: x :: l))
          with (cur +:+ String "/" (join_slash (x :: l))).
        rewrite IH. reflexivity.
    + rewrite IH, append_snoc. reflexivity.
Qed.

Lemma contains_append (c : ascii) (a b : string) :
  contains c (a +:+ b) = contains c a || contains c b.
Proof.
  induction a as [|x a IH]; [reflexivity|].
  change (contains c (String x (a +:+ b)) = contains c (String x a) || contains c b).
  simpl. rewrite IH, orb_assoc. reflexivity.
Qed.

(** No part of a path has a slash. *)
Lemma split_slash_parts (p cur : string) :
  contains "/" cur = false ->
  Forall (fun part => contains "/" part = false) (split_slash p cur).
Proof.
  revert cur. induction p as [|c p IH]; intros cur Hcur; simpl.
  - constructor; [exact Hcur | constructor].
  - destruct (Ascii.eqb_spec c "/") as [->|Hc].
    + constructor; [exact Hcur | apply IH; reflexivity].
    + apply IH. rewrite contains_append, Hcur. simpl.
      rewrite orb_false_r. apply Ascii.eqb_neq. exact Hc.
Qed.

Lemma match_parts_plain (rule_parts path_parts args : list string) :
  Forall plain rule_parts ->
  match_parts rule_parts path_parts = Some args ->
  path_parts = rule_parts /\ args = [].
Proof.
  revert path_parts. induction rule_parts as [|r rs IH];
    intros [|p ps] Hr; simpl; try discriminate.
  - intros H. inversion H. auto.
  - inversion Hr as [|? ? [Hp Hv] Hrs]; subst. rewrite Hp, Hv.
    destruct (String.eqb_spec r p) as [->|]; [|discriminate].
    intros H. destruct (IH _ Hrs H) as [-> ->]. auto.
Qed.

Lemma match_parts_variable (rule_parts : list string) (v : string)
    (path_parts args : list string) :
  Forall plain rule_parts ->
  is_path_variable v = false -> is_variable v = true ->
  match_parts (rule_parts ++ [v]) path_parts = Some args ->
  exists d, path_parts = rule_parts ++ [d] /\ d <> EmptyString /\ args = [d].
Proof.
  intros Hr Hp Hv. revert path_parts.
  induction rule_parts as [|r rs IH]; intros [|p ps]; simpl;
    try discriminate.
  - rewrite Hp, Hv. destruct (String.eqb_spec p EmptyString); [discriminate|].
    destruct ps; simpl; [|discriminate]. intros H. inversion H. eauto.
  - inversion Hr as [|? ? [Hp' Hv'] Hrs]; subst. rewrite Hp', Hv'.
    destruct (String.eqb_spec r p) as [->|]; [|discriminate].
    intros H. destruct (IH Hrs _ H) as (d & -> & Hd & ->). eauto.
Qed.

Lemma find_rule_inv rules m path r args :
  find_rule rules m path = Some (r, args) ->
  r ∈ rules /\ match_rule r path = Some args /\
  existsb (method_eqb m) (methods r) = true.
Proof.
  induction rules as [|r0 rules IH]; simpl; [discriminate|].
  destruct (match_rule r0 path) as [args0|] eqn:E.
  - destruct (existsb (method_eqb m) (methods r0)) eqn:Em.
    + intros H. inversion H; subst. split; [apply elem_of_cons; auto | auto].
    + intros H. destruct (IH H) as (Hin & Hrest).
      split; [apply elem_of_cons; auto | exact Hrest].
  - intros H. destruct (IH H) as (Hin & Hrest).
    split; [apply elem_of_cons; auto | exact Hrest].
Qed.

Lemma url_map_rules :
  url_map =
    [ mkRule "/static/<path:filename>" [GET; OPTIONS; HEAD] ep_static true;
      mkRule "/health" [GET; OPTIONS; HEAD] ep_health_check true;
      mkRule "/meetings/<date_str>" [GET; OPTIONS; HEAD]
        ep_get_meetings_for_date true;
      mkRule "/meeting/<meeting_id>" [GET; OPTIONS; HEAD]
        ep_get_meeting_details true;
      mkRule "/next-meeting" [GET; OPTIONS; HEAD] ep_get_next_meeting true;
      mkRule "/search-meetings" [POST; OPTIONS] ep_search_meetings true ].
Proof. reflexivity. Qed.

(** Every answer of a view is a JSON object. *)
Lemma view_body_is_object (req : Request) s resp s' :
  handle req s = (Ok resp, s') -> exists fields, body resp = JObj fields.
Proof.
  intros H.
  destruct (health_or_not req) as [->|Hreq].
  { simpl in H. unfold health_check, bind, read_calendar_agent, datetime_now,
      ret in H. inversion H; subst. simpl. eauto. }
  apply handle_cases in H; [|exact Hreq].
  destruct H as [(_ & -> & _) | (agent & _ & [H | (e & _ & ->)])].
  - destruct req; simpl; eauto.
  - destruct req; [congruence| | | |]; simpl in H.
    + apply date_try_outcomes in H. destruct H as (new & _ & objs & -> & _).
      simpl. eauto.
    + apply details_try_outcomes in H.
      destruct H as (new & _ & [[_ ->] | (m & rs & a & b & -> & _)] & _);
        simpl; eauto.
    + apply next_try_outcomes in H.
      destruct H as (new & _ & [[_ ->] | (m & rs & a & b & -> & _)] & _);
        simpl; eauto.
    + apply search_try_outcomes in H.
      destruct H as (new & _ & [(d & k & _ & _ & _ & _ & ->)
                               | (d & k & objs & _ & _ & _ & -> & _)]);
        simpl; eauto.
  - destruct req; simpl; eauto.
Qed.

Lemma path_of_parts (p : string) (parts : list string) :
  split_slash p EmptyString = parts -> p = join_slash parts.
Proof.
  intros <-. rewrite split_slash_join. reflexivity.
Qed.

Lemma last_part_is_a_segment (p : string) (front : list string) (d : string) :
  split_slash p EmptyString = front ++ [d] -> d <> EmptyString -> segment d.
Proof.
  intros Hs Hd. split; [exact Hd|].
  pose proof (split_slash_parts p EmptyString eq_refl) as Hall.
  rewrite Hs in Hall. apply Forall_app in Hall. destruct Hall as [_ Hall].
  inversion Hall; subst. assumption.
Qed.

Lemma get_or_head (m : Method) :
  existsb (method_eqb m) [GET; OPTIONS; HEAD] = true ->
  true && method_eqb m OPTIONS = false ->
  m = GET \/ m = HEAD.
Proof. destruct m; simpl; intros; try discriminate; auto. Qed.

(** The rule that takes a request and the view it leads to: the path and
    the method are those of one of the five routes. *)
Lemma routed_reaches (m : Method) (p : string) (get_json : result json)
    (r : Rule) (args : list string) (req : Request) :
  find_rule url_map m p = Some (r, args) ->
  provide_automatic_options r && method_eqb m OPTIONS = false ->
  request_of (endpoint r) args get_json = Some req ->
  reaches get_json m p req.
Proof.
  intros Hf Ho Hq. apply find_rule_inv in Hf. destruct Hf as (Hin & Hm & He).
  rewrite url_map_rules in Hin. unfold match_rule in Hm.
  repeat (apply elem_of_cons in Hin; destruct Hin as [->|Hin]);
    [.. | inversion Hin]; cbn [rule endpoint methods
                                provide_automatic_options request_of]
                            in Hq, He, Ho, Hm.
  - discriminate Hq.
  - inversion Hq; subst.
    change (split_slash "/health" "") with [""; "health"] in Hm.
    apply match_parts_plain in Hm; [|repeat constructor].
    destruct Hm as [Hm _]. apply path_of_parts in Hm. subst p.
    apply reach_health. apply get_or_head; assumption.
  - change (split_slash "/meetings/<date_str>" "")
      with ([""; "meetings"] ++ ["<date_str>"]) in Hm.
    apply match_parts_variable in Hm;
      [|repeat constructor | reflexivity | reflexivity].
    destruct Hm as (d & Hm & Hd & ->). inversion Hq; subst.
    pose proof (last_part_is_a_segment p [""; "meetings"] d Hm Hd) as Hseg.
    apply path_of_parts in Hm. subst p.
    apply reach_meetings; [apply get_or_head; assumption | exact Hseg].
  - change (split_slash "/meeting/<meeting_id>" "")
      with ([""; "meeting"] ++ ["<meeting_id>"]) in Hm.
    apply match_parts_variable in Hm;
      [|repeat constructor | reflexivity | reflexivity].
    destruct Hm as (d & Hm & Hd & ->). inversion Hq; subst.
    pose proof (last_part_is_a_segment p [""; "meeting"] d Hm Hd) as Hseg.
    apply path_of_parts in Hm. subst p.
    apply reach_meeting; [apply get_or_head; assumption | exact Hseg].
  - inversion Hq; subst.
    change (split_slash "/next-meeting" "") with [""; "next-meeting"] in Hm.
    apply match_parts_plain in Hm; [|repeat constructor].
    destruct Hm as [Hm _]. apply path_of_parts in Hm. subst p.
    apply reach_next_meeting. apply get_or_head; assumption.
  - inversion Hq; subst.
    change (split_slash "/search-meetings" "")
      with [""; "search-meetings"] in Hm.
    apply match_parts_plain in Hm; [|repeat constructor].
    destruct Hm as [Hm _]. apply path_of_parts in Hm. subst p.
    assert (m = POST) as ->
      by (destruct m; simpl in He, Ho; try discriminate; reflexivity).
    apply reach_search_meetings.
Qed.

Lemma split_slash_under (d : string) :
  contains "/" d = false ->
  split_slash ("/meetings/" +:+ d) EmptyString = [""; "meetings"; d] /\
  split_slash ("/meeting/" +:+ d) EmptyString = [""; "meeting"; d].
Proof.
  intros Hd. split; simpl; change (EmptyString +:+ d) with d;
    rewrite (split_slash_plain d EmptyString Hd); reflexivity.
Qed.

(** A request of one of the five routes is taken by the rule of its view. *)
Lemma reaches_routed (m : Method) (p : string) (get_json : result json)
    (req : Request) :
  reaches get_json m p req ->
  exists r args,
    find_rule url_map m p = Some (r, args) /\
    provide_automatic_options r && method_eqb m OPTIONS = false /\
    request_of (endpoint r) args get_json = Some req.
Proof.
  intros H. inversion H as [m0 Hm | m0 d Hm [Hne Hd] | m0 d Hm [Hne Hd]
                           | m0 Hm | ]; subst.
  - destruct Hm as [-> | ->]; do 2 eexists;
      (split; [reflexivity | split; reflexivity]).
  - apply String.eqb_neq in Hne.
    destruct (split_slash_under d Hd) as [Hs _].
    exists (mkRule "/meetings/<date_str>" [GET; OPTIONS; HEAD]
              ep_get_meetings_for_date true), [d].
    rewrite url_map_rules. unfold find_rule, match_rule. cbn [rule methods].
    rewrite Hs. simpl. rewrite Hne.
    destruct Hm as [-> | ->]; simpl; auto.
  - apply String.eqb_neq in Hne.
    destruct (split_slash_under d Hd) as [_ Hs].
    exists (mkRule "/meeting/<meeting_id>" [GET; OPTIONS; HEAD]
              ep_get_meeting_details true), [d].
    rewrite url_map_rules. unfold find_rule, match_rule. cbn [rule methods].
    rewrite Hs. simpl. rewrite Hne.
    destruct Hm as [-> | ->]; simpl; auto.
  - destruct Hm as [-> | ->]; do 2 eexists;
      (split; [reflexivity | split; reflexivity]).
  - do 2 eexists. split; [reflexivity | split; reflexivity].
Qed.

Lemma serves_handle (m : Method) (p : string) (get_json : result json)
    (view : M (State W) Response) :
  serves get_json m p view <->
  exists req, reaches get_json m p req /\ view = handle req.
Proof.
  split.
  - intros H. destruct H.
    + exists GET_health. split; [constructor; assumption | reflexivity].
    + exists (GET_meetings d). split; [constructor; assumption | reflexivity].
    + exists (GET_meeting d). split; [constructor; assumption | reflexivity].
    + exists GET_next_meeting. split; [constructor; assumption | reflexivity].
    + exists (POST_search_meetings get_json).
      split; [constructor | reflexivity].
  - intros (req & H & ->). destruct H; simpl; constructor; assumption.
Qed.

(** C6, as the code has it.  The application has six rules: the one of the
    static folder, which every Flask application has, and the five of the
    decorators, /health, /meetings/<date_str>, /meeting/<meeting_id>,
    /next-meeting for GET and /search-meetings for POST; each also takes
    OPTIONS, which Flask answers by itself, and those for GET take HEAD.
    A request is answered by a view function exactly when it is a GET or a
    HEAD of one of the four GET paths or a POST of /search-meetings, a
    variable part being a text with no slash that is not empty, and the
    view is then the one decorated with the path.  Every answer of a view
    has a JSON object as its body, and no [Exception] leaves a view.
    OPTIONS is answered by Flask itself on every path that a rule takes. *)
Theorem five_routes_all_json :
  map (fun r => (rule r, methods r, endpoint r, provide_automatic_options r))
      url_map =
    [ ("/static/<path:filename>", [GET; OPTIONS; HEAD], ep_static, true);
      ("/health", [GET; OPTIONS; HEAD], ep_health_check, true);
      ("/meetings/<date_str>", [GET; OPTIONS; HEAD],
       ep_get_meetings_for_date, true);
      ("/meeting/<meeting_id>", [GET; OPTIONS; HEAD],
       ep_get_meeting_details, true);
      ("/next-meeting", [GET; OPTIONS; HEAD], ep_get_next_meeting, true);
      ("/search-meetings", [POST; OPTIONS], ep_search_meetings, true) ] /\
  (forall (constructor : W -> result Agent * W) w now s,
     module_init constructor w now = Ok s -> app (globals s) = url_map) /\
  (forall m path get_json s resp s',
     app (globals s) = url_map ->
     (dispatch_request m path get_json s = (Ok (FromView resp), s') <->
      exists view,
        serves get_json m (path_part path) view /\
        view s = (Ok resp, s'))) /\
  (forall m path get_json (view : M (State W) Response) s,
     serves get_json m path view ->
     (forall e, fst (view s) <> Raise e) /\
     (forall resp s',
        view s = (Ok resp, s') -> exists fields, body resp = JObj fields)) /\
  (forall path get_json s,
     app (globals s) = url_map ->
     dispatch_request OPTIONS path get_json s = (Ok DefaultOptions, s) \/
     dispatch_request OPTIONS path get_json s = (Ok NotRouted, s)).
Proof.
  split; [reflexivity|]. split.
  { intros constructor w now s. unfold module_init.
    destruct (constructor w) as [[agent|e|e] w']; intros H; inversion H;
      reflexivity. }
  split.
  { intros m path gj s resp s' Happ. unfold dispatch_request. rewrite Happ.
    split.
    - destruct (find_rule url_map m (path_part path)) as [[r args]|] eqn:F;
        [|discriminate].
      destruct (provide_automatic_options r && method_eqb m OPTIONS) eqn:Ho;
        [discriminate|].
      destruct (request_of (endpoint r) args gj) as [req|] eqn:Hq;
        [|discriminate].
      destruct (handle req s) as [[resp0|e|e] s0] eqn:Hh; intros H;
        inversion H; subst.
      exists (handle req). split; [|exact Hh].
      apply serves_handle. exists req. split; [|reflexivity].
      eapply routed_reaches; eauto.
    - intros (view & Hv & Hh). apply serves_handle in Hv.
      destruct Hv as (req & Hr & ->). apply reaches_routed in Hr.
      destruct Hr as (r & args & -> & -> & ->). rewrite Hh. reflexivity. }
  split.
  { intros m path gj view s Hv. apply serves_handle in Hv.
    destruct Hv as (req & _ & ->). split.
    - intros e H.
      destruct (handle_total req s) as [(resp & s' & Hh) | (e' & s' & Hh)];
        rewrite Hh in H; discriminate H.
    - apply view_body_is_object. }
  intros path gj s Happ. unfold dispatch_request. rewrite Happ.
  destruct (find_rule url_map OPTIONS (path_part path)) as [[r args]|] eqn:F;
    [|right; reflexivity].
  apply find_rule_inv in F. destruct F as (Hin & _).
  rewrite url_map_rules in Hin.
  repeat (apply elem_of_cons in Hin; destruct Hin as [->|Hin]);
    [.. | inversion Hin]; left; reflexivity.
Qed.

End Proofs.

(** *** The LangChain wrapper *)

Section WrapperProofs.
Import LangChainCalendarAgent.
Context {W : Type}.
Variable json_dumps : json -> string.
Variable invoke :
  AgentExecutor W -> list (string * json) -> @T W (list (string * json)).

(** C4. The wrapper registers exactly four tools, named get_next_meeting,
    get_meetings_for_date, search_meetings and get_meeting_by_id, in this
    order; each calls one calendar operation (the next meeting, the events
    of a day, the search by keyword with five results at most, the meeting
    of an id).  The agent is built on these tools from a template with the
    steps of ReAct (Thought, Action among [{tool_names}], Action Input,
    Observation, Final Answer), whose [tool_names] are the four names.
    [run] invokes, once, an executor of that agent and these tools with
    [max_iterations] 5, on the query as [input], and answers its [output];
    when the invocation raises an [Exception], or gives no [output], the
    answer is "Error executing agent: " and the text of the error. *)
Theorem wrapper_registers_four_tools
    (calendar : CalendarAgent W) (api_key : option string) :
  let self := __init__ json_dumps calendar api_key in
  map name (tools self) =
    ["get_next_meeting"; "get_meetings_for_date"; "search_meetings";
     "get_meeting_by_id"] /\
  (forall input w,
     map (fun tool => operations_of tool input w) (tools self) =
       [ [OpNextMeeting]; [OpEventsForDay input]; [OpSearch input 5];
         [OpMeetingById input] ]) /\
  agent_tools (agent self) = tools self /\
  Forall (fun step => occurs step (template (agent_prompt (agent self))) = true)
    [ "{tools}"; "Question: "; "Thought: "; "Action: ";
      "should be one of [{tool_names}]"; "Action Input: "; "Observation: ";
      "Final Answer: "; "{input}"; "{agent_scratchpad}" ] /\
  assoc "tool_names"
    (map (fun kv => (fst kv, JStr (snd kv)))
         (partial_variables (agent_prompt (agent self)))) =
    Some (JStr "get_next_meeting, get_meetings_for_date, search_meetings, get_meeting_by_id") /\
  (forall query st,
     run invoke self query st =
       match invoke (mkExecutor (agent self) (tools self) true 5)
                    [("input", JStr query)] st with
       | (Ok result, st') =>
           match assoc "output" result with
           | Some output => (Ok output, st')
           | None => (Ok (JStr "Error executing agent: 'output'"), st')
           end
       | (Raise e, st') =>
           (Ok (JStr ("Error executing agent: " +:+ exc_str e)), st')
       | (Exit e, st') => (Exit e, st')
       end).
Proof.
  intros self. split; [reflexivity|]. split.
  { intros input w. unfold operations_of. simpl.
    unfold get_next_meeting_tool, get_meetings_for_date_tool,
      search_meetings_tool, get_meeting_by_id_tool, try_except, bind, operate.
    simpl.
    destruct (get_next_meeting_info calendar w) as [[[i|]|e|e] w1];
      destruct (get_events_for_day calendar input w) as [[d|e2|e2] w2];
      destruct (search_meetings_by_keyword calendar input 5 w)
        as [[l|e3|e3] w3];
      destruct (get_meeting_info_by_id calendar input w)
        as [[[j|]|e4|e4] w4];
      simpl;
      repeat match goal with
             | |- context [if ?b then _ else _] => destruct b
             end;
      reflexivity. }
  split; [reflexivity|].
  split; [repeat constructor|].
  split; [reflexivity|].
  intros query st. unfold run, try_except, bind, agent_executor.
  destruct (invoke (mkExecutor (agent self) (tools self) true 5)
                   [("input", JStr query)] st) as [[result|e|e] st'];
    [|reflexivity|reflexivity].
  destruct (assoc "output" result); reflexivity.
Qed.

End WrapperProofs.

(* ===================================================================== *)
(** ** The properties on the demo calendar *)
(* ===================================================================== *)

(** C1 on 2025-09-24, where no spelling of the date finds a meeting and the
    keyword scan does. *)
Lemma date_lookup_is_a_cascade_witness :
  let agent := Demo.calendar false true true in
  let s := Demo.started agent in
  let date_str := "2025-09-24" in
  let target_date := mkDateTime 2025 9 24 0 0 0 0 None in
  calendar_agent (globals s) = Some agent /\
  strptime_Ymd date_str = Ok target_date /\
  exists evs12 evs3 r12 s1,
    calls s1 = calls s ++ map ev_call (evs12 ++ evs3) /\
    first_hit
      [ (JStr "2025-09-24", 10%nat);
        (JStr "September 24, 2025", 10%nat);
        (JStr "Sep 24, 2025", 10%nat);
        (JStr "09/24/2025", 10%nat);
        (JStr "09/24", 10%nat);
        (JStr "24", 10%nat);
        (JStr "2025-09-24", 10%nat) ]
      evs12 r12 /\
    match r12 with
    | Exit e =>
        evs3 = [] /\
        get_meetings_for_date date_str s = (Exit e, s1)
    | Raise e =>
        evs3 = [] /\
        get_meetings_for_date date_str s = (Ok (date_error e), s1)
    | Ok (m :: ms) =>
        evs3 = [] /\
        get_meetings_for_date date_str s =
          try_except (answer_for_date agent date_str (m :: ms))
                     (fun e => ret (date_error e)) s1
    | Ok [] =>
        exists r3,
          scan_all
            [ (JStr "meeting", 20%nat); (JStr "interview", 20%nat);
              (JStr "call", 20%nat); (JStr "appointment", 20%nat);
              (JStr "session", 20%nat); (JStr "discussion", 20%nat);
              (JStr "event", 20%nat) ]
            evs3 r3 /\
          match r3 with
          | Ok all_meetings =>
              exists kept,
                NoDup (map meeting_title kept) /\
                kept `sublist_of` all_meetings /\
                (forall m, m ∈ kept <->
                           first_with_title all_meetings m /\
                           starts_on target_date m) /\
                get_meetings_for_date date_str s =
                  try_except (answer_for_date agent date_str kept)
                             (fun e => ret (date_error e)) s1
          | Raise _ =>
              get_meetings_for_date date_str s =
                try_except (answer_for_date agent date_str [])
                           (fun e => ret (date_error e)) s1
          | Exit e => get_meetings_for_date date_str s = (Exit e, s1)
          end
    end /\
    searches (calls (snd (get_meetings_for_date date_str s))) =
      searches (calls s) ++ evs12 ++ evs3.
Proof.
  intros agent s date_str target_date.
  assert (Ha : calendar_agent (globals s) = Some agent) by reflexivity.
  assert (Hd : strptime_Ymd date_str = Ok target_date) by reflexivity.
  split; [exact Ha|]. split; [exact Hd|].
  exact (date_lookup_is_a_cascade agent date_str target_date s Ha Hd).
Defined.

(** C2 on the same calendar: the scan keeps the interview alone. *)
Lemma keyword_scan_keeps_first_titles_of_the_day_witness :
  let agent := Demo.calendar false true true in
  let s := Demo.started agent in
  let target_date := mkDateTime 2025 9 24 0 0 0 0 None in
  let r := Ok [Demo.interview] in
  let s' := snd (keyword_scan agent target_date [] s) in
  keyword_scan agent target_date [] s = (r, s') /\
  exists evs r3,
    calls s' = calls s ++ map ev_call evs /\
    scan_all keyword_plan evs r3 /\
    match r3 with
    | Ok all_meetings =>
        exists kept,
          r = Ok kept /\
          NoDup (map meeting_title kept) /\
          kept `sublist_of` all_meetings /\
          (forall m, m ∈ kept <->
                     first_with_title all_meetings m /\ starts_on target_date m)
    | Raise e => r = Ok []
    | Exit e => r = Exit e
    end.
Proof.
  intros agent s target_date r s'.
  assert (H : keyword_scan agent target_date [] s = (r, s'))
    by (vm_compute; reflexivity).
  split; [exact H|].
  exact (keyword_scan_keeps_first_titles_of_the_day agent target_date [] s r s' H).
Defined.

(** C5 on the meeting evt1. *)
Lemma meeting_objects_have_the_nine_fields_witness :
  let req := GET_meeting "evt1" in
  let s := Demo.started (Demo.calendar true true true) in
  let resp := answer_of (handle req s) in
  let s' := snd (handle req s) in
  handle req s = (Ok resp, s') /\
  status resp = 200%Z /\
  exists new,
    calls s' = calls s ++ new /\
    Forall2
      (fun v m =>
         exists rs summary questions,
           CResearch m (Ok rs) ∈ new /\
           v = JObj [
             ("id", JStr (meeting_id m));
             ("title", JStr (meeting_title m));
             ("start_time",
               match start_time m with
               | Some dt => JStr (isoformat dt)
               | None => JNull
               end);
             ("end_time",
               match end_time m with
               | Some dt => JStr (isoformat dt)
               | None => JNull
               end);
             ("location",
               match location m with Some t => JStr t | None => JNull end);
             ("description",
               match description m with Some t => JStr t | None => JNull end);
             ("attendees",
               JArr (map (fun r =>
                 JObj [
                   ("name", JStr (display_name (attendee r)));
                   ("email", JStr (email (attendee r)));
                   ("company",
                     match company (attendee r) with
                     | Some t => JStr t
                     | None => JNull
                     end);
                   ("title",
                     match title (attendee r) with
                     | Some t => JStr t
                     | None => JNull
                     end);
                   ("research_summary", JStr (research_summary r));
                   ("found_info", JBool (found_info r)) ]) rs));
             ("research_summary", summary);
             ("preparation_questions", questions) ])
      (meeting_objects req (body resp)) (researched new).
Proof.
  intros req s resp s'.
  assert (H : handle req s = (Ok resp, s')) by reflexivity.
  assert (Hst : status resp = 200%Z) by reflexivity.
  split; [exact H|]. split; [exact Hst|].
  exact (meeting_objects_have_the_nine_fields req s resp s' H Hst).
Defined.

(** The object of evt1, whose times are there, and of a meeting found by a
    search that has an end time of none. *)
Example the_meeting_object_of_evt1 :
  body (answer_of (handle (GET_meeting "evt1")
                     (Demo.started (Demo.calendar true true true)))) =
    JObj [
      ("id", JStr "evt1");
      ("title", JStr "Standup");
      ("start_time", JStr "2025-09-24T09:00:00");
      ("end_time", JStr "2025-09-24T09:15:00");
      ("location", JStr "Room 1");
      ("description", JStr "Daily standup meeting");
      ("attendees", JArr [
         JObj [ ("name", JStr "Ada");
                ("email", JStr "ada@example.org");
                ("company", JStr "Engines");
                ("title", JNull);
                ("research_summary", JStr "Wrote the first program");
                ("found_info", JBool true) ] ]);
      ("research_summary", JStr "About Standup");
      ("preparation_questions", JStr "What is the agenda?") ].
Proof. reflexivity. Qed.

Example a_meeting_object_with_no_end_time :
  field "meetings"
    (body (answer_of
             (handle (POST_search_meetings
                        (Ok (JObj [("keyword", JStr "interview")])))
                     (Demo.started (Demo.calendar true true true))))) =
    Some (JArr [
      JObj [
        ("id", JStr "evt3");
        ("title", JStr "Interview");
        ("start_time", JStr "2025-09-24T14:00:00");
        ("end_time", JNull);
        ("location", JNull);
        ("description", JStr "Interview with Ada");
        ("attendees", JArr [
           JObj [ ("name", JStr "Ada");
                  ("email", JStr "ada@example.org");
                  ("company", JStr "Engines");
                  ("title", JNull);
                  ("research_summary", JStr "Wrote the first program");
                  ("found_info", JBool true) ] ]);
        ("research_summary", JStr "About Interview");
        ("preparation_questions", JStr "What is the agenda?") ];
      JObj [
        ("id", JStr "evt5");
        ("title", JStr "Review");
        ("start_time", JStr "2025-09-25T11:00:00");
        ("end_time", JNull);
        ("location", JNull);
        ("description", JNull);
        ("attendees", JArr [
           JObj [ ("name", JStr "Ada");
                  ("email", JStr "ada@example.org");
                  ("company", JStr "Engines");
                  ("title", JNull);
                  ("research_summary", JStr "Wrote the first program");
                  ("found_info", JBool true) ] ]);
        ("research_summary", JStr "About Review");
        ("preparation_questions", JStr "What is the agenda?") ] ]).
Proof. reflexivity. Qed.

(** [isoformat] with microseconds and with an offset from UTC. *)
Example isoformat_of_some_datetimes :
  isoformat (mkDateTime 2025 9 24 9 5 7 0 None) = "2025-09-24T09:05:07" /\
  isoformat (mkDateTime 2025 9 24 9 5 7 1500 None) =
    "2025-09-24T09:05:07.001500" /\
  isoformat (mkDateTime 2025 9 24 9 5 7 0 (Some 0%Z)) =
    "2025-09-24T09:05:07+00:00" /\
  isoformat (mkDateTime 2025 9 24 9 5 7 0 (Some (-25200)%Z)) =
    "2025-09-24T09:05:07-07:00" /\
  isoformat (mkDateTime 987 1 2 3 4 5 0 (Some 19800%Z)) =
    "0987-01-02T03:04:05+05:30".
Proof. repeat split. Qed.

(** C10 on a search for "standup". *)
Lemma count_is_the_number_of_meetings_witness :
  let req := POST_search_meetings (Ok (JObj [("keyword", JStr "standup")])) in
  let s := Demo.started (Demo.calendar true true true) in
  let resp := answer_of (handle req s) in
  ((exists date_str, req = GET_meetings date_str) \/
   (exists get_json, req = POST_search_meetings get_json)) /\
  handle req s = (Ok resp, snd (handle req s)) /\
  status resp = 200%Z /\
  exists objs,
    field "meetings" (body resp) = Some (JArr objs) /\
    field "count" (body resp) = Some (JNum (Z.of_nat (length objs))).
Proof.
  intros req s resp.
  assert (Hr : (exists date_str, req = GET_meetings date_str) \/
               (exists get_json, req = POST_search_meetings get_json))
    by (right; eexists; reflexivity).
  assert (H : handle req s = (Ok resp, snd (handle req s))) by reflexivity.
  assert (Hst : status resp = 200%Z) by reflexivity.
  split; [exact Hr|]. split; [exact H|]. split; [exact Hst|].
  exact (count_is_the_number_of_meetings req s resp _ Hr H Hst).
Defined.


(** The same failure in the two kinds of handlers. *)
Example generation_failure_in_a_list :
  let s := Demo.started (Demo.calendar true false true) in
  answer_of (handle (GET_meetings "2025-09-24") s) =
    date_answer "2025-09-24"
      [ meeting_object Demo.standup [Demo.ada]
          (JStr "Error generating research summary")
          (JStr "Error generating preparation questions");
        meeting_object Demo.interview [Demo.ada]
          (JStr "Error generating research summary")
          (JStr "Error generating preparation questions") ].
Proof. reflexivity. Qed.

Example generation_failure_for_one_meeting :
  let s := Demo.started (Demo.calendar true false true) in
  answer_of (handle (GET_meeting "evt1") s) =
    mkResponse 500 (JObj [("error", JStr "LLM unavailable")]) /\
  answer_of (handle GET_next_meeting s) =
    mkResponse 500 (JObj [("error", JStr "LLM unavailable")]).
Proof. split; reflexivity. Qed.


(** A meeting of the day is left out when a meeting with its title, on
    another day, was found first. *)
Example an_earlier_title_hides_a_meeting_of_the_day :
  let agent := Demo.calendar false true true in
  fst (keyword_scan agent (mkDateTime 2025 9 24 0 0 0 0 None) []
         (Demo.started agent)) = Ok [Demo.interview] /\
  starts_on (mkDateTime 2025 9 24 0 0 0 0 None) Demo.standup.
Proof.
  split; [vm_compute; reflexivity|]. eexists. split; reflexivity.
Qed.

(** A search that raises during the keyword scan is swallowed: the answer
    is a 200 with no meeting. *)
Example a_failed_scan_answers_no_meeting :
  answer_of (handle (GET_meetings "2025-09-24")
               (Demo.started (Demo.calendar false true false))) =
    date_answer "2025-09-24" [].
Proof. reflexivity. Qed.

(** C3 as the specification words it does not hold: a search without a
    keyword is answered 400, and no upcoming meeting is answered 200. *)
Lemma statuses_as_specified_fails :
  ~ statuses_as_specified (POST_search_meetings (Ok (JObj [])))
      (Demo.started (Demo.calendar true true true)) /\
  ~ statuses_as_specified GET_next_meeting
      (Demo.started (Demo.calendar false true true)) /\
  answer_of (handle (POST_search_meetings (Ok (JObj [])))
               (Demo.started (Demo.calendar true true true))) =
    mkResponse 400 (JObj [("error", JStr "Keyword is required")]) /\
  answer_of (handle GET_next_meeting
               (Demo.started (Demo.calendar false true true))) =
    mkResponse 200 (JObj [("message", JStr "No upcoming meetings found");
                          ("meeting", JNull)]).
Proof.
  split; [|split; [|split; reflexivity]].
  - intros H. destruct (H _ _ eq_refl) as [H1 _].
    destruct H1 as [H1|H1]; [discriminate | discriminate H1 | discriminate H1].
  - intros H. destruct (H _ _ eq_refl) as [_ H2].
    specialize (H2 eq_refl). discriminate H2.
Qed.

(** The states of the demo are those of the start-up. *)
Example the_demo_states_are_started (agent : CalendarPersonResearchAgent nat) :
  module_init (fun w => (Ok agent, w)) 0%nat Demo.noon =
    Ok (Demo.started agent) /\
  module_init (fun w => (@Raise (CalendarPersonResearchAgent nat) Demo.boom, w))
    0%nat Demo.noon = Ok Demo.not_started /\
  module_init (fun w => (@Exit (CalendarPersonResearchAgent nat) Demo.boom, w))
    0%nat Demo.noon = Exit Demo.boom.
Proof. repeat split. Qed.

(** C6 as the specification words it does not hold: the application has a
    sixth rule, for its static folder, and it answers by itself, not with
    the JSON of a view, a request for a static file and an OPTIONS
    request. *)
Lemma routes_as_specified_fails :
  length (app (globals Demo.not_started)) = 6%nat /\
  fst (dispatch_request GET "/static/popup.js" (Ok JNull) Demo.not_started) =
    Ok (StaticFile "popup.js") /\
  fst (dispatch_request OPTIONS "/health" (Ok JNull) Demo.not_started) =
    Ok DefaultOptions /\
  fst (dispatch_request HEAD "/health" (Ok JNull) Demo.not_started) =
    Ok (FromView (healthy false Demo.noon)) /\
  ~ routes_as_specified Demo.not_started.
Proof.
  split; [reflexivity|]. split; [reflexivity|]. split; [reflexivity|].
  split; [reflexivity|].
  intros [H _]. discriminate H.
Qed.

(* ===================================================================== *)
(** ** Further properties of the server *)
(* ===================================================================== *)

Section Further.
Context {W : Type}.
Local Abbreviation Agent := (CalendarPersonResearchAgent W).
Implicit Types (agent : Agent) (s : State W).

(** X1. A date that [strptime] refuses: the answer is a 500 with the text of
    the error and an empty [meetings], and nothing is called on the agent
    (the state is as before). *)
Theorem unreadable_date_is_a_500_without_calls agent date_str e s :
  calendar_agent (globals s) = Some agent ->
  strptime_Ymd date_str = Raise e ->
  get_meetings_for_date date_str s =
    (Ok (mkResponse 500 (JObj [("error", JStr (exc_str e));
                               ("meetings", JArr [])])), s).
Proof.
  intros Ha Hd.
  unfold get_meetings_for_date, bind at 1, read_calendar_agent. rewrite Ha.
  unfold try_except, get_meetings_for_date_try, bind, lift. rewrite Hd.
  reflexivity.
Qed.

(** X2. Without an agent every handler but the health check answers 500
    with "Calendar agent not available" (and an empty [meetings] for the
    date handler), and leaves the world, the log and the bindings as they
    were. *)
Theorem missing_agent_is_a_500_without_calls (req : Request) s :
  req <> GET_health ->
  calendar_agent (globals s) = None ->
  exists resp,
    handle req s = (Ok resp, s) /\
    status resp = 500%Z /\
    field "error" (body resp) = Some (JStr "Calendar agent not available") /\
    (forall date_str, req = GET_meetings date_str ->
                      field "meetings" (body resp) = Some (JArr [])).
Proof.
  intros Hreq Hn. exists (unavailable req).
  rewrite (handle_guard req s Hreq), Hn.
  split; [reflexivity|]. split; [apply status_unavailable|].
  split; [destruct req; reflexivity|]. intros d ->. reflexivity.
Qed.

(** X3. POST /search-meetings calls nothing on the agent unless the body is
    a dict with a keyword that is true in Python: a body that cannot be
    read (an [Exception] of [get_json]) is a 500 with the text of the
    error, a body that is not a dict a 500 with the AttributeError of
    [data.get], a missing or empty keyword the 400 "Keyword is required";
    the state is as before in all three. *)
Theorem search_without_keyword_calls_nothing agent s :
  calendar_agent (globals s) = Some agent ->
  (forall e, search_meetings (Raise e) s = (Ok (error_500 e), s)) /\
  (forall data,
     (forall fs, data <> JObj fs) ->
     search_meetings (Ok data) s =
       (Ok (error_500
              (AttributeError ("'" +:+ type_name data
                                 +:+ "' object has no attribute 'get'"))), s)) /\
  (forall fs,
     match assoc "keyword" fs with
     | Some v => truthy v = false
     | None => True
     end ->
     search_meetings (Ok (JObj fs)) s = (Ok keyword_required, s)).
Proof.
  intros Ha.
  assert (Hrun : forall gj,
            search_meetings gj s =
              match search_meetings_try agent gj s with
              | (Ok r, s1) => (Ok r, s1)
              | (Raise e, s1) => (Ok (error_500 e), s1)
              | (Exit e, s1) => (Exit e, s1)
              end).
  { intros gj. unfold search_meetings, bind at 1, read_calendar_agent.
    rewrite Ha. reflexivity. }
  split; [|split].
  - intros e. rewrite Hrun. reflexivity.
  - intros data Hd. rewrite Hrun.
    destruct data; try reflexivity. exfalso. eapply Hd. reflexivity.
  - intros fs Hk. rewrite Hrun.
    unfold search_meetings_try, bind, lift, dict_get.
    destruct (assoc "keyword" fs) as [v|]; [rewrite Hk|]; reflexivity.
Qed.

(** X4. POST /search-meetings with a keyword, when it is answered: one
    search is made, for the keyword as it was sent and five results at
    most, and no other.  When it raises the answer is the 500 of its error.
    Otherwise the attendees of the meetings it found are researched in
    their order; the 200 answer repeats the keyword and holds one object
    per meeting found, in the same order; a research that raises ends the
    request with its 500, the meetings after it left alone.  (A request
    that is answered had no call that left with something that is not an
    [Exception].) *)
Theorem search_answers_the_meetings_found_in_order
    agent data keyword s resp s' :
  calendar_agent (globals s) = Some agent ->
  dict_get data "keyword" (JStr "") = Ok keyword ->
  truthy keyword = true ->
  search_meetings (Ok data) s = (Ok resp, s') ->
  exists r new,
    calls s' = calls s ++ CSearch keyword 5 r :: new /\
    searches new = [] /\
    match r with
    | Raise e => new = [] /\ resp = error_500 e
    | Exit _ => False
    | Ok ms =>
        (exists objs,
           resp = search_answer keyword objs /\
           Forall2 describes objs ms /\ researched new = ms) \/
        (exists e before m after log,
           ms = before ++ m :: after /\
           researched new = before ++ [m] /\
           new = log ++ [CResearch m (Raise e)] /\
           resp = error_500 e)
    end.
Proof.
  intros Ha Hk Ht.
  unfold search_meetings, bind at 1, read_calendar_agent. rewrite Ha.
  unfold try_except, search_meetings_try, bind at 1, lift.
  unfold bind at 1. rewrite Hk, Ht. simpl. unfold bind at 1.
  destruct (search_by_keyword agent keyword 5 s) as [[ms|e|e] s1] eqn:E;
    apply search_by_keyword_run in E; simpl in E.
  - unfold bind, ret.
    destruct (enhance_all agent ms [] s1) as [[objs|e|e] s2] eqn:E2;
      apply enhance_all_order in E2; destruct E2 as (new & Hc & Hs & Hr);
      intros H; inversion H; subst; clear H;
      exists (Ok ms), new;
      (split; [rewrite Hc, E, <- app_assoc; reflexivity|]);
      (split; [exact Hs|]).
    + destruct Hr as (added & -> & Hall & Hres). left. exists added.
      split; [reflexivity|]. split; [|exact Hres].
      eapply Forall2_impl; [exact Hall|]. apply answered_for_describes.
    + destruct Hr as (before & m & after & log & Hms & Hres & Hnew).
      right. exists e, before, m, after, log. auto.
  - intros H. inversion H; subst; clear H.
    exists (Raise e), []. auto.
  - intros H. discriminate H.
Qed.

(** X5. GET /meetings/<date_str>, once the three strategies have found the
    meetings [ms]: the attendees are researched meeting by meeting in the
    order found and no further search is made; the 200 answer holds one
    object per meeting found, in the same order; a research that raises
    ends the request with the 500 of its error, the meetings after it left
    alone. *)
Theorem date_answers_the_meetings_found_in_order
    agent date_str target_date ms s s1 resp s' :
  calendar_agent (globals s) = Some agent ->
  strptime_Ymd date_str = Ok target_date ->
  find_meetings agent date_str target_date s = (Ok ms, s1) ->
  get_meetings_for_date date_str s = (Ok resp, s') ->
  exists new,
    calls s' = calls s1 ++ new /\
    searches new = [] /\
    ((exists objs,
        resp = date_answer date_str objs /\
        Forall2 describes objs ms /\ researched new = ms) \/
     (exists e before m after log,
        ms = before ++ m :: after /\
        researched new = before ++ [m] /\
        new = log ++ [CResearch m (Raise e)] /\
        resp = date_error e)).
Proof.
  intros Ha Hd Hf.
  rewrite (get_meetings_for_date_run _ _ _ _ _ _ Ha Hd Hf).
  unfold try_except, answer_for_date, bind, ret.
  destruct (enhance_all agent ms [] s1) as [[objs|e|e] s2] eqn:E2;
    apply enhance_all_order in E2; destruct E2 as (new & Hc & Hs & Hr);
    intros H; inversion H; subst; clear H;
    exists new; (split; [exact Hc|]); (split; [exact Hs|]).
  - destruct Hr as (added & -> & Hall & Hres). left. exists added.
    split; [reflexivity|]. split; [|exact Hres].
    eapply Forall2_impl; [exact Hall|]. apply answered_for_describes.
  - destruct Hr as (before & m & after & log & Hms & Hres & Hnew).
    right. exists e, before, m, after, log. auto.
Qed.

(** X6. GET /meeting/<meeting_id>, call by call: the meeting is looked up
    once; an exception there is a 500, no meeting the 404; otherwise the
    attendees are researched, the summary and then the questions generated,
    each once and each only after the one before answered; the 200 body is
    the meeting with the attendees researched and the two texts generated,
    and the first call that raises ends the request with the 500 of its
    error.  (A request that is answered had no call that left with
    something that is not an [Exception].) *)
Theorem meeting_details_call_by_call agent id s resp s' :
  calendar_agent (globals s) = Some agent ->
  get_meeting_details id s = (Ok resp, s') ->
  exists found new,
    calls s' = calls s ++ CGetById id found :: new /\
    match found with
    | Raise e => new = [] /\ resp = error_500 e
    | Exit _ => False
    | Ok None => new = [] /\ resp = not_found
    | Ok (Some m) =>
        exists r, detailed m new r /\
                  match r with
                  | Ok v => resp = jsonify v
                  | Raise e => resp = error_500 e
                  | Exit _ => False
                  end
    end.
Proof.
  intros Ha.
  unfold get_meeting_details, bind at 1, read_calendar_agent. rewrite Ha.
  unfold try_except, get_meeting_details_try, bind at 1, meeting_by_id, call.
  destruct (get_meeting_by_id agent id (world s)) as [[[m|]|e|e] w1]; simpl.
  - unfold bind, ret.
    match goal with
    | |- context [meeting_details agent m ?s0] =>
        destruct (meeting_details agent m s0) as [r s2] eqn:E
    end.
    apply meeting_details_protocol in E. destruct E as (new & Hc & Hd).
    simpl in Hc.
    intros H. exists (Ok (Some m)), new.
    split.
    + destruct r; inversion H; subst; rewrite Hc, <- app_assoc; reflexivity.
    + exists r. split; [exact Hd|]. destruct r; inversion H; reflexivity.
  - intros H. inversion H; subst; clear H. exists (Ok None), []. auto.
  - intros H. inversion H; subst; clear H. exists (Raise e), []. auto.
  - intros H. discriminate H.
Qed.

(** X7. GET /next-meeting, call by call: the next meeting is asked for
    once; an exception there is a 500, no meeting the 200 message with a
    null [meeting]; otherwise the calls are those of the details of the
    meeting, the 200 body holds the meeting under [meeting], and the first
    call that raises ends the request with the 500 of its error.  (A
    request that is answered had no call that left with something that is
    not an [Exception].) *)
Theorem next_meeting_call_by_call agent s resp s' :
  calendar_agent (globals s) = Some agent ->
  get_next_meeting s = (Ok resp, s') ->
  exists found new,
    calls s' = calls s ++ CNext found :: new /\
    match found with
    | Raise e => new = [] /\ resp = error_500 e
    | Exit _ => False
    | Ok None => new = [] /\ resp = no_upcoming
    | Ok (Some m) =>
        exists r, detailed m new r /\
                  match r with
                  | Ok v => resp = jsonify (JObj [("meeting", v)])
                  | Raise e => resp = error_500 e
                  | Exit _ => False
                  end
    end.
Proof.
  intros Ha.
  unfold get_next_meeting, bind at 1, read_calendar_agent. rewrite Ha.
  unfold try_except, get_next_meeting_try, bind at 1, next_meeting_info, call.
  destruct (get_next_meeting_info agent (world s)) as [[[m|]|e|e] w1]; simpl.
  - unfold bind, ret.
    match goal with
    | |- context [meeting_details agent m ?s0] =>
        destruct (meeting_details agent m s0) as [r s2] eqn:E
    end.
    apply meeting_details_protocol in E. destruct E as (new & Hc & Hd).
    simpl in Hc.
    intros H. exists (Ok (Some m)), new.
    split.
    + destruct r; inversion H; subst; rewrite Hc, <- app_assoc; reflexivity.
    + exists r. split; [exact Hd|]. destruct r; inversion H; reflexivity.
  - intros H. inversion H; subst; clear H. exists (Ok None), []. auto.
  - intros H. inversion H; subst; clear H. exists (Raise e), []. auto.
  - intros H. discriminate H.
Qed.

(** X8. One turn of the loop of the two list handlers, call by call: the
    attendees are researched, then the summary and the questions generated;
    the questions are not asked for when the summary raised; the object has
    the two generated texts when both answered and the two error texts when
    either raised (a summary that was generated is then dropped); only a
    research that raises makes the turn raise.  To raise is to raise an
    [Exception]: a call that leaves with something else is the last of the
    turn, which leaves with it. *)
Theorem list_turn_call_by_call agent m s r s' :
  enhance_meeting agent m s = (r, s') ->
  (exists e,
     calls s' = calls s ++ [CResearch m (Raise e)] /\ r = Raise e) \/
  (exists rs e,
     calls s' = calls s ++ [CResearch m (Ok rs); CSummary m rs (Raise e)] /\
     r = Ok (meeting_object m rs error_summary error_questions)) \/
  (exists rs a e,
     calls s' = calls s ++ [CResearch m (Ok rs); CSummary m rs (Ok a);
                            CQuestions m rs (Raise e)] /\
     r = Ok (meeting_object m rs error_summary error_questions)) \/
  (exists rs a b,
     calls s' = calls s ++ [CResearch m (Ok rs); CSummary m rs (Ok a);
                            CQuestions m rs (Ok b)] /\
     r = Ok (meeting_object m rs (JStr a) (JStr b))) \/
  (exists e,
     calls s' = calls s ++ [CResearch m (Exit e)] /\ r = Exit e) \/
  (exists rs e,
     calls s' = calls s ++ [CResearch m (Ok rs); CSummary m rs (Exit e)] /\
     r = Exit e) \/
  (exists rs a e,
     calls s' = calls s ++ [CResearch m (Ok rs); CSummary m rs (Ok a);
                            CQuestions m rs (Exit e)] /\
     r = Exit e).
Proof. apply enhance_meeting_protocol. Qed.

(** **** How many searches a date costs *)

Lemma first_hit_prefix plan evs r :
  first_hit plan evs r ->
  map ev_query evs = take (length evs) plan /\
  (length evs <= length plan)%nat /\
  (plan <> [] -> evs <> []) /\
  (r = Ok [] -> length evs = length plan).
Proof.
  induction 1 as [|k n plan m ms|k n plan e|k n plan e|k n plan evs r H IH];
    simpl.
  - repeat split; auto.
  - repeat split; auto; try lia; discriminate.
  - repeat split; auto; try lia; discriminate.
  - repeat split; auto; try lia; discriminate.
  - destruct IH as (Hq & Hl & _ & Hr). rewrite Hq.
    repeat split; auto; try lia; try discriminate.
Qed.

Lemma scan_all_prefix plan evs r :
  scan_all plan evs r ->
  map ev_query evs = take (length evs) plan /\
  (length evs <= length plan)%nat.
Proof.
  induction 1 as [|k n plan e|k n plan e|k n plan ms evs r H IH]; simpl.
  - auto.
  - split; [reflexivity | lia].
  - split; [reflexivity | lia].
  - destruct IH as (Hq & Hl). rewrite Hq. split; [reflexivity | lia].
Qed.

(** X9. GET /meetings/<date_str>, the agent being there and the date read:
    the request makes at least one search and at most fourteen, and they
    are the first ones of this list, in its order: the date string, its six
    other spellings (ten results at most each), the seven generic keywords
    (twenty results at most each). *)
Theorem date_lookup_makes_at_most_fourteen_searches
    agent date_str target_date s :
  calendar_agent (globals s) = Some agent ->
  strptime_Ymd date_str = Ok target_date ->
  exists evs,
    searches (calls (snd (get_meetings_for_date date_str s))) =
      searches (calls s) ++ evs /\
    (1 <= length evs <= 14)%nat /\
    map ev_query evs =
      take (length evs) (date_plan date_str target_date ++ keyword_plan).
Proof.
  intros Ha Hd.
  destruct (find_meetings agent date_str target_date s) as [r s1] eqn:Hf.
  pose proof (get_meetings_for_date_run _ _ _ _ _ _ Ha Hd Hf) as Hrun.
  apply find_meetings_cascade in Hf.
  destruct Hf as (evs12 & evs3 & r12 & Hc & Hfh & Hr).
  assert (Hs1 : searches (calls s1) = searches (calls s) ++ evs12 ++ evs3).
  { rewrite Hc, searches_app, searches_ev_calls. reflexivity. }
  assert (Hend : searches (calls (snd (get_meetings_for_date date_str s))) =
                 searches (calls s1)).
  { rewrite Hrun.
    destruct r as [ms|e|e]; [apply quiet_answer | reflexivity | reflexivity]. }
  assert (Hlen : length (date_plan date_str target_date) = 7%nat)
    by reflexivity.
  apply first_hit_prefix in Hfh. destruct Hfh as (Hq & Hl & Hne & Hall).
  assert (Hpos : (1 <= length evs12)%nat).
  { destruct evs12; [exfalso; apply Hne; [discriminate | reflexivity]|].
    simpl. lia. }
  exists (evs12 ++ evs3). split; [rewrite Hend; exact Hs1|].
  assert (Hcase : evs3 = [] \/
                  (length evs12 = 7%nat /\
                   map ev_query evs3 = take (length evs3) keyword_plan /\
                   (length evs3 <= 7)%nat)).
  { destruct r12 as [[|m ms]|e|e].
    - destruct Hr as (r3 & Hs & _). apply scan_all_prefix in Hs.
      destruct Hs as [Hq3 Hl3]. right.
      split; [rewrite Hall by reflexivity; exact Hlen|]. split; [exact Hq3|].
      exact Hl3.
    - left. apply Hr.
    - left. apply Hr.
    - left. apply Hr. }
  destruct Hcase as [-> | (H7 & Hq3 & Hl3)].
  - rewrite app_nil_r. split; [lia|].
    rewrite take_app_le by lia. exact Hq.
  - rewrite length_app. split; [lia|].
    rewrite map_app, Hq, Hq3, H7.
    rewrite take_ge by lia.
    replace (7 + length evs3)%nat
      with (length (date_plan date_str target_date) + length evs3)%nat
      by (rewrite Hlen; reflexivity).
    rewrite take_app_add. reflexivity.
Qed.

(** **** Removing the duplicates *)

Lemma title_has_a_first (l : list Meeting) (t : string) :
  t ∈ titles l -> exists m, meeting_title m = t /\ first_with_title l m.
Proof.
  induction l as [|x l IH]; simpl; intros H; [inversion H|].
  destruct (decide (meeting_title x = t)) as [Hx|Hx].
  - exists x. split; [exact Hx|]. exists [], l. split; [reflexivity|constructor].
  - apply elem_of_cons in H. destruct H as [H|H]; [congruence|].
    destruct (IH H) as (m & Hm & before & after & -> & Hall).
    exists m. split; [exact Hm|]. exists (x :: before), after.
    split; [reflexivity|]. constructor; [congruence | exact Hall].
Qed.

Lemma remove_duplicates_distinct_loop (l u : list Meeting) (seen : gset string) :
  (forall t, t ∈ seen -> t ∉ titles l) ->
  NoDup (titles l) ->
  fst (fold_left remove_duplicates_step l (u, seen)) = u ++ l.
Proof.
  revert u seen. induction l as [|x l IH]; intros u seen Hseen Hnd; simpl.
  - rewrite app_nil_r. reflexivity.
  - simpl in Hnd. apply NoDup_cons in Hnd. destruct Hnd as [Hx Hnd].
    destruct (decide (meeting_title x ∈ seen)) as [Hin|Hnin].
    + exfalso. apply (Hseen _ Hin). simpl. apply elem_of_cons. auto.
    + rewrite IH; [rewrite <- app_assoc; reflexivity | | exact Hnd].
      intros t Ht. apply elem_of_union in Ht. destruct Ht as [Ht|Ht].
      * apply elem_of_singleton in Ht. subst t. exact Hx.
      * intros Hl. apply (Hseen _ Ht). simpl. apply elem_of_cons. auto.
Qed.

(** X10. Removing the duplicates loses no title and never adds a meeting:
    the titles of the result are those of the list given, no longer list
    comes out, a list whose titles are all different comes out as it is,
    and removing the duplicates twice is removing them once. *)
Theorem remove_duplicates_keeps_every_title (all_meetings : list Meeting) :
  (forall t, t ∈ map meeting_title (remove_duplicates all_meetings) <->
             t ∈ map meeting_title all_meetings) /\
  (length (remove_duplicates all_meetings) <= length all_meetings)%nat /\
  (NoDup (map meeting_title all_meetings) ->
   remove_duplicates all_meetings = all_meetings) /\
  remove_duplicates (remove_duplicates all_meetings) =
    remove_duplicates all_meetings.
Proof.
  destruct (remove_duplicates_spec all_meetings) as (Hnd & Hsub & Hmem).
  assert (Hid : forall l, NoDup (titles l) -> remove_duplicates l = l).
  { intros l Hl. unfold remove_duplicates.
    rewrite remove_duplicates_distinct_loop; [reflexivity | | exact Hl].
    intros t Ht. set_solver. }
  split; [|split; [|split]].
  - intros t. split.
    + intros Ht. apply titles_elem_of in Ht. destruct Ht as (m & Hm & <-).
      apply elem_of_titles. eapply elem_of_sublist; eauto.
    + intros Ht. apply title_has_a_first in Ht.
      destruct Ht as (m & <- & Hf). apply elem_of_titles, Hmem, Hf.
  - apply sublist_length. exact Hsub.
  - apply Hid.
  - apply Hid. exact Hnd.
Qed.

(** X11. The handler removes the duplicates before it filters by date.
    Every meeting it keeps would also be kept by filtering first, but not
    the other way round: a meeting of the day is lost when a meeting with
    its title, on another day, was found before it. *)
Theorem filtering_first_would_keep_more :
  (forall (target_date : datetime) (all_meetings : list Meeting) (m : Meeting),
     m ∈ filter_by_date target_date (remove_duplicates all_meetings) ->
     m ∈ remove_duplicates (filter_by_date target_date all_meetings)) /\
  (exists (target_date : datetime) (all_meetings : list Meeting) (m : Meeting),
     m ∈ remove_duplicates (filter_by_date target_date all_meetings) /\
     m ∉ filter_by_date target_date (remove_duplicates all_meetings)).
Proof.
  split.
  - intros t all m. rewrite !filter_by_date_spec.
    rewrite list_elem_of_filter.
    destruct (remove_duplicates_spec all) as (_ & _ & Hmem).
    destruct (remove_duplicates_spec
                (filter (fun m => starts_onb t m = true) all)) as (_ & _ & Hmem').
    rewrite Hmem, Hmem'.
    intros (Hp & before & after & -> & Hall).
    exists (filter (fun m => starts_onb t m = true) before),
           (filter (fun m => starts_onb t m = true) after).
    split.
    + rewrite filter_app, filter_cons_True by exact Hp. reflexivity.
    + rewrite Forall_forall in *. intros x Hx.
      apply list_elem_of_filter in Hx. apply Hall, Hx.
  - exists (mkDateTime 2025 9 24 0 0 0 0 None),
           [Demo.standup_next_day; Demo.standup], Demo.standup.
    split.
    + vm_compute. apply elem_of_cons. left. reflexivity.
    + vm_compute. intros H. inversion H.
Qed.

End Further.

(* ===================================================================== *)
(** ** Further properties of the LangChain wrapper *)
(* ===================================================================== *)

Lemma len_append (a b : string) : len (a +:+ b) = (len a + len b)%nat.
Proof.
  induction a as [|c a IH]; [reflexivity|].
  change (len (String c (a +:+ b)) = (len (String c a) + len b)%nat).
  simpl. destruct (is_continuation c); rewrite IH; reflexivity.
Qed.

Lemma len_take_chars (n : nat) (s : string) :
  (n <= len s)%nat -> len (take_chars n s) = n.
Proof.
  revert n. induction s as [|c s IH]; intros n H; simpl in *.
  - lia.
  - destruct (is_continuation c) eqn:Hc.
    + simpl. rewrite Hc. apply IH. exact H.
    + destruct n as [|n]; [reflexivity|]. simpl. rewrite Hc.
      rewrite IH; [reflexivity | lia].
Qed.

Section WrapperFurther.
Import LangChainCalendarAgent.
Context {W : Type}.
Variable json_dumps : json -> string.
Variable invoke :
  AgentExecutor W -> list (string * json) -> @T W (list (string * json)).

(** X12. The tool for the meetings of a date raises no [Exception]: one of
    the calendar becomes the text
    "Error getting meetings for <date>: <error>"; only what is not an
    [Exception] leaves the tool.  The tool goes by [total_events] alone:
    when that is not positive the answer is
    "No meetings found for date: <date>" whatever [meetings] holds, and
    when it is positive the answer is the dump of one entry per meeting.
    The day is asked for once. *)
Theorem date_tool_catches_exceptions
    (calendar : CalendarAgent W) (date_str : string) (w : W)
    (log : list Operation) :
  (forall e,
     fst (get_meetings_for_date_tool json_dumps calendar date_str (w, log))
       <> Raise e) /\
  snd (get_meetings_for_date_tool json_dumps calendar date_str (w, log)) =
    (snd (get_events_for_day calendar date_str w),
     log ++ [OpEventsForDay date_str]) /\
  match fst (get_events_for_day calendar date_str w) with
  | Raise e =>
      fst (get_meetings_for_date_tool json_dumps calendar date_str (w, log)) =
        Ok ("Error getting meetings for " +:+ date_str +:+ ": " +:+ exc_str e)
  | Exit e =>
      fst (get_meetings_for_date_tool json_dumps calendar date_str (w, log)) =
        Exit e
  | Ok day_events =>
      exists out,
        fst (get_meetings_for_date_tool json_dumps calendar date_str (w, log))
          = Ok out /\
        if (0 <? total_events day_events)%Z
        then exists entries,
               out = json_dumps (JArr entries) /\
               length entries = length (meetings day_events) /\
               Forall (fun entry =>
                         keys entry =
                           ["meeting_title"; "attendee_names"; "start_time";
                            "end_time"; "description"; "location"; "organizer"])
                      entries
        else out = "No meetings found for date: " +:+ date_str
  end.
Proof.
  unfold get_meetings_for_date_tool, try_except, bind, operate, ret. simpl.
  destruct (get_events_for_day calendar date_str w) as [[day|e|e] w1]; simpl.
  - destruct (0 <? total_events day)%Z; simpl.
    + split; [discriminate|]. split; [reflexivity|].
      eexists. split; [reflexivity|].
      eexists. split; [reflexivity|]. split; [apply length_map|].
      induction (meetings day); simpl; constructor; auto.
    + split; [discriminate|]. split; [reflexivity|]. eexists. auto.
  - split; [discriminate|]. auto.
  - split; [discriminate|]. auto.
Qed.

(** X13. The three other tools have no [try]: what the calendar raises, the
    tool raises, after the one operation it calls. *)
Theorem other_tools_raise_what_the_calendar_raises
    (calendar : CalendarAgent W) (input : string) (w : W)
    (log : list Operation) :
  match get_next_meeting_info calendar w with
  | (Raise e, w') =>
      get_next_meeting_tool json_dumps calendar input (w, log) =
        (Raise e, (w', log ++ [OpNextMeeting]))
  | (Exit e, w') =>
      get_next_meeting_tool json_dumps calendar input (w, log) =
        (Exit e, (w', log ++ [OpNextMeeting]))
  | (Ok _, _) => True
  end /\
  match search_meetings_by_keyword calendar input 5 w with
  | (Raise e, w') =>
      search_meetings_tool json_dumps calendar input (w, log) =
        (Raise e, (w', log ++ [OpSearch input 5]))
  | (Exit e, w') =>
      search_meetings_tool json_dumps calendar input (w, log) =
        (Exit e, (w', log ++ [OpSearch input 5]))
  | (Ok _, _) => True
  end /\
  match get_meeting_info_by_id calendar input w with
  | (Raise e, w') =>
      get_meeting_by_id_tool json_dumps calendar input (w, log) =
        (Raise e, (w', log ++ [OpMeetingById input]))
  | (Exit e, w') =>
      get_meeting_by_id_tool json_dumps calendar input (w, log) =
        (Exit e, (w', log ++ [OpMeetingById input]))
  | (Ok _, _) => True
  end.
Proof.
  unfold get_next_meeting_tool, search_meetings_tool, get_meeting_by_id_tool,
    bind, operate. simpl.
  destruct (get_next_meeting_info calendar w) as [[?|?|?] ?];
    destruct (search_meetings_by_keyword calendar input 5 w) as [[?|?|?] ?];
    destruct (get_meeting_info_by_id calendar input w) as [[?|?|?] ?];
    auto.
Qed.

(** X14. The search tool: no meeting found is the text
    "No meetings found for keyword: <query>"; otherwise the dump has one
    entry per meeting found, in their order, whose description is the
    meeting's own when it has 200 characters at most, and its first 200
    characters followed by "..." (203 characters) when it is longer.  The
    characters are those of Python, not the bytes of the text. *)
Theorem search_tool_cuts_long_descriptions
    (calendar : CalendarAgent W) (query : string) (w w' : W)
    (found : list MeetingInfo) (log : list Operation) :
  search_meetings_by_keyword calendar query 5 w = (Ok found, w') ->
  exists out,
    search_meetings_tool json_dumps calendar query (w, log) =
      (Ok out, (w', log ++ [OpSearch query 5])) /\
    match found with
    | [] => out = "No meetings found for keyword: " +:+ query
    | _ :: _ =>
        exists entries,
          out = json_dumps (JArr entries) /\
          Forall2
            (fun entry meeting =>
               keys entry =
                 ["meeting_title"; "person_names"; "start_time"; "description"] /\
               exists shown,
                 field "description" entry = Some (JStr shown) /\
                 (len shown <= 203)%nat /\
                 ((len (original_description meeting) <= 200)%nat ->
                  shown = original_description meeting) /\
                 ((200 < len (original_description meeting))%nat ->
                  shown = take_chars 200 (original_description meeting)
                            +:+ "..." /\
                  len (take_chars 200 (original_description meeting))
                    = 200%nat /\
                  len shown = 203%nat))
            entries found
    end.
Proof.
  intros H. unfold search_meetings_tool, bind, operate, ret. simpl.
  rewrite H. destruct found as [|m0 found0] eqn:Hfound;
    [eexists; split; reflexivity|].
  rewrite <- Hfound. simpl.
  replace (is_empty found) with false by (subst found; reflexivity).
  eexists. split; [reflexivity|]. eexists. split; [reflexivity|].
  clear. induction found as [|m found IH]; simpl; constructor; [|exact IH].
  split; [reflexivity|]. eexists. split; [reflexivity|].
  destruct (200 <? len (original_description m))%nat eqn:L.
  - apply Nat.ltb_lt in L.
    assert (Hcut : len (take_chars 200 (original_description m)) = 200%nat)
      by (apply len_take_chars; lia).
    assert (Hlen : len (take_chars 200 (original_description m) +:+ "...")
                   = 203%nat)
      by (rewrite len_append, Hcut; reflexivity).
    split; [lia|]. split; [lia|]. auto.
  - apply Nat.ltb_ge in L. split; [lia|]. split; [reflexivity | lia].
Qed.

(** X15. [run] raises no [Exception]: it answers the [output] of the
    executor's result, and the text "Error executing agent: <error>" when
    the executor raises one or its result has no [output]; only what is not
    an [Exception] leaves [run].  The state after [run] is the one the
    executor left. *)
Theorem run_catches_exceptions (self : Self W) (query : string)
    (st : W * list Operation) :
  (forall e, fst (run invoke self query st) <> Raise e) /\
  snd (run invoke self query st) =
    snd (invoke (agent_executor self) [("input", JStr query)] st) /\
  match fst (invoke (agent_executor self) [("input", JStr query)] st) with
  | Raise e =>
      fst (run invoke self query st) =
        Ok (JStr ("Error executing agent: " +:+ exc_str e))
  | Exit e => fst (run invoke self query st) = Exit e
  | Ok result =>
      fst (run invoke self query st) =
        Ok (match assoc "output" result with
            | Some output => output
            | None => JStr "Error executing agent: 'output'"
            end)
  end.
Proof.
  unfold run, try_except, bind, ret, raise.
  destruct (invoke (agent_executor self) [("input", JStr query)] st)
    as [[result|e|e] st1]; simpl.
  - destruct (assoc "output" result); (split; [discriminate|]); auto.
  - split; [discriminate|]. auto.
  - split; [discriminate|]. auto.
Qed.

End WrapperFurther.

(* ===================================================================== *)
(** ** Further properties of the date of a request *)
(* ===================================================================== *)

Section Dates.
Local Open Scope Z_scope.

Lemma any_digit_digit (n : Z) (rest : string) :
  any_digit (String (digit n) rest) = Some (n mod 10, rest).
Proof.
  unfold digit.
  assert (H : n mod 10 = 0 \/ n mod 10 = 1 \/ n mod 10 = 2 \/ n mod 10 = 3 \/
              n mod 10 = 4 \/ n mod 10 = 5 \/ n mod 10 = 6 \/ n mod 10 = 7 \/
              n mod 10 = 8 \/ n mod 10 = 9)
    by (pose proof (Z.mod_pos_bound n 10); lia).
  repeat (destruct H as [H|H]; [rewrite H; reflexivity|]).
  rewrite H. reflexivity.
Qed.

Lemma re_Y_zfill4 (y : Z) (rest : string) :
  0 <= y <= 9999 -> re_Y (zfill4 y +:+ rest) = Some (y, rest).
Proof.
  intros Hy. unfold zfill4, zfill2.
  change (re_Y (String (digit (y / 1000)) (String (digit (y / 100))
            (String (digit (y / 10)) (String (digit y) rest))))
          = Some (y, rest)).
  unfold re_Y, followed_by.
  rewrite !any_digit_digit.
  f_equal. f_equal. Z.div_mod_to_equations. lia.
Qed.

Lemma str_year_four_digits (y : Z) : 1000 <= y -> str_year y = zfill4 y.
Proof.
  intros Hy. unfold str_year.
  replace (y <? 10) with false by (symmetry; apply Z.ltb_ge; lia).
  replace (y <? 100) with false by (symmetry; apply Z.ltb_ge; lia).
  replace (y <? 1000) with false by (symmetry; apply Z.ltb_ge; lia).
  reflexivity.
Qed.

Lemma days_in_month_le_31 (y m : Z) : days_in_month y m <= 31.
Proof.
  unfold days_in_month.
  repeat match goal with
         | |- context [if ?b then _ else _] => destruct b
         end; lia.
Qed.

(** The month and the day of a canonical string, for every month and every
    day up to 31. *)
Lemma re_tail_canonical (y : Z) (m d : nat) :
  (1 <= m <= 12)%nat -> (1 <= d <= 31)%nat ->
  dash (first_alt re_m (fun mv =>
    dash (first_alt re_d (fun dv rest => Some (y, mv, dv, rest)))))
    (String "-" (zfill2 (Z.of_nat m) +:+
                 String "-" (zfill2 (Z.of_nat d) +:+ EmptyString))) =
  Some (y, Z.of_nat m, Z.of_nat d, EmptyString).
Proof.
  intros Hm Hd.
  repeat (destruct m as [|m]; [try lia | try lia]);
    repeat (destruct d as [|d]; [try lia | try lia]);
    reflexivity.
Qed.

Lemma strftime_Ymd (y m d : Z) :
  strftime (mkDateTime y m d 0 0 0 0 None) "%Y-%m-%d" =
    str_year y +:+ String "-" (zfill2 m +:+ String "-" (zfill2 d +:+ "")).
Proof. reflexivity. Qed.

Lemma re_match_canonical (y m d : Z) :
  1000 <= y <= 9999 -> 1 <= m <= 12 -> 1 <= d <= 31 ->
  re_match (strftime (mkDateTime y m d 0 0 0 0 None) "%Y-%m-%d") =
    Some (y, m, d, EmptyString).
Proof.
  intros Hy Hm Hd. unfold re_match.
  rewrite strftime_Ymd, str_year_four_digits by lia.
  rewrite re_Y_zfill4 by lia.
  replace m with (Z.of_nat (Z.to_nat m)) by lia.
  replace d with (Z.of_nat (Z.to_nat d)) by lia.
  apply re_tail_canonical; lia.
Qed.

(** X17. A date from the year 1000 on, written YYYY-MM-DD with all its
    zeros, is read back as the date it writes; the last of the six other
    spellings is then the date string itself, so that the seventh search
    of GET /meetings/<date_str> asks again what the first one asked. *)
Theorem a_canonical_date_is_searched_twice (y m d : Z) :
  1000 <= y <= 9999 -> 1 <= m <= 12 -> 1 <= d <= days_in_month y m ->
  let target_date := mkDateTime y m d 0 0 0 0 None in
  let date_str := strftime target_date "%Y-%m-%d" in
  strptime_Ymd date_str = Ok target_date /\
  String.length date_str = 10%nat /\
  date_plan date_str target_date !! 6%nat =
    date_plan date_str target_date !! 0%nat /\
  date_plan date_str target_date !! 0%nat = Some (JStr date_str, 10%nat).
Proof.
  intros Hy Hm Hd target_date date_str.
  pose proof (days_in_month_le_31 y m) as H31.
  split; [|split; [|split; reflexivity]].
  - unfold strptime_Ymd, date_str, target_date.
    rewrite re_match_canonical by lia. simpl.
    replace (y <? 1) with false by (symmetry; apply Z.ltb_ge; lia).
    replace (days_in_month y m <? d) with false
      by (symmetry; apply Z.ltb_ge; lia).
    reflexivity.
  - unfold date_str, target_date.
    rewrite strftime_Ymd, str_year_four_digits by lia. reflexivity.
Qed.

End Dates.

(** Before the year 1000 the date string has its zeros and the seventh
    spelling has not: they differ, and so do the two searches. *)
Example an_early_year_is_spelled_without_zeros :
  strptime_Ymd "0999-09-04" = Ok (mkDateTime 999 9 4 0 0 0 0 None) /\
  strftime (mkDateTime 999 9 4 0 0 0 0 None) "%Y-%m-%d" = "999-09-04" /\
  strftime (mkDateTime 999 9 4 0 0 0 0 None) "%B %d, %Y" = "September 04, 999".
Proof. repeat split. Qed.

(** Dates as [strptime] reads them: the month and the day may have one
    digit, the day a space before it, and a digit of any script counts
    where the pattern has [\d] (here the fullwidth digits of "２０２５" and
    the last digit of the day). *)
Example dates_that_are_read :
  strptime_Ymd "2025-9-4" = Ok (mkDateTime 2025 9 4 0 0 0 0 None) /\
  strptime_Ymd "2025-09- 4" = Ok (mkDateTime 2025 9 4 0 0 0 0 None) /\
  strptime_Ymd "２０２５-09-2４" = Ok (mkDateTime 2025 9 24 0 0 0 0 None) /\
  strptime_Ymd "2025-0９-24" =
    Raise (ValueError
             "time data '2025-0９-24' does not match format '%Y-%m-%d'") /\
  strptime_Ymd "2025-09-24T10:00" =
    Raise (ValueError "unconverted data remains: T10:00") /\
  strptime_Ymd "2025-02-29" =
    Raise (ValueError "day is out of range for month") /\
  strptime_Ymd "0000-01-01" = Raise (ValueError "year 0 is out of range").
Proof. repeat split. Qed.

(** The date string is quoted in the error as [repr] writes it: a tab and
    the control character U+0080 are escaped, a letter with an accent is
    not. *)
Example unreadable_dates_are_quoted :
  strptime_Ymd (String (ascii_of_nat 9) "x") =
    Raise (ValueError
             "time data '\tx' does not match format '%Y-%m-%d'") /\
  strptime_Ymd (String (ascii_of_nat 194) (String (ascii_of_nat 128) "")) =
    Raise (ValueError
             "time data '\x80' does not match format '%Y-%m-%d'") /\
  strptime_Ymd "été" =
    Raise (ValueError
             "time data 'été' does not match format '%Y-%m-%d'").
Proof. repeat split. Qed.

(* ===================================================================== *)
(** ** The further properties on the demo calendar *)
(* ===================================================================== *)

Module WrapperDemo.
Import LangChainCalendarAgent.

Fixpoint filler (n : nat) : string :=
  match n with
  | O => EmptyString
  | S n' => String "x" (filler n')
  end.

Definition long_talk : MeetingInfo :=
  mkInfo "Talk" ["Ada"] None None (filler 250) None None None ["Ada"].

Definition short_talk : MeetingInfo :=
  mkInfo "Chat" [] None None "Coffee" None (Some "Ada") None [].

(** A description of [n] times the letter e with an acute accent, which
    has two bytes. *)
Fixpoint accents (n : nat) : string :=
  match n with
  | O => EmptyString
  | S n' => String (ascii_of_nat 195) (String (ascii_of_nat 169) (accents n'))
  end.

Definition accented_talk (n : nat) : MeetingInfo :=
  mkInfo "Talk" [] None None (accents n) None None None [].

Definition calendar : CalendarAgent unit :=
  mkCalendarAgent
    (fun w => (Ok None, w))
    (fun query max_results w => (Ok [long_talk; short_talk], w))
    (fun date_str w => (Raise Demo.boom, w))
    (fun event_id w => (Ok None, w)).

(** A stand-in for [json.dumps]: the number of entries of a list. *)
Definition dumps (v : json) : string :=
  match v with
  | JArr l => filler (length l)
  | _ => EmptyString
  end.

End WrapperDemo.

Lemma unreadable_date_is_a_500_without_calls_witness :
  let agent := Demo.calendar true true true in
  let s := Demo.started agent in
  let e := ValueError "day is out of range for month" in
  calendar_agent (globals s) = Some agent /\
  strptime_Ymd "2025-02-30" = Raise e /\
  get_meetings_for_date "2025-02-30" s =
    (Ok (mkResponse 500 (JObj [("error", JStr (exc_str e));
                               ("meetings", JArr [])])), s).
Proof.
  intros agent s e.
  assert (Ha : calendar_agent (globals s) = Some agent) by reflexivity.
  assert (Hd : strptime_Ymd "2025-02-30" = Raise e) by reflexivity.
  split; [exact Ha|]. split; [exact Hd|].
  exact (unreadable_date_is_a_500_without_calls agent "2025-02-30" e s Ha Hd).
Defined.

Lemma missing_agent_is_a_500_without_calls_witness :
  let req := GET_meetings "2025-09-24" in
  let s := Demo.not_started in
  req <> GET_health /\
  calendar_agent (globals s) = None /\
  exists resp,
    handle req s = (Ok resp, s) /\
    status resp = 500%Z /\
    field "error" (body resp) = Some (JStr "Calendar agent not available") /\
    (forall date_str, req = GET_meetings date_str ->
                      field "meetings" (body resp) = Some (JArr [])).
Proof.
  intros req s.
  assert (Hr : req <> GET_health) by discriminate.
  assert (Hn : calendar_agent (globals s) = None) by reflexivity.
  split; [exact Hr|]. split; [exact Hn|].
  exact (missing_agent_is_a_500_without_calls req s Hr Hn).
Defined.

Lemma search_without_keyword_calls_nothing_witness :
  let agent := Demo.calendar true true true in
  let s := Demo.started agent in
  calendar_agent (globals s) = Some agent /\
  search_meetings (Ok (JArr [])) s =
    (Ok (error_500 (AttributeError "'list' object has no attribute 'get'")), s) /\
  search_meetings (Ok (JObj [("keyword", JStr "")])) s = (Ok keyword_required, s).
Proof.
  intros agent s.
  assert (Ha : calendar_agent (globals s) = Some agent) by reflexivity.
  destruct (search_without_keyword_calls_nothing agent s Ha) as (_ & H2 & H3).
  split; [exact Ha|]. split.
  - apply (H2 (JArr [])). intros fs. discriminate.
  - apply (H3 [("keyword", JStr "")]). reflexivity.
Defined.

Lemma search_answers_the_meetings_found_in_order_witness :
  let agent := Demo.calendar true true true in
  let s := Demo.started agent in
  let data := JObj [("keyword", JStr "standup")] in
  let keyword := JStr "standup" in
  let resp := answer_of (search_meetings (Ok data) s) in
  let s' := snd (search_meetings (Ok data) s) in
  calendar_agent (globals s) = Some agent /\
  dict_get data "keyword" (JStr "") = Ok keyword /\
  truthy keyword = true /\
  search_meetings (Ok data) s = (Ok resp, s') /\
  exists r new,
    calls s' = calls s ++ CSearch keyword 5 r :: new /\
    searches new = [] /\
    match r with
    | Raise e => new = [] /\ resp = error_500 e
    | Exit _ => False
    | Ok ms =>
        (exists objs,
           resp = search_answer keyword objs /\
           Forall2 describes objs ms /\ researched new = ms) \/
        (exists e before m after log,
           ms = before ++ m :: after /\
           researched new = before ++ [m] /\
           new = log ++ [CResearch m (Raise e)] /\
           resp = error_500 e)
    end.
Proof.
  intros agent s data keyword resp s'.
  assert (Ha : calendar_agent (globals s) = Some agent) by reflexivity.
  assert (Hk : dict_get data "keyword" (JStr "") = Ok keyword) by reflexivity.
  assert (Ht : truthy keyword = true) by reflexivity.
  assert (H : search_meetings (Ok data) s = (Ok resp, s')) by reflexivity.
  split; [exact Ha|]. split; [exact Hk|]. split; [exact Ht|].
  split; [exact H|].
  exact (search_answers_the_meetings_found_in_order
           agent data keyword s resp s' Ha Hk Ht H).
Defined.

Lemma date_answers_the_meetings_found_in_order_witness :
  let agent := Demo.calendar true true true in
  let s := Demo.started agent in
  let date_str := "2025-09-24" in
  let target_date := mkDateTime 2025 9 24 0 0 0 0 None in
  let ms := [Demo.standup; Demo.interview] in
  let s1 := snd (find_meetings agent date_str target_date s) in
  let resp := answer_of (get_meetings_for_date date_str s) in
  let s' := snd (get_meetings_for_date date_str s) in
  calendar_agent (globals s) = Some agent /\
  strptime_Ymd date_str = Ok target_date /\
  find_meetings agent date_str target_date s = (Ok ms, s1) /\
  get_meetings_for_date date_str s = (Ok resp, s') /\
  exists new,
    calls s' = calls s1 ++ new /\
    searches new = [] /\
    ((exists objs,
        resp = date_answer date_str objs /\
        Forall2 describes objs ms /\ researched new = ms) \/
     (exists e before m after log,
        ms = before ++ m :: after /\
        researched new = before ++ [m] /\
        new = log ++ [CResearch m (Raise e)] /\
        resp = date_error e)).
Proof.
  intros agent s date_str target_date ms s1 resp s'.
  assert (Ha : calendar_agent (globals s) = Some agent) by reflexivity.
  assert (Hd : strptime_Ymd date_str = Ok target_date) by reflexivity.
  assert (Hf : find_meetings agent date_str target_date s = (Ok ms, s1))
    by reflexivity.
  assert (H : get_meetings_for_date date_str s = (Ok resp, s')) by reflexivity.
  split; [exact Ha|]. split; [exact Hd|]. split; [exact Hf|].
  split; [exact H|].
  exact (date_answers_the_meetings_found_in_order
           agent date_str target_date ms s s1 resp s' Ha Hd Hf H).
Defined.

Lemma meeting_details_call_by_call_witness :
  let agent := Demo.calendar true true true in
  let s := Demo.started agent in
  let resp := answer_of (get_meeting_details "evt1" s) in
  let s' := snd (get_meeting_details "evt1" s) in
  calendar_agent (globals s) = Some agent /\
  get_meeting_details "evt1" s = (Ok resp, s') /\
  exists found new,
    calls s' = calls s ++ CGetById "evt1" found :: new /\
    match found with
    | Raise e => new = [] /\ resp = error_500 e
    | Exit _ => False
    | Ok None => new = [] /\ resp = not_found
    | Ok (Some m) =>
        exists r, detailed m new r /\
                  match r with
                  | Ok v => resp = jsonify v
                  | Raise e => resp = error_500 e
                  | Exit _ => False
                  end
    end.
Proof.
  intros agent s resp s'.
  assert (Ha : calendar_agent (globals s) = Some agent) by reflexivity.
  assert (H : get_meeting_details "evt1" s = (Ok resp, s')) by reflexivity.
  split; [exact Ha|]. split; [exact H|].
  exact (meeting_details_call_by_call agent "evt1" s resp s' Ha H).
Defined.

Lemma next_meeting_call_by_call_witness :
  let agent := Demo.calendar true false true in
  let s := Demo.started agent in
  let resp := answer_of (get_next_meeting s) in
  let s' := snd (get_next_meeting s) in
  calendar_agent (globals s) = Some agent /\
  get_next_meeting s = (Ok resp, s') /\
  exists found new,
    calls s' = calls s ++ CNext found :: new /\
    match found with
    | Raise e => new = [] /\ resp = error_500 e
    | Exit _ => False
    | Ok None => new = [] /\ resp = no_upcoming
    | Ok (Some m) =>
        exists r, detailed m new r /\
                  match r with
                  | Ok v => resp = jsonify (JObj [("meeting", v)])
                  | Raise e => resp = error_500 e
                  | Exit _ => False
                  end
    end.
Proof.
  intros agent s resp s'.
  assert (Ha : calendar_agent (globals s) = Some agent) by reflexivity.
  assert (H : get_next_meeting s = (Ok resp, s')) by reflexivity.
  split; [exact Ha|]. split; [exact H|].
  exact (next_meeting_call_by_call agent s resp s' Ha H).
Defined.

Lemma list_turn_call_by_call_witness :
  let agent := Demo.calendar true false true in
  let s := Demo.started agent in
  let m := Demo.standup in
  let r := fst (enhance_meeting agent m s) in
  let s' := snd (enhance_meeting agent m s) in
  enhance_meeting agent m s = (r, s') /\
  ((exists e,
      calls s' = calls s ++ [CResearch m (Raise e)] /\ r = Raise e) \/
   (exists rs e,
      calls s' = calls s ++ [CResearch m (Ok rs); CSummary m rs (Raise e)] /\
      r = Ok (meeting_object m rs error_summary error_questions)) \/
   (exists rs a e,
      calls s' = calls s ++ [CResearch m (Ok rs); CSummary m rs (Ok a);
                             CQuestions m rs (Raise e)] /\
      r = Ok (meeting_object m rs error_summary error_questions)) \/
   (exists rs a b,
      calls s' = calls s ++ [CResearch m (Ok rs); CSummary m rs (Ok a);
                             CQuestions m rs (Ok b)] /\
      r = Ok (meeting_object m rs (JStr a) (JStr b))) \/
   (exists e,
      calls s' = calls s ++ [CResearch m (Exit e)] /\ r = Exit e) \/
   (exists rs e,
      calls s' = calls s ++ [CResearch m (Ok rs); CSummary m rs (Exit e)] /\
      r = Exit e) \/
   (exists rs a e,
      calls s' = calls s ++ [CResearch m (Ok rs); CSummary m rs (Ok a);
                             CQuestions m rs (Exit e)] /\
      r = Exit e)).
Proof.
  intros agent s m r s'.
  assert (H : enhance_meeting agent m s = (r, s')) by reflexivity.
  split; [exact H|].
  exact (list_turn_call_by_call agent m s r s' H).
Defined.

Lemma date_lookup_makes_at_most_fourteen_searches_witness :
  let agent := Demo.calendar false true true in
  let s := Demo.started agent in
  let date_str := "2025-09-24" in
  let target_date := mkDateTime 2025 9 24 0 0 0 0 None in
  calendar_agent (globals s) = Some agent /\
  strptime_Ymd date_str = Ok target_date /\
  exists evs,
    searches (calls (snd (get_meetings_for_date date_str s))) =
      searches (calls s) ++ evs /\
    (1 <= length evs <= 14)%nat /\
    map ev_query evs =
      take (length evs) (date_plan date_str target_date ++ keyword_plan).
Proof.
  intros agent s date_str target_date.
  assert (Ha : calendar_agent (globals s) = Some agent) by reflexivity.
  assert (Hd : strptime_Ymd date_str = Ok target_date) by reflexivity.
  split; [exact Ha|]. split; [exact Hd|].
  exact (date_lookup_makes_at_most_fourteen_searches
           agent date_str target_date s Ha Hd).
Defined.

(** On the demo calendar with nothing under the date, all fourteen searches
    are made. *)
Example fourteen_searches_when_nothing_is_found :
  length (searches (calls (snd (get_meetings_for_date "2025-09-24"
            (Demo.started (Demo.calendar false true true)))))) = 14%nat.
Proof. reflexivity. Qed.

Lemma search_tool_cuts_long_descriptions_witness :
  let calendar := WrapperDemo.calendar in
  let found := [WrapperDemo.long_talk; WrapperDemo.short_talk] in
  LangChainCalendarAgent.search_meetings_by_keyword calendar "talk" 5 tt =
    (Ok found, tt) /\
  exists out,
    LangChainCalendarAgent.search_meetings_tool WrapperDemo.dumps calendar
      "talk" (tt, []) =
      (Ok out, (tt, [] ++ [LangChainCalendarAgent.OpSearch "talk" 5])) /\
    match found with
    | [] => out = "No meetings found for keyword: " +:+ "talk"
    | _ :: _ =>
        exists entries,
          out = WrapperDemo.dumps (JArr entries) /\
          Forall2
            (fun entry meeting =>
               keys entry =
                 ["meeting_title"; "person_names"; "start_time"; "description"] /\
               exists shown,
                 field "description" entry = Some (JStr shown) /\
                 (len shown <= 203)%nat /\
                 ((len (LangChainCalendarAgent.original_description meeting)
                   <= 200)%nat ->
                  shown = LangChainCalendarAgent.original_description meeting) /\
                 ((200 < len (LangChainCalendarAgent.original_description
                                meeting))%nat ->
                  shown = take_chars 200
                            (LangChainCalendarAgent.original_description meeting)
                            +:+ "..." /\
                  len (take_chars 200
                         (LangChainCalendarAgent.original_description meeting))
                    = 200%nat /\
                  len shown = 203%nat))
            entries found
    end.
Proof.
  intros calendar found.
  assert (H : LangChainCalendarAgent.search_meetings_by_keyword
                calendar "talk" 5 tt = (Ok found, tt)) by reflexivity.
  split; [exact H|].
  exact (search_tool_cuts_long_descriptions WrapperDemo.dumps calendar "talk"
           tt tt found [] H).
Defined.

Lemma a_canonical_date_is_searched_twice_witness :
  let target_date := mkDateTime 2025 9 4 0 0 0 0 None in
  let date_str := strftime target_date "%Y-%m-%d" in
  (1000 <= 2025 <= 9999)%Z /\ (1 <= 9 <= 12)%Z /\
  (1 <= 4 <= days_in_month 2025 9)%Z /\
  strptime_Ymd date_str = Ok target_date /\
  String.length date_str = 10%nat /\
  date_plan date_str target_date !! 6%nat =
    date_plan date_str target_date !! 0%nat /\
  date_plan date_str target_date !! 0%nat = Some (JStr date_str, 10%nat).
Proof.
  intros target_date date_str.
  assert (Hy : (1000 <= 2025 <= 9999)%Z) by lia.
  assert (Hm : (1 <= 9 <= 12)%Z) by lia.
  assert (Hd : (1 <= 4 <= days_in_month 2025 9)%Z) by (vm_compute; split; discriminate).
  split; [exact Hy|]. split; [exact Hm|]. split; [exact Hd|].
  exact (a_canonical_date_is_searched_twice 2025 9 4 Hy Hm Hd).
Defined.

(** The descriptions are cut by characters: 150 letters of two bytes are
    shown as they are, 201 are cut to the first 200 and the dots. *)
Example descriptions_are_cut_by_characters :
  let calendar (n : nat) :=
    LangChainCalendarAgent.mkCalendarAgent
      (fun w : unit => (Ok None, w))
      (fun query max_results w => (Ok [WrapperDemo.accented_talk n], w))
      (fun date_str w => (Raise Demo.boom, w))
      (fun event_id w => (Ok None, w)) in
  let shown (n : nat) :=
    match fst (LangChainCalendarAgent.search_meetings_tool
                 (fun v => match v with
                           | JArr [entry] =>
                               match field "description" entry with
                               | Some (JStr d) => d
                               | _ => EmptyString
                               end
                           | _ => EmptyString
                           end)
                 (calendar n) "talk" (tt, [])) with
    | Ok out => out
    | _ => EmptyString
    end in
  shown 150%nat = WrapperDemo.accents 150 /\
  String.length (shown 150%nat) = 300%nat /\
  shown 201%nat = WrapperDemo.accents 200 +:+ "..." /\
  String.length (shown 201%nat) = 403%nat.
Proof. vm_compute. repeat split. Qed.
